(** * Deck generator: schema repair, normalization and slide mapping

    A shallow embedding of [content_generator.py] and
    [presentation_engine.py].

    Python values decoded from JSON are the inductive type [json]; a Python
    [dict] is an association list in insertion order with unique keys.
    Python exceptions are the [Raise] outcome of the error monad [res];
    [try ... except Exception] is [try_except].  Text is [string], one
    character per code point (code points below 256). *)

From Stdlib Require Import String Ascii List ZArith Bool Lia Arith.
From Stdlib Require Import DecimalString.
Import ListNotations.

Open Scope string_scope.
Open Scope list_scope.

(** ** Exceptions and the error monad *)

Inductive exn : Type :=
| TypeError
| AttributeError
| KeyError
| IndexError
| ZeroDivisionError
| OSError
| ValueError (msg : string)
| RuntimeError (msg : string)
| JSONDecodeError
| TransportError (msg : string).

Inductive res (A : Type) : Type :=
| Ok (a : A)
| Raise (e : exn).

Arguments Ok {A} a.
Arguments Raise {A} e.

Definition bind {A B : Type} (m : res A) (f : A -> res B) : res B :=
  match m with
  | Ok a => f a
  | Raise e => Raise e
  end.

Notation "x <- m ;; k" := (bind m (fun x => k))
  (at level 61, m at next level, right associativity).

(** [try: m except Exception: h]. *)
Definition try_except {A : Type} (m : res A) (h : exn -> res A) : res A :=
  match m with
  | Ok a => Ok a
  | Raise e => h e
  end.

(** [for x in l: body], with what the body leaves of each item; the
    first exception leaves the loop. *)
Fixpoint for_each {A B : Type} (f : A -> res B) (l : list A) : res (list B) :=
  match l with
  | [] => Ok []
  | x :: r => y <- f x ;; ys <- for_each f r ;; Ok (y :: ys)
  end.

(** ** Python values *)

(** A number as [json.loads] reads it: an [int], or a [float] given by
    the decimal it was written as ([PFloat m e] is [m * 10^e]), or one of
    the constants [NaN], [Infinity], [-Infinity]. *)
Inductive pynum : Type :=
| PInt (z : Z)
| PFloat (m e : Z)
| PNaN
| PInf (negative : bool).

#[local] Set Warnings "-register-all".

Inductive json : Type :=
| JNull
| JBool (b : bool)
| JNum (n : pynum)
| JStr (s : string)
| JList (l : list json)
| JDict (d : list (string * json)).

Definition dict := list (string * json).

(** *** Dictionaries *)

Fixpoint dict_get (k : string) (d : dict) : option json :=
  match d with
  | [] => None
  | (k', v) :: r => if String.eqb k k' then Some v else dict_get k r
  end.

Definition dict_mem (k : string) (d : dict) : bool :=
  match dict_get k d with Some _ => true | None => false end.

(** [d[k] = v]: an existing key keeps its place, a new key goes last. *)
Fixpoint dict_set (k : string) (v : json) (d : dict) : dict :=
  match d with
  | [] => [(k, v)]
  | (k', v') :: r =>
      if String.eqb k k' then (k', v) :: r else (k', v') :: dict_set k v r
  end.

(** *** Text primitives *)

Definition chars (s : string) : list ascii := list_ascii_of_string s.
Definition text (l : list ascii) : string := string_of_list_ascii l.

(** Whitespace of [str.strip] and of [\s] in a [str] pattern. *)
Definition is_space (c : ascii) : bool :=
  let n := nat_of_ascii c in
  (((9 <=? n) && (n <=? 13)) || ((28 <=? n) && (n <=? 32))
  || (n =? 133) || (n =? 160))%nat.

Fixpoint lstrip (l : list ascii) : list ascii :=
  match l with
  | c :: r => if is_space c then lstrip r else l
  | [] => []
  end.

Definition py_strip (s : string) : string :=
  text (rev (lstrip (rev (lstrip (chars s))))).

Definition startswith (p s : string) : bool := String.prefix p s.

(** [s[:n]]. *)
Definition str_take (n : nat) (s : string) : string := String.substring 0 n s.

Fixpoint is_prefix (p l : list ascii) : bool :=
  match p, l with
  | [], _ => true
  | a :: p', b :: l' => Ascii.eqb a b && is_prefix p' l'
  | _ :: _, [] => false
  end.

(** [p in s] for two strings. *)
Fixpoint is_substring (p l : list ascii) : bool :=
  is_prefix p l ||
  match l with
  | [] => false
  | _ :: r => is_substring p r
  end.

(** [sep.join(parts)]. *)
Fixpoint str_join (sep : string) (parts : list string) : string :=
  match parts with
  | [] => ""
  | [x] => x
  | x :: r => x ++ sep ++ str_join sep r
  end.

(** [f"{n}"] for a natural number. *)
Definition str_of_nat (n : nat) : string :=
  NilEmpty.string_of_uint (Nat.to_uint n).

(** *** Truthiness, [len], [in], subscripts, [.get] *)

(** The [float] written as [m * 10^e] is [0.0] when the decimal is zero
    or too small to be one: the conversion rounds to the nearest
    [float], ties to even, and the smallest positive [float] is
    [2^-1074], so every decimal of magnitude at most [2^-1075] gives
    [0.0]. *)
Definition float_is_zero (m e : Z) : bool :=
  (Z.eqb m 0 || (Z.ltb e 0 && Z.leb (Z.abs m * 2 ^ 1075) (10 ^ (- e))))%Z.

Definition truthy (v : json) : bool :=
  match v with
  | JNull => false
  | JBool b => b
  | JNum (PInt z) => negb (Z.eqb z 0)
  | JNum (PFloat m e) => negb (float_is_zero m e)
  | JNum PNaN => true
  | JNum (PInf _) => true
  | JStr s => negb (String.eqb s "")
  | JList l => match l with [] => false | _ => true end
  | JDict d => match d with [] => false | _ => true end
  end.

Definition is_str (v : json) : bool :=
  match v with JStr _ => true | _ => false end.
Definition is_list (v : json) : bool :=
  match v with JList _ => true | _ => false end.
Definition is_dict (v : json) : bool :=
  match v with JDict _ => true | _ => false end.

Definition py_len (v : json) : res nat :=
  match v with
  | JStr s => Ok (String.length s)
  | JList l => Ok (List.length l)
  | JDict d => Ok (List.length d)
  | _ => Raise TypeError
  end.

(** The items a [for] loop visits. *)
Definition py_iter (v : json) : res (list json) :=
  match v with
  | JStr s => Ok (map (fun c => JStr (String c "")) (chars s))
  | JList l => Ok l
  | JDict d => Ok (map (fun kv => JStr (fst kv)) d)
  | _ => Raise TypeError
  end.

(** [v == k] for a string [k]. *)
Definition eq_str (k : string) (v : json) : bool :=
  match v with JStr s => String.eqb k s | _ => false end.

(** [k in v] for a string [k]. *)
Definition py_contains (k : string) (v : json) : res bool :=
  match v with
  | JDict d => Ok (dict_mem k d)
  | JList l => Ok (existsb (eq_str k) l)
  | JStr s => Ok (is_substring (chars k) (chars s))
  | _ => Raise TypeError
  end.

(** [v[k]] for a string [k]. *)
Definition py_getitem (v : json) (k : string) : res json :=
  match v with
  | JDict d => match dict_get k d with Some x => Ok x | None => Raise KeyError end
  | _ => Raise TypeError
  end.

(** [v[k] = x] for a string [k]; the result is the object after the
    assignment. *)
Definition py_setitem (v : json) (k : string) (x : json) : res json :=
  match v with
  | JDict d => Ok (JDict (dict_set k x d))
  | _ => Raise TypeError
  end.

(** [v.get(k, default)]: only a [dict] has the method. *)
Definition py_get (v : json) (k : string) (default : json) : res json :=
  match v with
  | JDict d => Ok (match dict_get k d with Some x => x | None => default end)
  | _ => Raise AttributeError
  end.

(** [v[:n]] on a sequence. *)
Definition py_slice (n : nat) (v : json) : res json :=
  match v with
  | JStr s => Ok (JStr (str_take n s))
  | JList l => Ok (JList (firstn n l))
  | _ => Raise TypeError
  end.

(** JSON texts are written below with an apostrophe where the text has
    a double quote: [json_text s] is [s] with every apostrophe replaced
    by a double quote. *)
Definition json_text (s : string) : string :=
  text (map (fun c => if Ascii.eqb c "'" then "034"%char else c) (chars s)).

(** ** [json.loads]

    The functions of the pipeline take the decoder as a parameter
    [loads]: what is proved of them holds for every decoder.  For the
    examples, the decoder of Python's standard library is written out
    here for texts in the model's character range: the JSON grammar with
    Python's extensions ([NaN], [Infinity], [-Infinity]), strict strings
    (no raw control characters), duplicate keys resolved to the last
    value, integers of at most 4300 digits, a float kept as the decimal
    it was written as.  The strings of the model hold the characters
    below U+0100 only: a [\uXXXX] escape of another character, which
    Python decodes, has no value here and the text is refused.  [None]
    is the exception of the decoder: a [JSONDecodeError], or the
    [ValueError] of an integer that is too long, which the code does
    not tell apart. *)

Open Scope char_scope.

Definition is_json_ws (c : ascii) : bool :=
  match c with
  | " " | "009" | "010" | "013" => true
  | _ => false
  end.

Fixpoint skip_ws (l : list ascii) : list ascii :=
  match l with
  | c :: r => if is_json_ws c then skip_ws r else l
  | [] => []
  end.

Definition is_digit (c : ascii) : bool :=
  let n := nat_of_ascii c in ((48 <=? n) && (n <=? 57))%nat.

Fixpoint span (p : ascii -> bool) (l : list ascii) : list ascii * list ascii :=
  match l with
  | c :: r => if p c then let (a, b) := span p r in (c :: a, b) else ([], l)
  | [] => ([], [])
  end.

Definition digits_value (ds : list ascii) : Z :=
  fold_left (fun acc c => (acc * 10 + Z.of_nat (nat_of_ascii c - 48))%Z) ds 0%Z.

Definition hex_value (c : ascii) : option nat :=
  let n := nat_of_ascii c in
  if ((48 <=? n) && (n <=? 57))%nat then Some (n - 48)
  else if ((65 <=? n) && (n <=? 70))%nat then Some (n - 55)
  else if ((97 <=? n) && (n <=? 102))%nat then Some (n - 87)
  else None.

Definition hex4 (a b c d : ascii) : option nat :=
  match hex_value a, hex_value b, hex_value c, hex_value d with
  | Some x, Some y, Some z, Some w => Some (((x * 16 + y) * 16 + z) * 16 + w)
  | _, _, _, _ => None
  end.

Definition escape_char (c : ascii) : option ascii :=
  match c with
  | "034" => Some "034"
  | "\" => Some "\"
  | "/" => Some "/"
  | "b" => Some "008"
  | "f" => Some "012"
  | "n" => Some "010"
  | "r" => Some "013"
  | "t" => Some "009"
  | _ => None
  end.

Definition cons_char (c : ascii) (o : option (list ascii * list ascii))
  : option (list ascii * list ascii) :=
  match o with
  | Some (s, r) => Some (c :: s, r)
  | None => None
  end.

(** The body of a string literal, after its opening quote. *)
Fixpoint scan_string (l : list ascii) : option (list ascii * list ascii) :=
  match l with
  | [] => None
  | c :: r =>
      if Ascii.eqb c "034" then Some ([], r)
      else if Ascii.eqb c "\" then
        match r with
        | [] => None
        | e :: r1 =>
            if Ascii.eqb e "u" then
              match r1 with
              | h1 :: h2 :: h3 :: h4 :: r2 =>
                  match hex4 h1 h2 h3 h4 with
                  | Some n =>
                      if (n <? 256)%nat
                      then cons_char (ascii_of_nat n) (scan_string r2)
                      else None
                  | None => None
                  end
              | _ => None
              end
            else
              match escape_char e with
              | Some x => cons_char x (scan_string r1)
              | None => None
              end
        end
      else if (nat_of_ascii c <? 32)%nat then None
      else cons_char c (scan_string r)
  end.

Definition signed (neg : bool) (z : Z) : Z := if neg then (- z)%Z else z.

(** [(\.\d+)?] *)
Definition scan_fraction (r : list ascii) : option (list ascii) * list ascii :=
  match r with
  | dot :: d :: r' =>
      if Ascii.eqb dot "." && is_digit d
      then let (fs, t) := span is_digit (d :: r') in (Some fs, t)
      else (None, r)
  | _ => (None, r)
  end.

(** [([eE][-+]?\d+)?] *)
Definition scan_exponent (r : list ascii) : option Z * list ascii :=
  match r with
  | [] => (None, r)
  | e :: r' =>
      if Ascii.eqb e "e" || Ascii.eqb e "E" then
        let '(eneg, r'') :=
          match r' with
          | [] => (false, r')
          | sgn :: t =>
              if Ascii.eqb sgn "-" then (true, t)
              else if Ascii.eqb sgn "+" then (false, t)
              else (false, r')
          end in
        match span is_digit r'' with
        | ([], _) => (None, r)
        | (es, t) => (Some (signed eneg (digits_value es)), t)
        end
      else (None, r)
  end.

(** Fraction and exponent after the integer part [ds]: an [int] when
    there is neither, a [float] otherwise. *)
Definition scan_number_tail (neg : bool) (ds r : list ascii)
  : json * list ascii :=
  let '(frac, r1) := scan_fraction r in
  let '(expo, r2) := scan_exponent r1 in
  match frac, expo with
  | None, None => (JNum (PInt (signed neg (digits_value ds))), r2)
  | _, _ =>
      let fs := match frac with Some fs => fs | None => [] end in
      let ex := match expo with Some ex => ex | None => 0%Z end in
      (JNum (PFloat (signed neg (digits_value (ds ++ fs)))
                    (ex - Z.of_nat (length fs))), r2)
  end.

(** An [int] is made by [int(digits)], which refuses more than 4300
    digits (CPython 3.11 and later); a [float] has no such limit. *)
Definition int_limit (ds : list ascii) (p : json * list ascii)
  : option (json * list ascii) :=
  match fst p with
  | JNum (PInt _) => if (4300 <? length ds)%nat then None else Some p
  | _ => Some p
  end.

Definition scan_number (l : list ascii) : option (json * list ascii) :=
  let '(neg, l1) :=
    match l with
    | [] => (false, l)
    | c :: r => if Ascii.eqb c "-" then (true, r) else (false, l)
    end in
  match l1 with
  | [] => None
  | c :: r =>
      if Ascii.eqb c "0" then int_limit [c] (scan_number_tail neg [c] r)
      else if is_digit c then
        let (ds, r') := span is_digit l1 in
        int_limit ds (scan_number_tail neg ds r')
      else if neg && is_prefix (chars "Infinity") l1 then
        Some (JNum (PInf true), skipn 8 l1)
      else None
  end.

(** [s[idx:idx+len(word)] == word], and what follows the word. *)
Definition scan_word (word : string) (v : json) (l : list ascii)
  : option (json * list ascii) :=
  if is_prefix (chars word) l
  then Some (v, skipn (String.length word) l) else None.

Fixpoint scan_once (fuel : nat) (l : list ascii) : option (json * list ascii) :=
  match fuel with
  | O => None
  | S f =>
      match l with
      | [] => None
      | c :: r =>
          if Ascii.eqb c "034" then
            match scan_string r with
            | Some (s, r') => Some (JStr (text s), r')
            | None => None
            end
          else if Ascii.eqb c "{" then
            match skip_ws r with
            | [] => None
            | c' :: r' =>
                if Ascii.eqb c' "}" then Some (JDict [], r')
                else scan_members f [] (c' :: r')
            end
          else if Ascii.eqb c "[" then
            match skip_ws r with
            | [] => None
            | c' :: r' =>
                if Ascii.eqb c' "]" then Some (JList [], r')
                else scan_items f [] (c' :: r')
            end
          else if Ascii.eqb c "n" then scan_word "null" JNull l
          else if Ascii.eqb c "t" then scan_word "true" (JBool true) l
          else if Ascii.eqb c "f" then scan_word "false" (JBool false) l
          else if Ascii.eqb c "N" then scan_word "NaN" (JNum PNaN) l
          else if Ascii.eqb c "I" then scan_word "Infinity" (JNum (PInf false)) l
          else scan_number l
      end
  end

(** Members of an object, from the first key on; [acc] holds the pairs
    read so far. *)
with scan_members (fuel : nat) (acc : dict) (l : list ascii)
  : option (json * list ascii) :=
  match fuel with
  | O => None
  | S f =>
      match l with
      | [] => None
      | q :: r =>
          if Ascii.eqb q "034" then
            match scan_string r with
            | Some (k, r1) =>
                match skip_ws r1 with
                | [] => None
                | colon :: r2 =>
                    if Ascii.eqb colon ":" then
                      match scan_once f (skip_ws r2) with
                      | Some (v, r3) =>
                          let acc' := dict_set (text k) v acc in
                          match skip_ws r3 with
                          | [] => None
                          | c :: r4 =>
                              if Ascii.eqb c "}" then Some (JDict acc', r4)
                              else if Ascii.eqb c ","
                                   then scan_members f acc' (skip_ws r4)
                                   else None
                          end
                      | None => None
                      end
                    else None
                end
            | None => None
            end
          else None
      end
  end

(** Items of an array, from the first one on; [acc] holds the items read
    so far, last first. *)
with scan_items (fuel : nat) (acc : list json) (l : list ascii)
  : option (json * list ascii) :=
  match fuel with
  | O => None
  | S f =>
      match scan_once f l with
      | Some (v, r1) =>
          match skip_ws r1 with
          | [] => None
          | c :: r2 =>
              if Ascii.eqb c "]" then Some (JList (rev (v :: acc)), r2)
              else if Ascii.eqb c ","
                   then scan_items f (v :: acc) (skip_ws r2)
                   else None
          end
      | None => None
      end
  end.

Close Scope char_scope.

(** [json.loads(s)]: one value between optional whitespace, nothing after
    it.  Every step of the scanner consumes a character, so twice the
    length of the text (and one more) is enough fuel. *)
Definition json_loads (s : string) : res json :=
  let l := chars s in
  match scan_once (S (2 * length l)) (skip_ws l) with
  | Some (v, r) =>
      match skip_ws r with
      | [] => Ok v
      | _ => Raise JSONDecodeError
      end
  | None => Raise JSONDecodeError
  end.

(** ** content_generator.py *)

(** *** The two regular expressions of the repair *)

Fixpoint after_first (c : ascii) (l : list ascii) : option (list ascii) :=
  match l with
  | [] => None
  | x :: r => if Ascii.eqb x c then Some r else after_first c r
  end.

Fixpoint upto_last (c : ascii) (l : list ascii) : option (list ascii) :=
  match l with
  | [] => None
  | x :: r =>
      match upto_last c r with
      | Some m => Some (x :: m)
      | None => if Ascii.eqb x c then Some [x] else None
      end
  end.

(** [re.search(r"\{.*\}", raw, re.S)], the text of the match.  With
    [re.S] the dot matches every character: the leftmost match starts at
    the first opening brace and the greedy star carries it to the last
    closing brace of the text.  When no closing brace follows the first
    opening brace, none follows a later one either: no match. *)
Definition re_search_braces (raw : string) : option string :=
  match after_first "{" (chars raw) with
  | Some r =>
      match upto_last "}" r with
      | Some m => Some (text ("{"%char :: m))
      | None => None
      end
  | None => None
  end.

(** Does [\s*[}\]]] match at the head of [l]? *)
Definition closes (l : list ascii) : bool :=
  match lstrip l with
  | c :: _ => Ascii.eqb c "}" || Ascii.eqb c "]"
  | [] => false
  end.

(** [re.sub(r",(\s*[}\]])", r"\1", s)]: every comma that only whitespace
    separates from a closing brace or bracket is dropped.  The group that
    is put back holds no comma, so copying it character by character is
    the same as copying it at once. *)
Fixpoint drop_trailing_commas (l : list ascii) : list ascii :=
  match l with
  | [] => []
  | c :: r =>
      if Ascii.eqb c "," && closes r then drop_trailing_commas r
      else c :: drop_trailing_commas r
  end.

Definition re_sub_trailing_commas (s : string) : string :=
  text (drop_trailing_commas (chars s)).

(** *** The fallback document *)

Definition parsing_failed (overview : string) : json :=
  JDict [("title", JStr "Parsing Failed"); ("overview", JStr overview);
         ("slides", JList []); ("conclusion", JStr "")].

(** *** The generator client

    The client is an external service.  What a call is asked is a
    function of the phase and of the data the prompt is built from, so a
    call is identified by those.  A call raises, or returns a response
    whose [choices[0].message.content.strip()] raises (no choice, no
    content), or returns a response with a content text. *)

Inductive request : Type :=
| DraftRequest (model topic : string) (web_facts : option (list string))
| PolishRequest (model : string) (draft : json)
    (web_facts : option (list string)).

Inductive llm_response : Type :=
| CallRaises (e : exn)
| Malformed (msg : string)
| Content (s : string).

(** [f"Item {i+1}" for i in range(n)]. *)
Definition item_labels (n : nat) : json :=
  JList (map (fun i => JStr ("Item " ++ str_of_nat (i + 1))) (seq 0 n)).

(** [web_facts[:2] if web_facts else ["General industry reports"]]. *)
Definition backfill (web_facts : option (list string)) : json :=
  match web_facts with
  | Some (f :: fs) => JList (map JStr (firstn 2 (f :: fs)))
  | _ => JList [JStr "General industry reports"]
  end.

Section Generator.

(** [json.loads] and the client, as the code sees them. *)
Variable loads : string -> res json.
Variable client : request -> llm_response.

(** The [except] branch of [safe_json_parse] (lines 43-50). *)
Definition recover (s : string) : res json :=
  recovered <-
    match re_search_braces s with
    | Some m =>
        let candidate := re_sub_trailing_commas m in
        try_except (v <- loads candidate ;; Ok (Some v)) (fun _ => Ok None)
    | None => Ok None
    end ;;
  match recovered with
  | Some v => Ok v
  | None => Ok (parsing_failed (str_take 500 s))
  end.

Definition safe_json_parse (raw : json) : res json :=
  match raw with
  | JStr s =>
      if negb (truthy raw) then Ok (parsing_failed "")
      else
        try_except
          (parsed <- loads s ;;
           match parsed with
           | JStr p =>
               if startswith "{" (py_strip p) then loads p else Ok parsed
           | _ => Ok parsed
           end)
          (fun _ => recover s)
  | _ => Ok (parsing_failed "")
  end.

Definition _call_llm_and_parse (req : request) : res json :=
  match client req with
  | CallRaises e => Raise e
  | Malformed msg => Ok (parsing_failed ("Bad LLM response: " ++ msg))
  | Content s => safe_json_parse (JStr (py_strip s))
  end.

(** The body of [for t in topics]. *)
Definition ensure_topic_sources (web_facts : option (list string)) (t : json)
  : res json :=
  has <- py_contains "sources" t ;;
  missing <-
    (if negb has then Ok true
     else src <- py_getitem t "sources" ;; Ok (negb (is_list src))) ;;
  if missing then py_setitem t "sources" (backfill web_facts) else Ok t.

Definition coerce_topics (topics : json) : list json :=
  match topics with
  | JDict _ => [topics]
  | JList l => l
  | _ => []
  end.

(** The body of [for slide in polished["slides"]]. *)
Definition ensure_slide_sources (web_facts : option (list string))
  (slide : json) : res json :=
  topics <- py_get slide "topics" (JList []) ;;
  topics' <- for_each (ensure_topic_sources web_facts) (coerce_topics topics) ;;
  py_setitem slide "topics" (JList topics').

(** Lines 118-128.  The loop updates the slides in place: the slides of
    a list are the list's own items; the items of a string or of the
    keys of a dict are values of their own. *)
Definition ensure_sources (web_facts : option (list string)) (polished : json)
  : res json :=
  match polished with
  | JDict d =>
      match dict_get "slides" d with
      | Some (JList slides) =>
          slides' <- for_each (ensure_slide_sources web_facts) slides ;;
          Ok (JDict (dict_set "slides" (JList slides') d))
      | Some other =>
          items <- py_iter other ;;
          _ <- for_each (ensure_slide_sources web_facts) items ;;
          Ok polished
      | None => Ok polished
      end
  | _ => Ok polished
  end.

Definition _polish_content (draft : json) (model : string)
  (web_facts : option (list string)) : res json :=
  match client (PolishRequest model draft web_facts) with
  | CallRaises e => Raise e
  | Malformed _ => Ok draft
  | Content s =>
      let raw := py_strip s in
      let raw := match re_search_braces raw with Some m => m | None => raw end in
      polished <- safe_json_parse (JStr raw) ;;
      ensure_sources web_facts polished
  end.

Definition _init_groq_client (api_key : option string) : res unit :=
  match api_key with
  | Some k =>
      if String.eqb k ""
      then Raise (RuntimeError "GROQ_API_KEY is not set. Add it to your .env file.")
      else Ok tt
  | None => Raise (RuntimeError "GROQ_API_KEY is not set. Add it to your .env file.")
  end.

Definition generate_content (api_key : option string) (topic : json)
  (model : string) (web_facts : option (list string)) : res json :=
  match topic with
  | JStr t =>
      if String.eqb (py_strip t) ""
      then Raise (ValueError "Topic must be a non-empty string.")
      else
        _ <- _init_groq_client api_key ;;
        draft <- _call_llm_and_parse (DraftRequest model (py_strip t) web_facts) ;;
        _polish_content draft model web_facts
  | _ => Raise (ValueError "Topic must be a non-empty string.")
  end.

End Generator.

(** *** The statements after [return polished] (lines 132-151)

    [_polish_content] returns on line 130; what follows is never run.
    The block is kept here as a function of its own. *)

Definition auto_fix_chart (chart : json) : res json :=
  values <- py_get chart "values" (JList []) ;;
  categories <- py_get chart "categories" (JList []) ;;
  chart1 <-
    (if truthy values && negb (truthy categories)
     then n <- py_len values ;; py_setitem chart "categories" (item_labels n)
     else Ok chart) ;;
  if truthy categories && truthy values then
    lc <- py_len categories ;;
    lv <- py_len values ;;
    if negb (Nat.eqb lc lv) then
      let n := Nat.min lc lv in
      cs <- py_slice n categories ;;
      chart2 <- py_setitem chart1 "categories" cs ;;
      vs <- py_slice n values ;;
      py_setitem chart2 "values" vs
    else Ok chart1
  else Ok chart1.

Definition auto_fix_topic (topic : json) : res json :=
  has <- py_contains "chart" topic ;;
  if has then
    chart <- py_getitem topic "chart" ;;
    chart' <- auto_fix_chart chart ;;
    py_setitem topic "chart" chart'
  else Ok topic.

Definition auto_fix_slide (slide : json) : res json :=
  topics <- py_get slide "topics" (JList []) ;;
  match slide, topics with
  | JDict d, JList l =>
      l' <- for_each auto_fix_topic l ;;
      Ok (if dict_mem "topics" d then JDict (dict_set "topics" (JList l') d)
          else slide)
  | _, other =>
      items <- py_iter other ;;
      _ <- for_each auto_fix_topic items ;;
      Ok slide
  end.

Definition auto_fix_charts (polished : json) : res json :=
  match polished with
  | JDict d =>
      match dict_get "slides" d with
      | Some (JList slides) =>
          slides' <- for_each auto_fix_slide slides ;;
          Ok (JDict (dict_set "slides" (JList slides') d))
      | Some other =>
          items <- py_iter other ;;
          _ <- for_each auto_fix_slide items ;;
          Ok polished
      | None => Ok polished
      end
  | _ => Ok polished
  end.

(** ** File names (main.py line 24, presentation_engine.py lines 195-196) *)

(** [str.lower] on the characters of the model: the letters [A]-[Z] and
    the upper-case letters of Latin-1. *)
Definition char_lower (c : ascii) : ascii :=
  let n := nat_of_ascii c in
  if (((65 <=? n) && (n <=? 90))
      || ((192 <=? n) && (n <=? 222) && negb (n =? 215)))%nat
  then ascii_of_nat (n + 32) else c.

Definition str_lower (s : string) : string := text (map char_lower (chars s)).

(** [s.endswith(suffix)]. *)
Definition endswith (suffix s : string) : bool :=
  is_prefix (rev (chars suffix)) (rev (chars s)).

(** [s.replace(a, b)] for two characters. *)
Definition str_replace_char (a b : ascii) (s : string) : string :=
  text (map (fun c => if Ascii.eqb c a then b else c) (chars s)).

(** The name [create_presentation] saves under. *)
Definition save_name (output_filename : string) : string :=
  if negb (endswith ".pptx" (str_lower output_filename))
  then output_filename ++ ".pptx" else output_filename.

(** [f"{topic.lower().replace(' ', '_')}_presentation.pptx"]. *)
Definition default_output (topic : string) : string :=
  str_replace_char " " "_" (str_lower topic) ++ "_presentation.pptx".

(** [args.output or <default>], for the stripped topic. *)
Definition main_output (topic : string) (output : option string) : string :=
  match output with
  | Some o => if String.eqb o "" then default_output topic else o
  | None => default_output topic
  end.

(** ** presentation_engine.py

    python-pptx is outside the source: a call into it is recorded as the
    thing it is asked to draw.  A slide is the title handed to
    [_safe_set_title] and the items [_render_topics] adds to it, in
    order.  A message printed by the code is an item too.

    Three calls raise on arguments the code can hand them, and are
    modelled so: [p.text = x] raises [TypeError] unless [x] is a text;
    [add_table] divides the width by the number of columns;
    [table.cell] raises [IndexError] outside the table.  Whether the
    library builds a chart from the data it is given, and whether the
    file can be written, the source does not show: the outcomes of
    these calls are parameters of the model, the class [pptx]. *)

Inductive chart_type : Type := COLUMN_CLUSTERED | LINE.

Inductive item : Type :=
| SubtitlePara (subtitle : json)      (* p.text = subtitle, bold *)
| BulletPara (b : json)               (* p.text = str(b), level 1 *)
| SourcesPara (s : string)            (* p.text = src_text, italic *)
| BlankPara                           (* tf.add_paragraph().text = "" *)
| Chart (ty : chart_type) (title categories values : json)
| Table (rows cols : nat)             (* add_table(rows, cols, ...) *)
| Cell (i j : nat) (v : json)         (* table.cell(i, j).text = str(v) *)
| Warn (msg : string).

Record slide : Type := { sl_title : json; sl_body : list item }.

(** [add_chart ty title categories values] is the outcome of
    [data.categories = categories], [data.add_series(title, values)] and
    [slide.shapes.add_chart(ty, ..., data)], in this order: they return,
    or one of them raises.  [save name] is the outcome of
    [prs.save(name)]. *)
Class pptx : Type := {
  add_chart : chart_type -> json -> json -> json -> res unit;
  save : string -> res unit
}.

(** Code that draws and may raise: what was drawn stays when it raises. *)
Definition out (A : Type) : Type := (list item * res A)%type.

Definition ret {A : Type} (a : A) : out A := ([], Ok a).
Definition emit (i : item) : out unit := ([i], Ok tt).
Definition lift {A : Type} (m : res A) : out A := ([], m).

Definition obind {A B : Type} (m : out A) (f : A -> out B) : out B :=
  match m with
  | (l, Ok a) => let (l', r) := f a in (l ++ l', r)
  | (l, Raise e) => (l, Raise e)
  end.

Notation "x <~ m ;; k" := (obind m (fun x => k))
  (at level 61, m at next level, right associativity).

(** [for i, x in enumerate(l, start=i): body]. *)
Fixpoint for_out {A : Type} (f : nat -> A -> out unit) (i : nat) (l : list A)
  : out unit :=
  match l with
  | [] => ret tt
  | x :: r => _ <~ f i x ;; for_out f (S i) r
  end.

(** [try: m except Exception as e: print(msg, e)]. *)
Definition except_warn (m : out unit) (msg : string) : list item :=
  match m with
  | (l, Ok _) => l
  | (l, Raise _) => l ++ [Warn msg]
  end.

Fixpoint split_on (p : ascii -> bool) (l : list ascii) : list (list ascii) :=
  match l with
  | [] => [[]]
  | c :: r =>
      match split_on p r with
      | seg :: segs => if p c then [] :: seg :: segs else (c :: seg) :: segs
      | [] => [[c]]
      end
  end.

Definition is_sentence_end (c : ascii) : bool :=
  (Ascii.eqb c "." || Ascii.eqb c "?" || Ascii.eqb c "!")%char.

Definition _split_overview (overview : json) (max_lines : nat)
  : res (list json) :=
  match overview with
  | JStr s =>
      let sentences :=
        filter (fun x => negb (String.eqb x ""))
               (map (fun seg => py_strip (text seg))
                    (split_on is_sentence_end (chars s))) in
      Ok (match sentences with
          | [] => [JStr s]
          | _ => map JStr (firstn max_lines sentences)
          end)
  | _ => Raise TypeError
  end.

Definition chart_invalid (categories values : json) : res bool :=
  if negb (truthy categories) then Ok true
  else if negb (truthy values) then Ok true
  else lc <- py_len categories ;; lv <- py_len values ;;
       Ok (negb (Nat.eqb lc lv)).

(** [slide.shapes.add_table(rows, cols, ...)] gives every column the
    width divided by [cols]. *)
Definition add_table (rows cols : nat) : out unit :=
  if (cols =? 0)%nat then lift (Raise ZeroDivisionError)
  else emit (Table rows cols).

(** [table.cell(i, j)] raises [IndexError] outside the table. *)
Definition set_cell (rows cols i j : nat) (v : json) : out unit :=
  if (i <? rows)%nat && (j <? cols)%nat then emit (Cell i j v)
  else lift (Raise IndexError).

(** [p.text = x]: the library splits [x] into lines, which raises
    [TypeError] when [x] is not a text. *)
Definition set_subtitle (x : json) : out unit :=
  if is_str x then emit (SubtitlePara x) else lift (Raise TypeError).

Section Engine.

Context {lib : pptx}.

Definition _render_chart (chart_spec : json) : list item :=
  except_warn
    (categories <~ lift (py_get chart_spec "categories" (JList [])) ;;
     values <~ lift (py_get chart_spec "values" (JList [])) ;;
     categories <~
       lift (if truthy values && negb (truthy categories)
             then n <- py_len values ;; Ok (item_labels n)
             else Ok categories) ;;
     invalid <~ lift (chart_invalid categories values) ;;
     if invalid
     then emit (Warn "[WARN] Skipping chart: invalid categories/values")
     else
       title <~ lift (py_get chart_spec "title" (JStr "Series")) ;;
       ty <~ lift (py_get chart_spec "type" JNull) ;;
       let ty := if eq_str "bar" ty then COLUMN_CLUSTERED else LINE in
       _ <~ lift (add_chart ty title categories values) ;;
       emit (Chart ty title categories values))
    "[WARN] Failed to render chart:".

Definition _render_table (table_spec : json) : list item :=
  except_warn
    (rows_v <~ lift (py_get table_spec "rows" (JList [])) ;;
     n <~ lift (py_len rows_v) ;;
     let rows := n + 1 in
     headers_v <~ lift (py_get table_spec "headers" (JList [])) ;;
     cols <~ lift (py_len headers_v) ;;
     _ <~ add_table rows cols ;;
     headers <~ lift (py_iter headers_v) ;;
     _ <~ for_out (fun j h => set_cell rows cols 0 j h) 0 headers ;;
     row_list <~ lift (py_iter rows_v) ;;
     for_out (fun i row =>
                vals <~ lift (py_iter row) ;;
                for_out (fun j val => set_cell rows cols i j val) 0 vals)
             1 row_list)
    "[WARN] Failed to render table:".

(** ["; ".join(v)]: the items must be strings. *)
Definition py_join (sep : string) (v : json) : res string :=
  items <- py_iter v ;;
  parts <- for_each (fun x => match x with
                              | JStr s => Ok s
                              | _ => Raise TypeError
                              end) items ;;
  Ok (str_join sep parts).

Definition render_topic (count i : nat) (topic : json) : out unit :=
  subtitle <~ lift (py_get topic "subtitle" (JStr "")) ;;
  bullets <~ lift (py_get topic "bullets" (JList [])) ;;
  sources <~ lift (py_get topic "sources" (JList [])) ;;
  _ <~ (if truthy subtitle then set_subtitle subtitle else ret tt) ;;
  bs <~ lift (py_iter bullets) ;;
  _ <~ for_out (fun _ b => emit (BulletPara b)) 0 bs ;;
  _ <~ (if truthy sources
        then src <~ lift (py_join "; " sources) ;;
             emit (SourcesPara ("Sources: " ++ src))
        else ret tt) ;;
  has_chart <~ lift (py_contains "chart" topic) ;;
  _ <~ (if has_chart
        then chart <~ lift (py_getitem topic "chart") ;;
             (_render_chart chart, Ok tt)
        else ret tt) ;;
  has_table <~ lift (py_contains "table" topic) ;;
  _ <~ (if has_table
        then table <~ lift (py_getitem topic "table") ;;
             (_render_table table, Ok tt)
        else ret tt) ;;
  if (i <? count - 1)%nat then emit BlankPara else ret tt.

Definition _render_topics (topics : list json) : out unit :=
  for_out (render_topic (length topics)) 0 topics.

(** One slide: [add_slide], [_safe_set_title], [_render_topics]. *)
Definition add_slide (title : json) (topics : list json) : res slide :=
  match _render_topics topics with
  | (body, Ok _) => Ok {| sl_title := title; sl_body := body |}
  | (_, Raise e) => Raise e
  end.

Definition bullets_topic (bullets : list json) : json :=
  JDict [("subtitle", JStr ""); ("bullets", JList bullets);
         ("sources", JList [])].

Definition content_slide (slide_data : json) : res slide :=
  title <- py_get slide_data "title" (JStr "Slide") ;;
  topics <- py_get slide_data "topics" (JList []) ;;
  add_slide title (match topics with JList l => l | _ => [topics] end).

Definition conclusion_slide (content : json) : res (list slide) :=
  conclusion <- py_get content "conclusion" JNull ;;
  if truthy conclusion then
    c <- py_getitem content "conclusion" ;;
    sl <- add_slide (JStr "Conclusion") [bullets_topic [c]] ;;
    Ok [sl]
  else Ok [].

(** Title slide, overview slide and one slide per entry of [slides]
    (lines 167-186). *)
Definition front_slides (content : json) : res (list slide) :=
  title <- py_get content "title" (JStr "Untitled Presentation") ;;
  let s0 := {| sl_title := title; sl_body := [] |} in
  overview <- py_get content "overview" (JStr "") ;;
  overview_lines <- _split_overview overview 3 ;;
  s1 <- add_slide (JStr "Overview") [bullets_topic overview_lines] ;;
  slides_v <- py_get content "slides" (JList []) ;;
  slide_items <- py_iter slides_v ;;
  content_slides <- for_each content_slide slide_items ;;
  Ok (s0 :: s1 :: content_slides).

(** The slides of the deck, in order (lines 162-193).  The last three
    lines of the function name the file ([save_name]) and write it
    ([save]): [main] below puts the three together. *)
Definition create_presentation (content : json) : res (list slide) :=
  front <- front_slides content ;;
  last <- conclusion_slide content ;;
  Ok (front ++ last).

(** ** main.py *)

(** From the polish call to the deck: the second half of
    [generate_content], then [create_presentation]. *)
Definition deck_after_draft (loads : string -> res json)
  (client : request -> llm_response) (draft : json) (model : string)
  (web_facts : option (list string)) : res (list slide) :=
  content <- _polish_content loads client draft model web_facts ;;
  create_presentation content.

(** The exit status of [main], after [argparse] has read the arguments:
    [output] is [args.output].  [fetch_web_facts] is a network call:
    [fetched] is what it returns or raises. *)
Definition main (loads : string -> res json)
  (client : request -> llm_response) (api_key : option string)
  (topic model : string) (output : option string) (no_web : bool)
  (fetched : res (list string)) : Z :=
  let topic := py_strip topic in
  if String.eqb topic "" then 2%Z
  else
    let output := main_output topic output in
    match
      (web_facts <- (if no_web then Ok [] else fetched) ;;
       content <- generate_content loads client api_key (JStr topic) model
                    (Some web_facts) ;;
       _ <- create_presentation content ;;
       save (save_name output))
    with
    | Ok _ => 0%Z
    | Raise _ => 1%Z
    end.

End Engine.

(** *** The library of the examples

    The theorems below hold for every outcome of the library.  The
    closed examples need one: here the library builds a chart whose
    title is a text, whose categories are texts and whose values are
    numbers of ordinary size, as the data model has them, the texts in
    printable ASCII, and it writes a file whose name holds no slash.
    That it refuses every other chart and every other name is an
    assumption of the examples only. *)

Definition plain_text (v : json) : bool :=
  match v with
  | JStr s =>
      forallb (fun c => (32 <=? nat_of_ascii c) && (nat_of_ascii c <=? 126))%nat
              (chars s)
  | _ => false
  end.

Definition plain_number (v : json) : bool :=
  match v with
  | JNum (PInt z) => (Z.abs z <? 10 ^ 15)%Z
  | JNum (PFloat m e) =>
      ((Z.abs m <? 10 ^ 15) && (-300 <=? e) && (e <=? 290))%Z
  | _ => false
  end.

Definition all_items (p : json -> bool) (v : json) : bool :=
  match v with
  | JList l => forallb p l
  | _ => false
  end.

Definition example_pptx : pptx :=
  {| add_chart := fun _ title categories values =>
       if plain_text title && all_items plain_text categories
          && all_items plain_number values
       then Ok tt else Raise TypeError;
     save := fun name =>
       if existsb (Ascii.eqb "/") (chars name) then Raise OSError else Ok tt |}.

(** ** Observations used in the statements *)

(** All four top-level fields present, with their shallow types. *)
Definition is_document (v : json) : bool :=
  match v with
  | JDict d =>
      match dict_get "title" d, dict_get "overview" d,
            dict_get "slides" d, dict_get "conclusion" d with
      | Some (JStr _), Some (JStr _), Some (JList _), Some (JStr _) => true
      | _, _, _, _ => false
      end
  | _ => false
  end.

(** The [chart] field of every topic of every slide, as the renderer
    will look it up. *)
Definition topic_chart (t : json) : option json :=
  match t with
  | JDict td => dict_get "chart" td
  | _ => None
  end.

Definition slide_topics (s : json) : list json :=
  match s with
  | JDict sd =>
      match dict_get "topics" sd with
      | Some topics => coerce_topics topics
      | None => []
      end
  | _ => []
  end.

Definition doc_slides (p : json) : list json :=
  match p with
  | JDict d =>
      match dict_get "slides" d with
      | Some (JList l) => l
      | _ => []
      end
  | _ => []
  end.

Definition charts_of (p : json) : list (list (option json)) :=
  map (fun s => map topic_chart (slide_topics s)) (doc_slides p).

(** The [sources] field of a topic is a list. *)
Definition has_sources_list (t : json) : bool :=
  match t with
  | JDict td =>
      match dict_get "sources" td with
      | Some (JList _) => true
      | _ => false
      end
  | _ => false
  end.

(** ** Further observations *)

(** Two dicts that agree on every key but [k]. *)
Definition same_but (k : string) (a b : json) : Prop :=
  exists da db, a = JDict da /\ b = JDict db
    /\ forall k', k' <> k -> dict_get k' db = dict_get k' da.

(** The documents the sources pass goes through without an exception. *)
Definition slide_accepted (s : json) : bool :=
  match s with
  | JDict sd =>
      forallb is_dict
        (coerce_topics match dict_get "topics" sd with
                       | Some topics => topics
                       | None => JList []
                       end)
  | _ => false
  end.

Definition sources_pass_accepts (p : json) : bool :=
  match p with
  | JDict d =>
      match dict_get "slides" d with
      | Some (JList slides) => forallb slide_accepted slides
      | Some (JStr s) => String.eqb s ""
      | Some (JDict keys) => match keys with [] => true | _ => false end
      | Some _ => false
      | None => true
      end
  | _ => true
  end.

(** The cells of the rows [rows], numbered from [i]. *)
Definition row_cells_from (i : nat) (rows : list (list json)) : list item :=
  concat (map (fun ir =>
                 map (fun jx => Cell (fst ir) (fst jx) (snd jx))
                     (combine (seq 0 (length (snd ir))) (snd ir)))
              (combine (seq i (length rows)) rows)).

(** The documents [create_presentation] makes a deck of. *)
Definition joins (v : json) : bool :=
  match py_iter v with
  | Ok items => forallb is_str items
  | Raise _ => false
  end.

Definition topic_renders (t : json) : bool :=
  match t with
  | JDict td =>
      match py_iter match dict_get "bullets" td with
                    | Some v => v
                    | None => JList []
                    end with
      | Ok _ => true
      | Raise _ => false
      end
      && (let sources := match dict_get "sources" td with
                         | Some v => v
                         | None => JList []
                         end in
          negb (truthy sources) || joins sources)
  | _ => false
  end.

Definition slide_renders (s : json) : bool :=
  match s with
  | JDict sd =>
      forallb topic_renders
        match dict_get "topics" sd with
        | Some (JList l) => l
        | Some topics => [topics]
        | None => []
        end
  | _ => false
  end.

Definition deck_renders (content : json) : bool :=
  match content with
  | JDict d =>
      match dict_get "overview" d with
      | Some v => is_str v
      | None => true
      end
      && match py_iter match dict_get "slides" d with
                       | Some v => v
                       | None => JList []
                       end with
         | Ok items => forallb slide_renders items
         | Raise _ => false
         end
  | _ => false
  end.

(** Every subtitle is a text: python-pptx takes nothing else as the text
    of a paragraph. *)
Definition topic_subtitle_text (t : json) : bool :=
  match t with
  | JDict td =>
      match dict_get "subtitle" td with
      | Some v => is_str v
      | None => true
      end
  | _ => true
  end.

Definition slide_subtitles_text (s : json) : bool :=
  match s with
  | JDict sd =>
      forallb topic_subtitle_text
        match dict_get "topics" sd with
        | Some (JList l) => l
        | Some topics => [topics]
        | None => []
        end
  | _ => true
  end.

Definition deck_subtitles_text (content : json) : bool :=
  match content with
  | JDict d =>
      match py_iter match dict_get "slides" d with
                    | Some v => v
                    | None => JList []
                    end with
      | Ok items => forallb slide_subtitles_text items
      | Raise _ => true
      end
  | _ => true
  end.

(** * Properties *)

(** ** Dictionaries and loops *)

Lemma dict_get_set_same k v d : dict_get k (dict_set k v d) = Some v.
Proof.
  induction d as [|[k' v'] r IH]; simpl.
  - now rewrite String.eqb_refl.
  - destruct (String.eqb k k') eqn:E; simpl; rewrite E; auto.
Qed.

Lemma dict_get_set_other k k' v d :
  k <> k' -> dict_get k' (dict_set k v d) = dict_get k' d.
Proof.
  intros N. induction d as [|[k0 v0] r IH]; simpl.
  - destruct (String.eqb_spec k' k); congruence.
  - destruct (String.eqb_spec k k0) as [->|]; simpl.
    + destruct (String.eqb_spec k' k0); congruence.
    + now rewrite IH.
Qed.

Lemma dict_set_same_value k v d : dict_get k d = Some v -> dict_set k v d = d.
Proof.
  induction d as [|[k' v'] r IH]; simpl; [discriminate|].
  destruct (String.eqb_spec k k') as [->|].
  - now intros [= ->].
  - intros H. now rewrite IH.
Qed.

Lemma dict_set_twice k v d : dict_set k v (dict_set k v d) = dict_set k v d.
Proof. apply dict_set_same_value, dict_get_set_same. Qed.

Lemma for_each_Forall2 {A B : Type} (f : A -> res B) l l' :
  for_each f l = Ok l' -> Forall2 (fun x y => f x = Ok y) l l'.
Proof.
  revert l'. induction l as [|x r IH]; simpl; intros l' H.
  - injection H as <-. constructor.
  - destruct (f x) as [y|] eqn:Fx; simpl in H; [|discriminate].
    destruct (for_each f r) as [ys|] eqn:Fr; simpl in H; [|discriminate].
    injection H as <-. constructor; auto.
Qed.

Lemma for_each_fixed {A : Type} (f : A -> res A) l :
  Forall (fun x => f x = Ok x) l -> for_each f l = Ok l.
Proof.
  induction 1 as [|x r Hx _ IH]; simpl; auto.
  now rewrite Hx, IH.
Qed.

Lemma for_each_length {A B : Type} (f : A -> res B) l l' :
  for_each f l = Ok l' -> length l' = length l.
Proof.
  intros H. apply for_each_Forall2 in H.
  induction H; simpl; congruence.
Qed.

(** Case analysis on a computation in the error monad. *)
Ltac bind_ok H :=
  match type of H with
  | bind ?m _ = Ok _ =>
      let E := fresh "E" in
      destruct m eqn:E; simpl in H; [|discriminate]
  end.

(** ** The decoder's fuel *)

Lemma skip_ws_length l : length (skip_ws l) <= length l.
Proof.
  induction l as [|c r IH]; simpl; [lia|].
  destruct (is_json_ws c); simpl; lia.
Qed.

Lemma span_length p l a b : span p l = (a, b) -> length b <= length l.
Proof.
  revert a b. induction l as [|c r IH]; simpl; intros a b H.
  - injection H as <- <-. simpl. lia.
  - destruct (p c).
    + destruct (span p r) as [a' b'] eqn:E. injection H as <- <-.
      specialize (IH _ _ eq_refl). lia.
    + injection H as <- <-. simpl. lia.
Qed.

Lemma cons_char_length c o s r n :
  cons_char c o = Some (s, r) ->
  (forall s' r', o = Some (s', r') -> length r' < n) ->
  length r < n.
Proof.
  destruct o as [[s' r']|]; simpl; [|discriminate].
  intros [= <- <-] H. now apply (H s').
Qed.

Lemma scan_string_length l s r :
  scan_string l = Some (s, r) -> length r < length l.
Proof.
  remember (length l) as n eqn:N.
  assert (L : length l <= n) by lia. clear N.
  revert l L s r. induction n as [|n IH]; intros l L s r H.
  - destruct l; [discriminate|simpl in L; lia].
  - destruct l as [|c l]; [discriminate|]. simpl in L, H.
    destruct (Ascii.eqb c "034").
    { injection H as <- <-. simpl. lia. }
    destruct (Ascii.eqb c "\").
    { destruct l as [|e r1]; [discriminate|].
      destruct (Ascii.eqb e "u").
      - destruct r1 as [|h1 [|h2 [|h3 [|h4 r2]]]]; try discriminate.
        destruct (hex4 h1 h2 h3 h4) as [k|]; [|discriminate].
        destruct (k <? 256)%nat; [|discriminate].
        simpl. eapply cons_char_length in H; [exact H|].
        intros s' r' E. simpl in L. apply IH in E; simpl in *; lia.
      - destruct (escape_char e) as [x|]; [|discriminate].
        simpl. eapply cons_char_length in H; [exact H|].
        intros s' r' E. simpl in L. apply IH in E; simpl in *; lia. }
    destruct (nat_of_ascii c <? 32)%nat; [discriminate|].
    simpl. eapply cons_char_length in H; [exact H|].
    intros s' r' E. apply IH in E; simpl in *; lia.
Qed.

Lemma scan_fraction_length r f r' :
  scan_fraction r = (f, r') -> length r' <= length r.
Proof.
  unfold scan_fraction. destruct r as [|dot [|d t]]; try (intros [= <- <-]; lia).
  destruct (Ascii.eqb dot "." && is_digit d); [|intros [= <- <-]; lia].
  destruct (span is_digit (d :: t)) as [fs t'] eqn:E. intros [= <- <-].
  apply span_length in E. simpl in *. lia.
Qed.

Lemma scan_exponent_length r x r' :
  scan_exponent r = (x, r') -> length r' <= length r.
Proof.
  unfold scan_exponent. destruct r as [|e t]; [intros [= <- <-]; lia|].
  destruct (Ascii.eqb e "e" || Ascii.eqb e "E"); [|intros [= <- <-]; lia].
  destruct (match t with
            | [] => (false, t)
            | sgn :: t0 =>
                if Ascii.eqb sgn "-" then (true, t0)
                else if Ascii.eqb sgn "+" then (false, t0) else (false, t)
            end) as [eneg u] eqn:P.
  assert (U : length u <= length t).
  { destruct t as [|sgn t0]; [injection P as <- <-; lia|].
    destruct (Ascii.eqb sgn "-"); [injection P as <- <-; simpl; lia|].
    destruct (Ascii.eqb sgn "+"); injection P as <- <-; simpl; lia. }
  destruct (span is_digit u) as [[|c es] t'] eqn:E; intros [= <- <-];
    apply span_length in E; simpl; lia.
Qed.

Lemma scan_number_tail_length neg ds r v r' :
  scan_number_tail neg ds r = (v, r') -> length r' <= length r.
Proof.
  unfold scan_number_tail.
  destruct (scan_fraction r) as [f r1] eqn:F.
  destruct (scan_exponent r1) as [x r2] eqn:X.
  apply scan_fraction_length in F. apply scan_exponent_length in X.
  destruct f, x; intros [= <- <-]; lia.
Qed.

Lemma int_limit_some ds p q : int_limit ds p = Some q -> q = p.
Proof.
  unfold int_limit.
  destruct (fst p) as [| b | [z | m e | | i] | s | l | d];
    try (now intros [= <-]).
  destruct (4300 <? length ds)%nat; [discriminate|now intros [= <-]].
Qed.

Lemma scan_number_length l v r :
  scan_number l = Some (v, r) -> length r < length l.
Proof.
  unfold scan_number.
  assert (T : forall neg l1, length l1 <= length l ->
            match l1 with
            | [] => None
            | c :: r0 =>
                if Ascii.eqb c "0"
                then int_limit [c] (scan_number_tail neg [c] r0)
                else if is_digit c then
                  let (ds, r') := span is_digit l1 in
                  int_limit ds (scan_number_tail neg ds r')
                else if neg && is_prefix (chars "Infinity") l1 then
                  Some (JNum (PInf true), skipn 8 l1)
                else None
            end = Some (v, r) -> length r < length l).
  { intros neg [|c r0] L H; [discriminate|].
    destruct (Ascii.eqb c "0").
    { apply int_limit_some in H. symmetry in H.
      apply scan_number_tail_length in H. simpl in L. lia. }
    destruct (is_digit c) eqn:D.
    { destruct (span is_digit (c :: r0)) as [ds r'] eqn:E.
      apply int_limit_some in H. symmetry in H.
      apply scan_number_tail_length in H.
      simpl in E. rewrite D in E. destruct (span is_digit r0) as [a b] eqn:E'.
      injection E as <- <-. apply span_length in E'. simpl in L. lia. }
    destruct (neg && is_prefix (chars "Infinity") (c :: r0)); [|discriminate].
    injection H as <- <-.
    pose proof (length_skipn 7 r0). simpl in *. lia. }
  destruct l as [|c r0]; [discriminate|].
  destruct (Ascii.eqb c "-"); intros H.
  - apply (T true r0); [simpl; lia|exact H].
  - apply (T false (c :: r0)); [lia|exact H].
Qed.

Lemma scan_word_length w v l v' r :
  w <> "" -> scan_word w v l = Some (v', r) -> length r < length l.
Proof.
  unfold scan_word. intros W.
  destruct (is_prefix (chars w) l) eqn:P; [|discriminate].
  intros [= <- <-]. rewrite length_skipn.
  destruct w as [|c w]; [congruence|]. destruct l; [discriminate|simpl; lia].
Qed.

(** Every scanner consumes at least one character. *)
Lemma scan_consumes f :
  (forall l v r, scan_once f l = Some (v, r) -> length r < length l)
  /\ (forall acc l v r, scan_members f acc l = Some (v, r) -> length r < length l)
  /\ (forall acc l v r, scan_items f acc l = Some (v, r) -> length r < length l).
Proof.
  induction f as [|f (IHo & IHm & IHi)]; [repeat split; discriminate|].
  repeat split.
  - intros l v r H. simpl in H. destruct l as [|c t]; [discriminate|].
    destruct (Ascii.eqb c "034").
    { destruct (scan_string t) as [[s r']|] eqn:E; [|discriminate].
      injection H as <- <-. apply scan_string_length in E. simpl. lia. }
    destruct (Ascii.eqb c "{").
    { pose proof (skip_ws_length t) as W.
      destruct (skip_ws t) as [|c' r']; [discriminate|].
      destruct (Ascii.eqb c' "}").
      - injection H as <- <-. simpl in *. lia.
      - apply IHm in H. simpl in *. lia. }
    destruct (Ascii.eqb c "[").
    { pose proof (skip_ws_length t) as W.
      destruct (skip_ws t) as [|c' r']; [discriminate|].
      destruct (Ascii.eqb c' "]").
      - injection H as <- <-. simpl in *. lia.
      - apply IHi in H. simpl in *. lia. }
    repeat match type of H with
           | (if ?b then _ else _) = _ => destruct b
           end;
      try (apply scan_word_length in H; [exact H|discriminate]).
    now apply scan_number_length in H.
  - intros acc l v r H. simpl in H. destruct l as [|q t]; [discriminate|].
    destruct (Ascii.eqb q "034"); [|discriminate].
    destruct (scan_string t) as [[k r1]|] eqn:E; [|discriminate].
    apply scan_string_length in E.
    pose proof (skip_ws_length r1) as W1.
    destruct (skip_ws r1) as [|colon r2]; [discriminate|].
    destruct (Ascii.eqb colon ":"); [|discriminate].
    pose proof (skip_ws_length r2) as W2.
    destruct (scan_once f (skip_ws r2)) as [[v' r3]|] eqn:O; [|discriminate].
    apply IHo in O. pose proof (skip_ws_length r3) as W3.
    destruct (skip_ws r3) as [|c r4]; [discriminate|].
    destruct (Ascii.eqb c "}").
    { injection H as <- <-. simpl in *. lia. }
    destruct (Ascii.eqb c ","); [|discriminate].
    apply IHm in H. pose proof (skip_ws_length r4). simpl in *. lia.
  - intros acc l v r H. simpl in H.
    destruct (scan_once f l) as [[v' r1]|] eqn:O; [|discriminate].
    apply IHo in O. pose proof (skip_ws_length r1) as W1.
    destruct (skip_ws r1) as [|c r2]; [discriminate|].
    destruct (Ascii.eqb c "]").
    { injection H as <- <-. simpl in *. lia. }
    destruct (Ascii.eqb c ","); [|discriminate].
    apply IHi in H. pose proof (skip_ws_length r2). simpl in *. lia.
Qed.

(** Past twice the length of the text, more fuel changes nothing. *)
Lemma scan_fuel f :
  (forall l f', 2 * length l + 1 <= f -> f <= f' ->
                scan_once f' l = scan_once f l)
  /\ (forall acc l f', 2 * length l + 1 <= f -> f <= f' ->
                       scan_members f' acc l = scan_members f acc l)
  /\ (forall acc l f', 2 * length l + 2 <= f -> f <= f' ->
                       scan_items f' acc l = scan_items f acc l).
Proof.
  induction f as [|f (IHo & IHm & IHi)]; [repeat split; intros; lia|].
  repeat split.
  - intros l [|f'] B L; [lia|]. simpl. destruct l as [|c t]; [reflexivity|].
    simpl in B. pose proof (skip_ws_length t) as W.
    destruct (Ascii.eqb c "034"); [reflexivity|].
    destruct (Ascii.eqb c "{").
    { destruct (skip_ws t) as [|c' r']; [reflexivity|].
      destruct (Ascii.eqb c' "}"); [reflexivity|].
      apply IHm; simpl in *; lia. }
    destruct (Ascii.eqb c "[").
    { destruct (skip_ws t) as [|c' r']; [reflexivity|].
      destruct (Ascii.eqb c' "]"); [reflexivity|].
      apply IHi; simpl in *; lia. }
    reflexivity.
  - intros acc l [|f'] B L; [lia|]. simpl. destruct l as [|q t]; [reflexivity|].
    simpl in B.
    destruct (Ascii.eqb q "034"); [|reflexivity].
    destruct (scan_string t) as [[k r1]|] eqn:E; [|reflexivity].
    apply scan_string_length in E.
    pose proof (skip_ws_length r1) as W1.
    destruct (skip_ws r1) as [|colon r2]; [reflexivity|].
    destruct (Ascii.eqb colon ":"); [|reflexivity].
    pose proof (skip_ws_length r2) as W2.
    rewrite (IHo (skip_ws r2) f') by (simpl in *; lia).
    destruct (scan_once f (skip_ws r2)) as [[v' r3]|] eqn:O; [|reflexivity].
    apply (proj1 (scan_consumes f)) in O.
    pose proof (skip_ws_length r3) as W3.
    destruct (skip_ws r3) as [|c r4]; [reflexivity|].
    destruct (Ascii.eqb c "}"); [reflexivity|].
    destruct (Ascii.eqb c ","); [|reflexivity].
    pose proof (skip_ws_length r4).
    apply IHm; simpl in *; lia.
  - intros acc l [|f'] B L; [lia|]. simpl.
    rewrite (IHo l f') by lia.
    destruct (scan_once f l) as [[v' r1]|] eqn:O; [|reflexivity].
    apply (proj1 (scan_consumes f)) in O.
    pose proof (skip_ws_length r1) as W1.
    destruct (skip_ws r1) as [|c r2]; [reflexivity|].
    destruct (Ascii.eqb c "]"); [reflexivity|].
    destruct (Ascii.eqb c ","); [|reflexivity].
    pose proof (skip_ws_length r2).
    apply IHi; simpl in *; lia.
Qed.

(** [json_loads] gives what the scanner gives with any larger fuel. *)
Lemma json_loads_fuel s f :
  S (2 * length (chars s)) <= f ->
  json_loads s
  = match scan_once f (skip_ws (chars s)) with
    | Some (v, r) =>
        match skip_ws r with
        | [] => Ok v
        | _ => Raise JSONDecodeError
        end
    | None => Raise JSONDecodeError
    end.
Proof.
  intros F. unfold json_loads.
  rewrite (proj1 (scan_fuel (S (2 * length (chars s)))) _ f); auto.
  pose proof (skip_ws_length (chars s)). lia.
Qed.

(** ** The repair: [safe_json_parse] *)

Lemma parsing_failed_is_document o : is_document (parsing_failed o) = true.
Proof. reflexivity. Qed.

Section Repair.

Variable loads : string -> res json.

(** What the [except] branch returns for the text [s]. *)
Lemma recover_returns s :
  exists v,
    recover loads s = Ok v
    /\ (v = parsing_failed (str_take 500 s)
        \/ exists m, re_search_braces s = Some m
                     /\ loads (re_sub_trailing_commas m) = Ok v).
Proof.
  unfold recover. destruct (re_search_braces s) as [m|]; simpl.
  - destruct (loads (re_sub_trailing_commas m)) as [v|e] eqn:L; simpl.
    + exists v. split; [reflexivity|]. right. now exists m.
    + eexists. split; [reflexivity|]. now left.
  - eexists. split; [reflexivity|]. now left.
Qed.


End Repair.


(** ** The two regular expressions *)

Lemma chars_text l : chars (text l) = l.
Proof. apply list_ascii_of_string_of_list_ascii. Qed.

Lemma text_chars s : text (chars s) = s.
Proof. apply string_of_list_ascii_of_string. Qed.

Lemma chars_app a b : chars (a ++ b) = (chars a ++ chars b)%list.
Proof. induction a as [|c a IH]; simpl; [reflexivity|]. now rewrite <- IH. Qed.

Lemma string_app_assoc (a b c : string) :
  ((a ++ b) ++ c = a ++ b ++ c)%string.
Proof. induction a as [|x a IH]; simpl; [reflexivity|]. now rewrite IH. Qed.

Lemma upto_last_closing c mid :
  upto_last c (mid ++ [c]) = Some (mid ++ [c])%list.
Proof.
  induction mid as [|x r IH]; simpl.
  - now rewrite Ascii.eqb_refl.
  - now rewrite IH.
Qed.

Lemma ascii_eqb_false_neq (x c : ascii) : Ascii.eqb x c = false -> x <> c.
Proof. intros E ->. now rewrite Ascii.eqb_refl in E. Qed.

Lemma after_first_spec c l :
  match after_first c l with
  | Some r => exists pre, l = (pre ++ c :: r)%list /\ ~ In c pre
  | None => ~ In c l
  end.
Proof.
  induction l as [|x t IH]; simpl; [tauto|].
  destruct (Ascii.eqb_spec x c) as [->|N].
  - exists []. auto.
  - destruct (after_first c t) as [r|].
    + destruct IH as (pre & -> & P). exists (x :: pre). split; [reflexivity|].
      simpl. tauto.
    + tauto.
Qed.

Lemma upto_last_spec c l :
  match upto_last c l with
  | Some m => exists mid post,
      m = (mid ++ [c])%list /\ l = (m ++ post)%list /\ ~ In c post
  | None => ~ In c l
  end.
Proof.
  induction l as [|x t IH]; simpl; [tauto|].
  destruct (upto_last c t) as [m|].
  - destruct IH as (mid & post & -> & -> & P).
    exists (x :: mid), post. auto.
  - destruct (Ascii.eqb_spec x c) as [->|N].
    + exists [], t. auto.
    + tauto.
Qed.

(** The match of [\{.*\}]: from the first opening brace of the text to
    its last closing brace; no match when no closing brace follows the
    first opening one. *)
Lemma re_search_braces_spec raw :
  match re_search_braces raw with
  | Some m => exists pre mid post,
      chars raw = (pre ++ chars m ++ post)%list
      /\ chars m = ("{"%char :: mid ++ ["}"%char])%list
      /\ ~ In "{"%char pre /\ ~ In "}"%char post
  | None => forall pre post,
      chars raw = (pre ++ "{"%char :: post)%list -> ~ In "}"%char post
  end.
Proof.
  unfold re_search_braces.
  pose proof (after_first_spec "{" (chars raw)) as A.
  destruct (after_first "{" (chars raw)) as [r|].
  - destruct A as (pre & E & P).
    pose proof (upto_last_spec "}" r) as U.
    destruct (upto_last "}" r) as [m|].
    + destruct U as (mid & post & -> & -> & Q).
      exists pre, mid, post. rewrite chars_text. simpl. now rewrite E.
    + intros pre' post' E' I. apply U.
      rewrite E in E'. clear E U.
      revert pre' E'. induction pre as [|x pre IH]; intros [|y pre'] E'; simpl in *.
      * now injection E' as <-.
      * injection E' as <- ->. apply in_or_app. right. now right.
      * injection E' as -> _. tauto.
      * injection E' as <- E'. apply (IH ltac:(tauto) pre' E').
  - intros pre post E I. apply A. rewrite E. apply in_or_app. right. now left.
Qed.

(** A text from an opening brace to a closing brace is its own match. *)
Lemma re_search_braces_whole mid :
  re_search_braces (String "{" (mid ++ "}")) = Some (String "{" (mid ++ "}")).
Proof.
  unfold re_search_braces. simpl.
  rewrite chars_app. simpl. rewrite upto_last_closing.
  f_equal. simpl. f_equal.
  rewrite <- (text_chars (mid ++ "}")). now rewrite chars_app.
Qed.

Lemma drop_trailing_commas_length l :
  length (drop_trailing_commas l) <= length l.
Proof.
  induction l as [|c r IH]; simpl; [lia|].
  destruct (Ascii.eqb c "," && closes r); simpl; lia.
Qed.

Lemma closes_without_comma p rest :
  closes (p ++ ","%char :: rest) = true -> closes (p ++ rest) = true.
Proof.
  induction p as [|x p IH]; simpl.
  - discriminate.
  - unfold closes in *. simpl. destruct (is_space x); auto.
Qed.

(** Dropping the commas of a text with one comma too many, before a
    closing brace or bracket, gives the text without it, when that text
    has no such comma of its own. *)
Lemma drop_trailing_commas_inserted pre rest :
  closes rest = true ->
  drop_trailing_commas (pre ++ rest) = (pre ++ rest)%list ->
  drop_trailing_commas (pre ++ ","%char :: rest) = (pre ++ rest)%list.
Proof.
  intros C. induction pre as [|c p IH]; simpl; intros K.
  - now rewrite C.
  - destruct (Ascii.eqb c "," && closes (p ++ rest)) eqn:D.
    + exfalso. pose proof (drop_trailing_commas_length (p ++ rest)) as L.
      rewrite K in L. simpl in L. lia.
    + injection K as K.
      destruct (Ascii.eqb c "," && closes (p ++ ","%char :: rest)) eqn:D'.
      * apply andb_true_iff in D' as [D1 D2].
        apply closes_without_comma in D2. now rewrite D1, D2 in D.
      * now rewrite IH.
Qed.

Section TrailingComma.

Variable loads : string -> res json.

Local Open Scope string_scope.

Lemma re_sub_trailing_commas_inserted a b :
  closes (chars b) = true ->
  re_sub_trailing_commas (a ++ b) = a ++ b ->
  re_sub_trailing_commas (a ++ "," ++ b) = a ++ b.
Proof.
  unfold re_sub_trailing_commas. intros C K.
  apply (f_equal chars) in K. rewrite chars_text, chars_app in K.
  rewrite <- (text_chars (a ++ b)). f_equal.
  rewrite !chars_app. now apply drop_trailing_commas_inserted.
Qed.

(** The repair of a text [a , b] that the decoder refuses. *)
Lemma safe_json_parse_comma_repair a b e v :
  re_search_braces (a ++ "," ++ b) = Some (a ++ "," ++ b) ->
  closes (chars b) = true ->
  loads (a ++ "," ++ b) = Raise e ->
  re_sub_trailing_commas (a ++ b) = a ++ b ->
  loads (a ++ b) = Ok v ->
  safe_json_parse loads (JStr (a ++ "," ++ b)) = Ok v.
Proof.
  intros M C Bad Clean Good.
  pose proof (re_sub_trailing_commas_inserted a b C Clean) as S.
  unfold safe_json_parse.
  assert (T : truthy (JStr (a ++ "," ++ b)) = true) by now destruct a.
  rewrite T, Bad. cbn [negb try_except]. unfold recover.
  now rewrite M, S, Good.
Qed.

(** C7 (as amended).  Take an object text [{ a b }] that the decoder
    reads as [v], and which has no comma of its own that only whitespace
    separates from a closing brace or bracket.  With a comma put in
    before [b], where only whitespace separates it from a closing brace
    or bracket, the decoder refuses the text, and the repair yields
    [v]. *)
Theorem safe_json_parse_trailing_comma a b e v :
  closes (chars (b ++ "}")) = true ->
  loads ("{" ++ a ++ "," ++ b ++ "}") = Raise e ->
  re_sub_trailing_commas ("{" ++ a ++ b ++ "}") = "{" ++ a ++ b ++ "}" ->
  loads ("{" ++ a ++ b ++ "}") = Ok v ->
  safe_json_parse loads (JStr ("{" ++ a ++ "," ++ b ++ "}")) = Ok v.
Proof.
  intros C Bad Clean Good.
  apply (safe_json_parse_comma_repair ("{" ++ a) (b ++ "}") e v); auto.
  replace (("{" ++ a) ++ "," ++ b ++ "}")
    with (String "{" ((a ++ "," ++ b) ++ "}"))
    by (simpl; now rewrite !string_app_assoc).
  apply re_search_braces_whole.
Qed.

End TrailingComma.

(** C7 (as stated) fails when a string of the object holds a comma
    directly before a closing brace: the repair drops that comma too. *)
Lemma safe_json_parse_comma_inside_string :
  json_loads (json_text "{'title':',}'}") = Ok (JDict [("title", JStr ",}")])
  /\ safe_json_parse json_loads (JStr (json_text "{'title':',}',}"))
     = Ok (JDict [("title", JStr "}")])
  /\ safe_json_parse json_loads (JStr (json_text "{'title':',}',}"))
     <> json_loads (json_text "{'title':',}'}").
Proof. repeat split; vm_compute; try reflexivity; discriminate. Qed.

(** The text of the specification's example. *)
Lemma safe_json_parse_trailing_comma_example :
  safe_json_parse json_loads
    (JStr (json_text "{'title':'T','overview':'O','slides':[],'conclusion':'C',}"))
  = Ok (JDict [("title", JStr "T"); ("overview", JStr "O");
               ("slides", JList []); ("conclusion", JStr "C")]).
Proof.
  apply (safe_json_parse_trailing_comma json_loads
           (json_text "'title':'T','overview':'O','slides':[],'conclusion':'C'")
           "" JSONDecodeError);
    vm_compute; reflexivity.
Defined.

(** ** Sources backfill (lines 118-128) *)

Lemma backfill_is_list facts : exists l, backfill facts = JList l.
Proof. destruct facts as [[|f fs]|]; simpl; eauto. Qed.

Lemma ensure_topic_sources_dict facts td :
  ensure_topic_sources facts (JDict td)
  = Ok (if has_sources_list (JDict td) then JDict td
        else JDict (dict_set "sources" (backfill facts) td)).
Proof.
  unfold ensure_topic_sources, has_sources_list. simpl. unfold dict_mem.
  destruct (dict_get "sources" td) as [[| b | n | s | l | d]|]; reflexivity.
Qed.

(** A topic that is not a dict stops the loop with an exception. *)
Lemma ensure_topic_sources_ok facts t t' :
  ensure_topic_sources facts t = Ok t' -> exists td, t = JDict td.
Proof.
  destruct t as [| b | n | s | l | d]; try discriminate; eauto.
  - unfold ensure_topic_sources. simpl.
    destruct (is_substring _ _); discriminate.
  - unfold ensure_topic_sources. simpl.
    destruct (existsb _ _); discriminate.
Qed.

Lemma ensure_topic_sources_result facts t t' :
  ensure_topic_sources facts t = Ok t' ->
  has_sources_list t' = true
  /\ topic_chart t' = topic_chart t
  /\ ensure_topic_sources facts t' = Ok t'.
Proof.
  intros H. destruct (ensure_topic_sources_ok _ _ _ H) as (td & ->).
  rewrite ensure_topic_sources_dict in H.
  destruct (has_sources_list (JDict td)) eqn:S; injection H as <-.
  - rewrite ensure_topic_sources_dict, S. auto.
  - destruct (backfill_is_list facts) as (l & B).
    assert (S' : has_sources_list (JDict (dict_set "sources" (backfill facts) td))
                 = true).
    { unfold has_sources_list. now rewrite dict_get_set_same, B. }
    rewrite ensure_topic_sources_dict, S'. repeat split.
    simpl. now rewrite dict_get_set_other.
Qed.

Lemma ensure_slide_sources_result facts s s' :
  ensure_slide_sources facts s = Ok s' ->
  Forall2 (fun t t' => ensure_topic_sources facts t = Ok t')
          (slide_topics s) (slide_topics s')
  /\ ensure_slide_sources facts s' = Ok s'.
Proof.
  unfold ensure_slide_sources. intros H.
  destruct s as [| b | n | x | l | sd]; try discriminate. simpl in H.
  bind_ok H. injection H as <-.
  assert (T : slide_topics (JDict sd)
              = coerce_topics match dict_get "topics" sd with
                              | Some x => x
                              | None => JList []
                              end).
  { simpl. now destruct (dict_get "topics" sd). }
  rewrite T. simpl. rewrite !dict_get_set_same. simpl.
  pose proof (for_each_Forall2 _ _ _ E) as F. split; [exact F|].
  rewrite for_each_fixed.
  - simpl. now rewrite dict_set_twice.
  - clear E T. induction F as [|t t' r r' Ht _ IH]; constructor; auto.
    now apply ensure_topic_sources_result in Ht.
Qed.

Lemma ensure_sources_result facts p p' :
  ensure_sources facts p = Ok p' ->
  Forall2 (fun s s' => ensure_slide_sources facts s = Ok s')
          (doc_slides p) (doc_slides p')
  /\ ensure_sources facts p' = Ok p'.
Proof.
  unfold ensure_sources. intros H.
  destruct p as [| b | n | x | l | d]; try (injection H as <-; auto; fail).
  destruct (dict_get "slides" d) as [v|] eqn:G.
  - destruct v as [| b | n | x | slides | sd].
    1-4,6: (simpl in H; try discriminate; repeat bind_ok H; injection H as <-;
            simpl; rewrite G; simpl; rewrite ?E, ?E0; simpl; auto).
    bind_ok H. injection H as <-. simpl.
    rewrite G, !dict_get_set_same.
    pose proof (for_each_Forall2 _ _ _ E) as F. split; [exact F|].
    rewrite for_each_fixed.
    + simpl. now rewrite dict_set_twice.
    + clear E G. induction F as [|s s' r r' Hs _ IH]; constructor; auto.
      now apply ensure_slide_sources_result in Hs.
  - injection H as <-. simpl. rewrite G. auto.
Qed.

Lemma Forall2_map_eq {A B C : Type} (R : A -> B -> Prop) (f : A -> C)
  (g : B -> C) l l' :
  Forall2 R l l' -> (forall x y, R x y -> g y = f x) -> map g l' = map f l.
Proof.
  intros F H. induction F as [|x y r r' Hxy _ IH]; simpl; [reflexivity|].
  now rewrite IH, (H _ _ Hxy).
Qed.

(** C3 (as amended).  When the sources pass completes, the slides of the
    result are the slides of the input, in their order, and the topics
    of each slide are the topics of the slide it comes from, in their
    order (the one topic when [topics] was a dict, none when it was
    neither a list nor a dict).  Every topic of the result has a
    [sources] field that is a sequence: a topic whose [sources] was a
    sequence already is kept as it was (an empty sequence stays empty);
    a topic whose [sources] was absent or not a sequence is the same
    topic with [sources] set to the first two facts, or to the one
    label [General industry reports] when there is no fact. *)
Theorem sources_after_normalization facts p p' :
  ensure_sources facts p = Ok p' ->
  Forall2
    (fun s s' =>
       Forall2
         (fun t t' =>
            has_sources_list t' = true
            /\ (has_sources_list t = true -> t' = t)
            /\ (has_sources_list t = false ->
                exists td, t = JDict td
                           /\ t' = JDict (dict_set "sources" (backfill facts) td)))
         (slide_topics s) (slide_topics s'))
    (doc_slides p) (doc_slides p')
  /\ backfill (Some ["F1"; "F2"; "F3"]) = JList [JStr "F1"; JStr "F2"]
  /\ backfill (Some []) = JList [JStr "General industry reports"]
  /\ backfill None = JList [JStr "General industry reports"].
Proof.
  intros H. apply ensure_sources_result in H as [F _].
  split; [|repeat split].
  refine (Forall2_impl _ _ F). intros s s' Es.
  apply ensure_slide_sources_result in Es as [Ft _].
  refine (Forall2_impl _ _ Ft). intros t t' Et.
  split; [now apply ensure_topic_sources_result in Et|].
  destruct (ensure_topic_sources_ok _ _ _ Et) as (td & ->).
  rewrite ensure_topic_sources_dict in Et.
  split; intros S; rewrite S in Et.
  - congruence.
  - exists td. split; congruence.
Qed.

Lemma ensure_sources_keeps_charts facts p p' :
  ensure_sources facts p = Ok p' -> charts_of p' = charts_of p.
Proof.
  intros H. apply ensure_sources_result in H as [F _].
  unfold charts_of. apply (Forall2_map_eq _ _ _ _ _ F).
  intros s s' Es. apply ensure_slide_sources_result in Es as [Ft _].
  apply (Forall2_map_eq _ _ _ _ _ Ft).
  intros t t' Et. now apply ensure_topic_sources_result in Et.
Qed.

Section Polish.

Variable loads : string -> res json.
Variable client : request -> llm_response.

(** C10.  The polish stage returns right after the sources pass; the
    chart block behind the [return] is not run.  Whatever the polish
    call answers, the document returned has, slide by slide and topic
    by topic, the chart fields of the document the repair read from
    the answer. *)
Theorem polish_keeps_charts draft model facts s polished :
  client (PolishRequest model draft facts) = Content s ->
  _polish_content loads client draft model facts = Ok polished ->
  exists parsed,
    safe_json_parse loads
      (JStr match re_search_braces (py_strip s) with
            | Some m => m
            | None => py_strip s
            end) = Ok parsed
    /\ ensure_sources facts parsed = Ok polished
    /\ charts_of polished = charts_of parsed.
Proof.
  unfold _polish_content. intros -> H.
  bind_ok H. exists a. repeat split; auto.
  now apply ensure_sources_keeps_charts in H.
Qed.

End Polish.

(** ** The two generator calls *)

Section Assembly.

Variable loads : string -> res json.
Variable client : request -> llm_response.

(** The draft of a malformed draft response is the fallback document,
    and the polish call is still made. *)
Lemma malformed_draft_is_not_fatal req msg :
  client req = Malformed msg ->
  _call_llm_and_parse loads client req
  = Ok (parsing_failed ("Bad LLM response: " ++ msg)).
Proof. unfold _call_llm_and_parse. now intros ->. Qed.

(** A polish call that raises is not caught. *)
Lemma polish_call_raising_is_fatal draft model facts e :
  client (PolishRequest model draft facts) = CallRaises e ->
  _polish_content loads client draft model facts = Raise e.
Proof. unfold _polish_content. now intros ->. Qed.

(** C5 (as amended).  With a usable key and topic, the two calls are
    treated alike.  A call that raises is fatal: the exception of the
    draft call, and that of the polish call, is the outcome of the
    assembly.  A response whose content cannot be read (no choice, no
    content) is not fatal: after the draft call the draft is the
    fallback document with the message as overview, and the polish call
    is made with it; after the polish call the result is the draft,
    unchanged.  A polish response whose content is read is repaired and
    normalized whatever it holds, and the draft is not returned: an
    empty content gives the fallback document with an empty overview. *)
Theorem polish_falls_back_draft_propagates key t model facts :
  key <> "" ->
  py_strip t <> "" ->
  let assemble := generate_content loads client (Some key) (JStr t) model facts in
  let draft_request := DraftRequest model (py_strip t) facts in
  (forall e, client draft_request = CallRaises e -> assemble = Raise e)
  /\ (forall msg,
        client draft_request = Malformed msg ->
        assemble
        = _polish_content loads client
            (parsing_failed ("Bad LLM response: " ++ msg)) model facts)
  /\ (forall draft,
        _call_llm_and_parse loads client draft_request = Ok draft ->
        (forall e,
            client (PolishRequest model draft facts) = CallRaises e ->
            assemble = Raise e)
        /\ (forall msg,
              client (PolishRequest model draft facts) = Malformed msg ->
              assemble = Ok draft)
        /\ (forall s,
              client (PolishRequest model draft facts) = Content s ->
              (assemble
               = (polished <-
                    safe_json_parse loads
                      (JStr match re_search_braces (py_strip s) with
                            | Some m => m
                            | None => py_strip s
                            end) ;;
                  ensure_sources facts polished))
              /\ (py_strip s = "" -> assemble = Ok (parsing_failed "")))).
Proof.
  intros K T assemble draft_request.
  apply String.eqb_neq in K. apply String.eqb_neq in T.
  assert (A : assemble
              = (draft <- _call_llm_and_parse loads client draft_request ;;
                 _polish_content loads client draft model facts)).
  { unfold assemble, generate_content, _init_groq_client. now rewrite K, T. }
  rewrite A. split; [|split].
  - intros e D. unfold _call_llm_and_parse. now rewrite D.
  - intros msg D. now rewrite (malformed_draft_is_not_fatal _ _ D).
  - intros draft D. rewrite D. cbn [bind]. split; [|split].
    + apply polish_call_raising_is_fatal.
    + intros msg P. unfold _polish_content. now rewrite P.
    + intros s P. unfold _polish_content. rewrite P. cbv zeta.
      split; [reflexivity|]. intros E. rewrite E. reflexivity.
Qed.

End Assembly.

(** C5 (as stated) fails.  A draft response whose content cannot be read
    is not a hard failure: the assembly goes on with the fallback
    document.  A polish call that raises is one.  A polish response
    with an empty content replaces the draft. *)
Lemma unreadable_draft_is_not_fatal :
  let unreadable := fun _ : request => Malformed "no choices" in
  let polish_raises :=
    fun req => match req with
               | DraftRequest _ _ _ => Content (json_text "{'title': 'D'}")
               | PolishRequest _ _ _ => CallRaises (TransportError "down")
               end in
  let polish_empty :=
    fun req => match req with
               | DraftRequest _ _ _ => Content (json_text "{'title': 'D'}")
               | PolishRequest _ _ _ => Content " "
               end in
  generate_content json_loads unreadable (Some "k") (JStr "AI") "m" None
  = Ok (parsing_failed "Bad LLM response: no choices")
  /\ generate_content json_loads polish_raises (Some "k") (JStr "AI") "m" None
     = Raise (TransportError "down")
  /\ generate_content json_loads polish_empty (Some "k") (JStr "AI") "m" None
     = Ok (parsing_failed "").
Proof. repeat split. Qed.

(** Two clients: one whose polish response has no content, one whose
    calls raise. *)
Lemma polish_fallback_example :
  let client := fun req => match req with
                           | DraftRequest _ _ _ => Content (json_text "{'title': 'D'}")
                           | PolishRequest _ _ _ => Malformed "no content"
                           end in
  let failing := fun req : request => CallRaises (TransportError "down") in
  generate_content json_loads client (Some "k") (JStr " AI ") "m" None
  = Ok (JDict [("title", JStr "D")])
  /\ generate_content json_loads failing (Some "k") (JStr " AI ") "m" None
     = Raise (TransportError "down").
Proof.
  intros client failing. split.
  - apply (proj1 (proj2 (proj2 (proj2 (polish_falls_back_draft_propagates
                    json_loads client
                    "k" " AI " "m" None ltac:(discriminate) ltac:(discriminate)))
             (JDict [("title", JStr "D")]) eq_refl)) "no content").
    reflexivity.
  - apply (proj1 (polish_falls_back_draft_propagates json_loads failing
                    "k" " AI " "m" None ltac:(discriminate) ltac:(discriminate))).
    reflexivity.
Defined.

(** C4.  A polish answer whose [slides] is a number: the sources pass
    raises [TypeError], no deck is made, and [main] ends with status 1. *)
Theorem malformed_slides_crash {lib : pptx} draft model facts output :
  deck_after_draft json_loads (fun _ => Content (json_text "{'slides': 5}"))
    draft model facts = Raise TypeError
  /\ main json_loads (fun _ => Content (json_text "{'slides': 5}"))
       (Some "key") "AI" model output true (Ok []) = 1%Z.
Proof. split; reflexivity. Qed.

(** Other answers that stop the pipeline: a topic that is a number, and
    a text that decodes to a list. *)
Lemma malformed_topic_crash {lib : pptx} draft model facts :
  deck_after_draft json_loads
    (fun _ => Content (json_text "{'slides': [{'topics': [1]}]}"))
    draft model facts = Raise TypeError.
Proof. reflexivity. Qed.

Lemma list_answer_crash {lib : pptx} draft model facts :
  deck_after_draft json_loads (fun _ => Content "[1,2]") draft model facts
  = Raise AttributeError.
Proof. reflexivity. Qed.

(** C3 (as stated) fails: a topic whose [sources] is the empty list
    keeps it. *)
Lemma empty_sources_stay_empty :
  _polish_content json_loads
    (fun _ => Content (json_text "{'slides': [{'topics': [{'sources': []}]}]}"))
    JNull "m" (Some ["F1"; "F2"; "F3"])
  = Ok (JDict [("slides",
                JList [JDict [("topics",
                               JList [JDict [("sources", JList [])]])]])]).
Proof. reflexivity. Qed.

(** One slide with two topics, the first without sources, the second
    with an empty list of them, and three facts. *)
Lemma sources_after_normalization_example :
  let facts := Some ["F1"; "F2"; "F3"] in
  let p :=
    JDict [("slides",
            JList [JDict [("topics",
                           JList [JDict [("subtitle", JStr "x")];
                                  JDict [("sources", JList [])]])]])] in
  let p' :=
    JDict [("slides",
            JList [JDict [("topics",
                           JList [JDict [("subtitle", JStr "x");
                                         ("sources",
                                          JList [JStr "F1"; JStr "F2"])];
                                  JDict [("sources", JList [])]])]])] in
  ensure_sources facts p = Ok p'
  /\ Forall2
       (fun s s' =>
          Forall2
            (fun t t' =>
               has_sources_list t' = true
               /\ (has_sources_list t = true -> t' = t)
               /\ (has_sources_list t = false ->
                   exists td,
                     t = JDict td
                     /\ t' = JDict (dict_set "sources" (backfill facts) td)))
            (slide_topics s) (slide_topics s'))
       (doc_slides p) (doc_slides p').
Proof.
  intros facts p p'. split; [reflexivity|].
  exact (proj1 (sources_after_normalization facts p p' eq_refl)).
Defined.

Lemma polish_keeps_charts_example :
  exists parsed,
    safe_json_parse json_loads
      (JStr (json_text "{'slides': [{'topics': [{'chart': {'values': [1, 2]}}]}]}"))
    = Ok parsed
    /\ charts_of parsed
       = [[Some (JDict [("values", JList [JNum (PInt 1); JNum (PInt 2)])])]].
Proof.
  destruct (polish_keeps_charts json_loads
              (fun _ => Content
                 (json_text "Here: {'slides': [{'topics': [{'chart': {'values': [1, 2]}}]}]}"))
              JNull "m" None _ _ eq_refl eq_refl) as (parsed & P & _ & C).
  exists parsed. split; [exact P|]. now rewrite <- C.
Defined.

(** ** Chart repair at render time *)

Lemma item_labels_length n : py_len (item_labels n) = Ok n.
Proof. unfold item_labels. simpl. now rewrite length_map, length_seq. Qed.

Lemma item_labels_truthy n : truthy (item_labels (S n)) = true.
Proof. reflexivity. Qed.

Lemma item_labels_nth n i :
  i < n ->
  match item_labels n with
  | JList l => nth i l JNull = JStr ("Item " ++ str_of_nat (i + 1))
  | _ => False
  end.
Proof.
  intros H. unfold item_labels.
  set (f := fun i => JStr ("Item " ++ str_of_nat (i + 1))).
  rewrite (nth_indep _ JNull (f 0)) by now rewrite length_map, length_seq.
  rewrite map_nth, seq_nth by assumption. reflexivity.
Qed.

Lemma chart_invalid_labels v vs :
  chart_invalid (item_labels (length (v :: vs))) (JList (v :: vs)) = Ok false.
Proof.
  unfold chart_invalid. cbn [length]. rewrite item_labels_truthy.
  cbn [negb truthy]. rewrite item_labels_length. cbn [bind py_len length].
  now rewrite Nat.eqb_refl.
Qed.

(** What [_render_chart] does with a dict, in one expression. *)
Lemma _render_chart_dict {lib : pptx} d :
  _render_chart (JDict d)
  = let get k dflt := match dict_get k d with Some x => x | None => dflt end in
    match (if truthy (get "values" (JList []))
              && negb (truthy (get "categories" (JList [])))
           then n <- py_len (get "values" (JList [])) ;; Ok (item_labels n)
           else Ok (get "categories" (JList []))) with
    | Ok categories =>
        match chart_invalid categories (get "values" (JList [])) with
        | Ok true => [Warn "[WARN] Skipping chart: invalid categories/values"]
        | Ok false =>
            let ty := if eq_str "bar" (get "type" JNull)
                      then COLUMN_CLUSTERED else LINE in
            match add_chart ty (get "title" (JStr "Series")) categories
                    (get "values" (JList [])) with
            | Ok _ =>
                [Chart ty (get "title" (JStr "Series")) categories
                   (get "values" (JList []))]
            | Raise _ => [Warn "[WARN] Failed to render chart:"]
            end
        | Raise _ => [Warn "[WARN] Failed to render chart:"]
        end
    | Raise _ => [Warn "[WARN] Failed to render chart:"]
    end.
Proof.
  unfold _render_chart, lift, obind. simpl py_get. cbv zeta.
  generalize (match dict_get "values" d with Some x => x | None => JList [] end).
  generalize (match dict_get "categories" d with Some x => x | None => JList [] end).
  intros C V.
  destruct (truthy V && negb (truthy C)).
  - destruct (py_len V) as [n|e]; simpl; [|reflexivity].
    destruct (chart_invalid (item_labels n) V) as [[|]|e]; try reflexivity.
    destruct (add_chart _ _ _ _) as [[]|e]; reflexivity.
  - simpl. destruct (chart_invalid C V) as [[|]|e]; try reflexivity.
    destruct (add_chart _ _ _ _) as [[]|e]; reflexivity.
Qed.

(** C6.  A chart with a non-empty list of values and with no categories,
    or an empty list of them, is not skipped: the categories [Item 1] to
    [Item N] are made for its [N] values, and the library is asked for
    the chart with them, the values, and the title and type of the
    chart.  The chart is on the slide when the library builds it; when
    the library raises, the code prints its warning and the slide has
    no chart. *)
Theorem chart_categories_synthesized {lib : pptx} d v vs :
  dict_get "values" d = Some (JList (v :: vs)) ->
  dict_get "categories" d = None \/ dict_get "categories" d = Some (JList []) ->
  let ty := if eq_str "bar" match dict_get "type" d with
                            | Some ty => ty
                            | None => JNull
                            end
            then COLUMN_CLUSTERED else LINE in
  let title := match dict_get "title" d with
               | Some title => title
               | None => JStr "Series"
               end in
  let categories := item_labels (length (v :: vs)) in
  _render_chart (JDict d)
  = match add_chart ty title categories (JList (v :: vs)) with
    | Ok _ => [Chart ty title categories (JList (v :: vs))]
    | Raise _ => [Warn "[WARN] Failed to render chart:"]
    end
  /\ forall i, i < length (v :: vs) ->
       match categories with
       | JList l => nth i l JNull = JStr ("Item " ++ str_of_nat (i + 1))
       | _ => False
       end.
Proof.
  intros V C ty title categories. split; [|intros i; apply item_labels_nth].
  assert (N : truthy match dict_get "categories" d with
                     | Some x => x
                     | None => JList []
                     end = false) by (destruct C as [-> | ->]; reflexivity).
  rewrite _render_chart_dict. cbv beta zeta. rewrite V, N.
  change (truthy (JList (v :: vs))) with true.
  cbn [andb negb py_len bind].
  rewrite chart_invalid_labels. reflexivity.
Qed.

Lemma chart_categories_synthesized_example :
  _render_chart (lib := example_pptx)
    (JDict [("values", JList [JNum (PInt 1); JNum (PInt 2); JNum (PInt 3)])])
  = [Chart LINE (JStr "Series")
       (JList [JStr "Item 1"; JStr "Item 2"; JStr "Item 3"])
       (JList [JNum (PInt 1); JNum (PInt 2); JNum (PInt 3)])].
Proof.
  exact (proj1 (chart_categories_synthesized (lib := example_pptx)
                  [("values", JList [JNum (PInt 1); JNum (PInt 2); JNum (PInt 3)])]
                  (JNum (PInt 1)) [JNum (PInt 2); JNum (PInt 3)]
                  eq_refl (or_introl eq_refl))).
Defined.

(** Two non-empty lists of different lengths: the chart is skipped. *)
Lemma _render_chart_mismatch {lib : pptx} d c cs v vs :
  dict_get "categories" d = Some (JList (c :: cs)) ->
  dict_get "values" d = Some (JList (v :: vs)) ->
  length cs <> length vs ->
  _render_chart (JDict d)
  = [Warn "[WARN] Skipping chart: invalid categories/values"].
Proof.
  intros C V N. rewrite _render_chart_dict. cbv beta zeta. rewrite C, V. simpl.
  unfold chart_invalid. simpl.
  destruct (Nat.eqb_spec (length cs) (length vs)); [contradiction|reflexivity].
Qed.

(** C2.  The chart of the specification's example, four categories and
    two values, sent through the code from the polish answer on: the
    polish stage leaves it as it is and the renderer skips it with a
    warning.  The block behind the [return] of [_polish_content] is the
    one that would have cut both lists to two items. *)
Theorem mismatched_chart_is_dropped {lib : pptx} :
  let chart :=
    JDict [("categories", JList [JStr "a"; JStr "b"; JStr "c"; JStr "d"]);
           ("values", JList [JNum (PInt 1); JNum (PInt 2)])] in
  deck_after_draft json_loads
    (fun _ => Content (json_text "{'title': 'T', 'slides': [{'title': 'S', 'topics': [{'bullets': ['b'], 'sources': ['s'], 'chart': {'categories': ['a','b','c','d'], 'values': [1,2]}}]}]}"))
    JNull "m" None
  = Ok [{| sl_title := JStr "T"; sl_body := [] |};
        {| sl_title := JStr "Overview"; sl_body := [BulletPara (JStr "")] |};
        {| sl_title := JStr "S";
           sl_body := [BulletPara (JStr "b"); SourcesPara "Sources: s";
                       Warn "[WARN] Skipping chart: invalid categories/values"] |}]
  /\ _render_chart chart
     = [Warn "[WARN] Skipping chart: invalid categories/values"]
  /\ auto_fix_chart chart
     = Ok (JDict [("categories", JList [JStr "a"; JStr "b"]);
                  ("values", JList [JNum (PInt 1); JNum (PInt 2)])]).
Proof. repeat split; reflexivity. Qed.

(** ** The deck *)

Lemma add_slide_bullet {lib : pptx} v :
  add_slide (JStr "Conclusion") [bullets_topic [v]]
  = Ok {| sl_title := JStr "Conclusion"; sl_body := [BulletPara v] |}.
Proof. reflexivity. Qed.

(** C9.  For a document whose conclusion is a text, and whose title,
    overview and content slides are made without an exception: the deck
    is those slides and, exactly when the conclusion is not empty, one
    more slide after them, titled [Conclusion], whose body is one bullet
    holding the conclusion.  The slides before it are the title slide,
    the slide [Overview] and one slide per entry of [slides]. *)
Theorem conclusion_slide_iff_nonempty {lib : pptx} d c front :
  dict_get "conclusion" d = Some (JStr c) ->
  front_slides (JDict d) = Ok front ->
  create_presentation (JDict d)
  = Ok (front ++ if String.eqb c "" then []
                 else [{| sl_title := JStr "Conclusion";
                          sl_body := [BulletPara (JStr c)] |}])
  /\ exists s0 s1 content_slides,
      front = s0 :: s1 :: content_slides
      /\ sl_title s1 = JStr "Overview"
      /\ length content_slides = length (doc_slides (JDict d)).
Proof.
  intros C F. split.
  - unfold create_presentation. rewrite F. cbn [bind].
    unfold conclusion_slide. cbn [py_get py_getitem]. rewrite C.
    cbn [bind truthy].
    destruct (String.eqb c ""); cbn [negb]; [reflexivity|].
    now rewrite add_slide_bullet.
  - unfold front_slides in F. simpl py_get in F. cbn [bind] in F.
    repeat bind_ok F. injection F as <-.
    exists {| sl_title := match dict_get "title" d with
                          | Some x => x
                          | None => JStr "Untitled Presentation"
                          end; sl_body := [] |}, a0, a2.
    repeat split.
    + unfold add_slide in E0.
      destruct (_render_topics _) as [body [[]|e]]; [|discriminate].
      now injection E0 as <-.
    + simpl. destruct (dict_get "slides" d) as [[| b | n | s | l | d']|];
        simpl in E1; try discriminate; injection E1 as <-.
      * destruct (chars s); simpl in E2; [now injection E2 as <-|discriminate].
      * now apply for_each_length in E2.
      * destruct d'; simpl in E2; [now injection E2 as <-|discriminate].
      * now injection E2 as <-.
Qed.

Lemma conclusion_slide_example :
  create_presentation (lib := example_pptx)
    (JDict [("title", JStr "T"); ("conclusion", JStr "C")])
  = Ok [{| sl_title := JStr "T"; sl_body := [] |};
        {| sl_title := JStr "Overview"; sl_body := [BulletPara (JStr "")] |};
        {| sl_title := JStr "Conclusion"; sl_body := [BulletPara (JStr "C")] |}]
  /\ create_presentation (lib := example_pptx)
       (JDict [("title", JStr "T"); ("conclusion", JStr "")])
     = Ok [{| sl_title := JStr "T"; sl_body := [] |};
           {| sl_title := JStr "Overview"; sl_body := [BulletPara (JStr "")] |}].
Proof.
  split.
  - exact (proj1 (conclusion_slide_iff_nonempty
                    [("title", JStr "T"); ("conclusion", JStr "C")] "C" _
                    eq_refl eq_refl)).
  - exact (proj1 (conclusion_slide_iff_nonempty
                    [("title", JStr "T"); ("conclusion", JStr "")] "" _
                    eq_refl eq_refl)).
Defined.

(** ** Idempotence *)

Lemma chart_invalid_false_truthy categories values :
  chart_invalid categories values = Ok false ->
  truthy categories = true /\ truthy values = true.
Proof.
  unfold chart_invalid.
  destruct (truthy categories); [|discriminate].
  destruct (truthy values); [auto|discriminate].
Qed.

(** Drawing a chart again from the categories it was drawn with draws
    the same chart. *)
Lemma _render_chart_idempotent {lib : pptx} d ty title categories values :
  _render_chart (JDict d) = [Chart ty title categories values] ->
  _render_chart (JDict (dict_set "categories" categories d))
  = [Chart ty title categories values].
Proof.
  rewrite !_render_chart_dict. cbv beta zeta.
  rewrite dict_get_set_same.
  rewrite !(dict_get_set_other "categories") by discriminate.
  generalize (match dict_get "values" d with Some x => x | None => JList [] end).
  generalize (match dict_get "categories" d with Some x => x | None => JList [] end).
  generalize (match dict_get "title" d with Some x => x | None => JStr "Series" end).
  generalize (match dict_get "type" d with Some x => x | None => JNull end).
  intros ty0 title0 C V H.
  set (ty1 := if eq_str "bar" ty0 then COLUMN_CLUSTERED else LINE) in *.
  assert (K : chart_invalid categories V = Ok false
              /\ match add_chart ty1 title0 categories V with
                 | Ok _ => [Chart ty1 title0 categories V]
                 | Raise _ => [Warn "[WARN] Failed to render chart:"]
                 end = [Chart ty title categories values]).
  { destruct (truthy V && negb (truthy C)).
    - destruct (py_len V) as [n|e]; simpl in H; [|discriminate].
      destruct (chart_invalid (item_labels n) V) as [[|]|e] eqn:I;
        try discriminate.
      destruct (add_chart ty1 title0 (item_labels n) V) as [[]|e] eqn:A;
        try discriminate.
      injection H as <- <- <- <-. rewrite A. auto.
    - destruct (chart_invalid C V) as [[|]|e] eqn:I; try discriminate.
      destruct (add_chart ty1 title0 C V) as [[]|e] eqn:A; try discriminate.
      injection H as <- <- <- <-. rewrite A. auto. }
  destruct K as [I K].
  destruct (chart_invalid_false_truthy _ _ I) as [Tc _].
  rewrite Tc, andb_false_r, I. exact K.
Qed.

Lemma substring_length n s :
  n <= String.length s -> String.length (String.substring 0 n s) = n.
Proof.
  revert n. induction s as [|c s IH]; intros [|n] H; simpl in *;
    try reflexivity; try lia.
  rewrite IH; lia.
Qed.

Lemma truthy_len v n : py_len v = Ok n -> truthy v = negb (Nat.eqb n 0).
Proof.
  destruct v as [| b | x | s | l | d]; try discriminate;
    intros [= <-]; [destruct s|destruct l|destruct d]; reflexivity.
Qed.

Lemma py_slice_len n v w m :
  py_slice n v = Ok w -> py_len v = Ok m -> n <= m -> py_len w = Ok n.
Proof.
  destruct v as [| b | x | s | l | d]; try discriminate;
    intros [= <-] [= <-] L; simpl; f_equal.
  - now apply substring_length.
  - now apply firstn_length_le.
Qed.

(** The chart block behind the [return], had it been run, would be
    idempotent too. *)
Lemma auto_fix_chart_idempotent c c' :
  auto_fix_chart c = Ok c' -> auto_fix_chart c' = Ok c'.
Proof.
  intros H. pose proof H as H0.
  destruct c as [| b | x | s | l | d]; try discriminate.
  unfold auto_fix_chart in H. simpl py_get in H. cbn [bind] in H.
  remember (match dict_get "values" d with Some x => x | None => JList [] end)
    as V eqn:EV.
  remember (match dict_get "categories" d with Some x => x | None => JList [] end)
    as C eqn:EC.
  destruct (truthy V) eqn:TV; destruct (truthy C) eqn:TC; simpl in H;
    try (injection H as <-; exact H0).
  - (* both present *)
    destruct (py_len C) as [lc|] eqn:LC; simpl in H; [|discriminate].
    destruct (py_len V) as [lv|] eqn:LV; simpl in H; [|discriminate].
    destruct (Nat.eqb lc lv) eqn:Q; simpl in H;
      [injection H as <-; exact H0|].
    destruct (py_slice (Nat.min lc lv) C) as [cs|] eqn:SC; simpl in H;
      [|discriminate].
    destruct (py_slice (Nat.min lc lv) V) as [vs|] eqn:SV; simpl in H;
      [|discriminate].
    injection H as <-.
    pose proof (py_slice_len _ _ _ _ SC LC (Nat.le_min_l _ _)) as Lcs.
    pose proof (py_slice_len _ _ _ _ SV LV (Nat.le_min_r _ _)) as Lvs.
    assert (P : Nat.eqb (Nat.min lc lv) 0 = false).
    { rewrite (truthy_len _ _ LC) in TC. rewrite (truthy_len _ _ LV) in TV.
      apply negb_true_iff, Nat.eqb_neq in TC, TV. apply Nat.eqb_neq. lia. }
    unfold auto_fix_chart. simpl py_get. cbn [bind].
    rewrite dict_get_set_same.
    rewrite (dict_get_set_other "values" "categories") by discriminate.
    rewrite dict_get_set_same.
    rewrite (truthy_len _ _ Lcs), (truthy_len _ _ Lvs), P. simpl.
    rewrite Lcs, Lvs. simpl. now rewrite Nat.eqb_refl.
  - (* values only *)
    destruct (py_len V) as [n|] eqn:LV; simpl in H; [|discriminate].
    injection H as <-.
    assert (P : exists m, n = S m).
    { rewrite (truthy_len _ _ LV) in TV.
      apply negb_true_iff, Nat.eqb_neq in TV. destruct n; [lia|eauto]. }
    destruct P as (m & ->).
    unfold auto_fix_chart. simpl py_get. cbn [bind].
    rewrite dict_get_set_same.
    rewrite (dict_get_set_other "categories" "values") by discriminate.
    rewrite <- EV, TV, item_labels_truthy. cbn [andb negb bind].
    rewrite LV, item_labels_length. cbn [bind]. now rewrite Nat.eqb_refl.
Qed.

(** C8.  The passes are idempotent.  The sources pass with topic
    coercion: run again on its own result, it returns that result.  The
    chart repair of the renderer: a chart drawn with the categories it
    was given or that were made for it is drawn the same from those
    categories.  The chart block behind the [return]: run again on its
    own result, it returns that result. *)
Theorem normalization_idempotent {lib : pptx} :
  (forall facts p p',
      ensure_sources facts p = Ok p' -> ensure_sources facts p' = Ok p')
  /\ (forall d ty title categories values,
         _render_chart (JDict d) = [Chart ty title categories values] ->
         _render_chart (JDict (dict_set "categories" categories d))
         = [Chart ty title categories values])
  /\ (forall c c', auto_fix_chart c = Ok c' -> auto_fix_chart c' = Ok c').
Proof.
  split; [|split].
  - intros facts p p' H. now apply ensure_sources_result in H.
  - exact _render_chart_idempotent.
  - exact auto_fix_chart_idempotent.
Qed.

Lemma normalization_idempotent_example :
  ensure_sources (Some ["F1"])
    (JDict [("slides",
             JList [JDict [("topics",
                            JList [JDict [("sources", JList [JStr "F1"])]])]])])
  = Ok (JDict [("slides",
                JList [JDict [("topics",
                               JList [JDict [("sources", JList [JStr "F1"])]])]])])
  /\ _render_chart (lib := example_pptx)
       (JDict [("values", JList [JNum (PInt 7)]);
               ("categories", JList [JStr "Item 1"])])
     = [Chart LINE (JStr "Series") (JList [JStr "Item 1"])
          (JList [JNum (PInt 7)])]
  /\ auto_fix_chart
       (JDict [("categories", JList [JStr "a"]);
               ("values", JList [JNum (PInt 1)])])
     = Ok (JDict [("categories", JList [JStr "a"]);
                  ("values", JList [JNum (PInt 1)])]).
Proof.
  split; [|split].
  - apply (proj1 (normalization_idempotent (lib := example_pptx)) (Some ["F1"])
             (JDict [("slides",
                      JList [JDict [("topics",
                                     JDict [("sources", JList [JStr "F1"])])]])])).
    reflexivity.
  - apply (proj1 (proj2 (normalization_idempotent (lib := example_pptx)))
             [("values", JList [JNum (PInt 7)])]).
    reflexivity.
  - apply (proj2 (proj2 (normalization_idempotent (lib := example_pptx)))
             (JDict [("categories", JList [JStr "a"; JStr "b"]);
                     ("values", JList [JNum (PInt 1)])])).
    reflexivity.
Defined.


(** * Further properties *)

(** ** The repair *)

Lemma after_first_found c pre r :
  ~ In c pre -> after_first c (pre ++ c :: r) = Some r.
Proof.
  induction pre as [|x pre IH]; simpl; intros N.
  - now rewrite Ascii.eqb_refl.
  - destruct (Ascii.eqb_spec x c) as [->|_]; [tauto|]. apply IH. tauto.
Qed.

Lemma upto_last_none c l : ~ In c l -> upto_last c l = None.
Proof.
  induction l as [|x l IH]; simpl; intros N; [reflexivity|].
  rewrite IH by tauto. destruct (Ascii.eqb_spec x c) as [->|_]; tauto.
Qed.

Lemma upto_last_found c mid post :
  ~ In c post -> upto_last c (mid ++ c :: post) = Some (mid ++ [c])%list.
Proof.
  intros N. induction mid as [|x mid IH]; simpl.
  - now rewrite upto_last_none, Ascii.eqb_refl.
  - now rewrite IH.
Qed.

Section MoreRepair.

Variable loads : string -> res json.

Local Open Scope string_scope.

Lemma re_search_braces_found pre mid post :
  ~ In "{"%char (chars pre) ->
  ~ In "}"%char (chars post) ->
  re_search_braces (pre ++ "{" ++ mid ++ "}" ++ post) = Some ("{" ++ mid ++ "}").
Proof.
  intros P Q. unfold re_search_braces.
  rewrite chars_app. change (chars ("{" ++ mid ++ "}" ++ post))
    with ("{"%char :: chars (mid ++ "}" ++ post)).
  rewrite after_first_found by assumption.
  rewrite chars_app.
  change (chars ("}" ++ post)) with ("}"%char :: chars post).
  rewrite upto_last_found by assumption.
  f_equal. simpl. f_equal.
  rewrite <- (text_chars (mid ++ "}")). now rewrite chars_app.
Qed.

(** X1.  The span the repair looks at.  In a text [pre { mid } post]
    with no opening brace in [pre] and no closing brace in [post], the
    search finds [{ mid }]: from the first opening brace of the text to
    its last closing brace, whatever [mid] holds. *)
Theorem re_search_braces_first_to_last pre mid post :
  ~ In "{"%char (chars pre) ->
  ~ In "}"%char (chars post) ->
  re_search_braces (pre ++ "{" ++ mid ++ "}" ++ post) = Some ("{" ++ mid ++ "}").
Proof. apply re_search_braces_found. Qed.

Lemma safe_json_parse_nonempty_raise s e :
  s <> "" -> loads s = Raise e ->
  safe_json_parse loads (JStr s) = recover loads s.
Proof.
  intros N L. apply String.eqb_neq in N.
  unfold safe_json_parse. simpl. now rewrite N, L.
Qed.

(** X2.  JSON inside other text.  When the decoder refuses a text
    [pre { mid } post] as a whole ([pre] without opening brace, [post]
    without closing brace) and reads [v] from the span [{ mid }] after
    the comma clean-up, the repair returns [v]. *)
Theorem safe_json_parse_span_in_prose pre mid post e v :
  ~ In "{"%char (chars pre) ->
  ~ In "}"%char (chars post) ->
  loads (pre ++ "{" ++ mid ++ "}" ++ post) = Raise e ->
  loads (re_sub_trailing_commas ("{" ++ mid ++ "}")) = Ok v ->
  safe_json_parse loads (JStr (pre ++ "{" ++ mid ++ "}" ++ post)) = Ok v.
Proof.
  intros P Q Bad Good.
  rewrite (safe_json_parse_nonempty_raise _ e); auto.
  - unfold recover. rewrite re_search_braces_found by assumption.
    now rewrite Good.
  - destruct pre; discriminate.
Qed.

End MoreRepair.

Lemma re_search_braces_first_to_last_example :
  re_search_braces (json_text "Sure! {'a': {'b': 1}} and } more")
  = Some (json_text "{'a': {'b': 1}} and }").
Proof.
  apply (re_search_braces_first_to_last "Sure! "
           (json_text "'a': {'b': 1}} and ") " more");
    vm_compute; intuition discriminate.
Defined.

Lemma safe_json_parse_span_in_prose_example :
  safe_json_parse json_loads (JStr (json_text "Here is the deck: {'title': 'T',} Enjoy."))
  = Ok (JDict [("title", JStr "T")]).
Proof.
  apply (safe_json_parse_span_in_prose json_loads "Here is the deck: "
           (json_text "'title': 'T',") " Enjoy." JSONDecodeError);
    vm_compute; intuition discriminate.
Defined.

Lemma string_length_chars s : String.length s = length (chars s).
Proof. induction s; simpl; congruence. Qed.

Lemma drop_trailing_commas_keeps_others l :
  filter (fun c => negb (Ascii.eqb c ",")) (drop_trailing_commas l)
  = filter (fun c => negb (Ascii.eqb c ",")) l.
Proof.
  induction l as [|c r IH]; simpl; [reflexivity|].
  destruct (Ascii.eqb c ",") eqn:E; simpl.
  - destruct (closes r); simpl; rewrite ?E; exact IH.
  - rewrite E. simpl. now rewrite IH.
Qed.

Lemma drop_trailing_commas_no_comma l :
  existsb (fun c => Ascii.eqb c ",") l = false -> drop_trailing_commas l = l.
Proof.
  induction l as [|c r IH]; simpl; [reflexivity|].
  intros N. apply orb_false_iff in N as [N1 N2].
  rewrite N1. simpl. now rewrite IH.
Qed.

(** X3.  The comma clean-up removes commas and nothing else: the other
    characters of the text are all kept, in their order, and a text
    without a comma is returned as it is. *)
Theorem re_sub_trailing_commas_only_commas s :
  filter (fun c => negb (Ascii.eqb c ",")) (chars (re_sub_trailing_commas s))
  = filter (fun c => negb (Ascii.eqb c ",")) (chars s)
  /\ String.length (re_sub_trailing_commas s) <= String.length s
  /\ (existsb (fun c => Ascii.eqb c ",") (chars s) = false ->
      re_sub_trailing_commas s = s).
Proof.
  unfold re_sub_trailing_commas. rewrite !string_length_chars, chars_text.
  repeat split.
  - apply drop_trailing_commas_keeps_others.
  - apply drop_trailing_commas_length.
  - intros N. rewrite drop_trailing_commas_no_comma by assumption.
    apply text_chars.
Qed.

Lemma re_sub_trailing_commas_only_commas_example :
  re_sub_trailing_commas "[1 2 3]" = "[1 2 3]".
Proof.
  apply (proj2 (proj2 (re_sub_trailing_commas_only_commas "[1 2 3]"))).
  reflexivity.
Defined.

Lemma substring_length_min n s :
  String.length (String.substring 0 n s) = Nat.min n (String.length s).
Proof.
  revert n. induction s as [|c s IH]; intros [|n]; simpl; try reflexivity.
  now rewrite IH.
Qed.

Section MoreRepair2.

Variable loads : string -> res json.

(** X4.  The fallback keeps at most 500 characters.  When the decoder
    refuses a non-empty text, and refuses its brace span after the comma
    clean-up if there is one, the repair returns the fallback document
    whose overview is the first 500 characters of the text (the whole
    text when it is shorter). *)
Theorem safe_json_parse_fallback_overview s e :
  s <> "" ->
  loads s = Raise e ->
  (forall m, re_search_braces s = Some m ->
             exists e', loads (re_sub_trailing_commas m) = Raise e') ->
  safe_json_parse loads (JStr s) = Ok (parsing_failed (str_take 500 s))
  /\ String.length (str_take 500 s) = Nat.min 500 (String.length s)
  /\ String.prefix (str_take 500 s) s = true.
Proof.
  intros N Bad R. repeat split.
  - rewrite (safe_json_parse_nonempty_raise loads s e) by assumption.
    unfold recover. destruct (re_search_braces s) as [m|]; [|reflexivity].
    destruct (R m eq_refl) as (e' & ->). reflexivity.
  - apply substring_length_min.
  - unfold str_take. clear. generalize 500. induction s as [|c s IH]; intros [|n];
      simpl; try reflexivity.
    destruct (Ascii.ascii_dec c c); [apply IH|congruence].
Qed.

(** X5.  A JSON text that holds a string.  When the string, without the
    whitespace around it, starts with an opening brace, it is decoded a
    second time and that value is returned; when the second decoding
    fails, the repair goes on as if the first had failed, with the
    original text.  A string that does not start with an opening brace
    is returned itself. *)
Theorem safe_json_parse_double_encoded s p :
  s <> "" ->
  loads s = Ok (JStr p) ->
  (startswith "{" (py_strip p) = true ->
   forall v, loads p = Ok v -> safe_json_parse loads (JStr s) = Ok v)
  /\ (startswith "{" (py_strip p) = true ->
      forall e, loads p = Raise e ->
      safe_json_parse loads (JStr s) = recover loads s)
  /\ (startswith "{" (py_strip p) = false ->
      safe_json_parse loads (JStr s) = Ok (JStr p)).
Proof.
  intros N L. apply String.eqb_neq in N.
  unfold safe_json_parse. simpl. rewrite N, L. simpl.
  repeat split; intros ->; try intros v ->; reflexivity.
Qed.

End MoreRepair2.

Lemma safe_json_parse_fallback_overview_example :
  safe_json_parse json_loads (JStr "not json at all")
  = Ok (parsing_failed "not json at all").
Proof.
  apply (safe_json_parse_fallback_overview json_loads "not json at all"
           JSONDecodeError); try discriminate; reflexivity.
Defined.

Lemma safe_json_parse_double_encoded_example :
  safe_json_parse json_loads (JStr (json_text "'{\'title\':\'T\'}'"))
  = Ok (JDict [("title", JStr "T")]).
Proof.
  apply (proj1 (safe_json_parse_double_encoded json_loads
                  (json_text "'{\'title\':\'T\'}'") (json_text "{'title':'T'}")
                  ltac:(discriminate) eq_refl) eq_refl).
  reflexivity.
Defined.

(** ** The sources pass *)

(** [safe_json_parse] raises nothing. *)
Lemma safe_json_parse_ok loads raw : exists v, safe_json_parse loads raw = Ok v.
Proof.
  destruct raw as [| b | n | s | l | d]; simpl; eauto.
  destruct (String.eqb s ""); simpl; [eauto|].
  assert (R : exists v, recover loads s = Ok v).
  { unfold recover. destruct (re_search_braces s) as [m|]; simpl; eauto.
    destruct (loads (re_sub_trailing_commas m)); simpl; eauto. }
  destruct (loads s) as [[| b | n | p | l | d]|e]; simpl; eauto.
  destruct (startswith "{" (py_strip p)); simpl; eauto.
  destruct (loads p); simpl; eauto.
Qed.

Lemma for_each_ok_iff {A B : Type} (f : A -> res B) l :
  (exists l', for_each f l = Ok l') <-> Forall (fun x => exists y, f x = Ok y) l.
Proof.
  induction l as [|x r IH]; simpl.
  - split; eauto.
  - split.
    + intros (l' & H). destruct (f x) as [y|] eqn:Fx; [|discriminate].
      simpl in H. destruct (for_each f r) as [ys|] eqn:Fr; [|discriminate].
      constructor; eauto. apply IH. eauto.
    + intros H. inversion H as [|? ? (y & Hy) Hr]; subst.
      apply IH in Hr as (ys & Hys). rewrite Hy, Hys. simpl. eauto.
Qed.

Lemma for_each_raises {A B : Type} (f : A -> res B) (P : exn -> Prop) l e :
  (forall x e', f x = Raise e' -> P e') -> for_each f l = Raise e -> P e.
Proof.
  intros H. induction l as [|x r IH]; simpl; [discriminate|].
  destruct (f x) as [y|e'] eqn:Fx; simpl.
  - destruct (for_each f r) as [ys|e'']; simpl; [discriminate|].
    intros [= <-]. now apply IH.
  - intros [= <-]. eauto.
Qed.

Lemma ensure_topic_sources_accepts facts t :
  (exists t', ensure_topic_sources facts t = Ok t') <-> is_dict t = true.
Proof.
  split.
  - intros (t' & H). now destruct (ensure_topic_sources_ok _ _ _ H) as (td & ->).
  - destruct t; try discriminate. rewrite ensure_topic_sources_dict. eauto.
Qed.

Lemma Forall_forallb {A : Type} (f : A -> bool) (P : A -> Prop) l :
  (forall x, P x <-> f x = true) -> Forall P l <-> forallb f l = true.
Proof.
  intros H. rewrite forallb_forall, Forall_forall.
  split; intros K x I; apply H, K, I.
Qed.

Lemma ensure_slide_sources_accepts facts s :
  (exists s', ensure_slide_sources facts s = Ok s') <-> slide_accepted s = true.
Proof.
  unfold ensure_slide_sources, slide_accepted.
  destruct s as [| b | n | x | l | sd];
    try (split; [intros (s' & H); discriminate|discriminate]).
  simpl.
  rewrite <- (Forall_forallb _ _ _ (ensure_topic_sources_accepts facts)).
  rewrite <- for_each_ok_iff.
  destruct (for_each _ _) as [ts|e]; simpl; split; eauto;
    intros (s' & H); discriminate.
Qed.

(** X6.  When the sources pass completes.  The pass returns a document,
    instead of raising, exactly for these inputs: a value that is not a
    dict; a dict without [slides]; a dict whose [slides] is an empty
    string or an empty dict; a dict whose [slides] is a list of dicts in
    each of which [topics] is absent, a dict, a list of dicts, or
    anything that is neither a list nor a dict. *)
Theorem ensure_sources_accepts facts p :
  (exists p', ensure_sources facts p = Ok p') <-> sources_pass_accepts p = true.
Proof.
  unfold ensure_sources, sources_pass_accepts.
  destruct p as [| b | n | x | l | d]; try (split; eauto; fail).
  destruct (dict_get "slides" d) as [[| b | n | x | slides | keys]|];
    simpl; try (split; eauto; fail);
    try (split; [intros (p' & H); discriminate|discriminate]).
  - destruct x as [|c x]; simpl; [split; eauto|].
    split; [intros (p' & H); discriminate|discriminate].
  - rewrite <- (Forall_forallb _ _ _ (ensure_slide_sources_accepts facts)).
    rewrite <- for_each_ok_iff.
    destruct (for_each _ slides) as [ss|e]; simpl; split; eauto;
      intros (p' & H); discriminate.
  - destruct keys as [|[k v] keys]; simpl; [split; eauto|].
    split; [intros (p' & H); discriminate|discriminate].
Qed.

Lemma ensure_sources_accepts_example :
  exists p',
    ensure_sources None
      (JDict [("slides", JList [JDict [("topics", JNum (PInt 3))]; JDict []])])
    = Ok p'.
Proof.
  apply (proj2 (ensure_sources_accepts None
                  (JDict [("slides",
                           JList [JDict [("topics", JNum (PInt 3))]; JDict []])]))).
  reflexivity.
Defined.

Lemma same_but_refl k d : same_but k (JDict d) (JDict d).
Proof. exists d, d. auto. Qed.

Lemma same_but_set k v d : same_but k (JDict d) (JDict (dict_set k v d)).
Proof.
  exists d, (dict_set k v d). repeat split.
  intros k' N. apply dict_get_set_other. congruence.
Qed.

(** X7.  What the sources pass leaves alone.  The document returned
    differs from the input at most under [slides]; each slide of the
    result differs from the slide it comes from at most under [topics];
    each topic differs from the topic it comes from at most under
    [sources].  Slides and topics keep their number and order. *)
Theorem ensure_sources_frame facts p p' :
  ensure_sources facts p = Ok p' ->
  (p' = p \/ same_but "slides" p p')
  /\ Forall2 (fun s s' =>
               same_but "topics" s s'
               /\ Forall2 (same_but "sources") (slide_topics s) (slide_topics s'))
            (doc_slides p) (doc_slides p').
Proof.
  intros H. split.
  - unfold ensure_sources in H.
    destruct p as [| b | n | x | l | d]; try (injection H as <-; auto; fail).
    destruct (dict_get "slides" d) as [[| b | n | x | slides | keys]|];
      simpl in H; try discriminate; repeat bind_ok H; injection H as <-; auto.
    right. apply same_but_set.
  - apply ensure_sources_result in H as [F _].
    induction F as [|s s' r r' Hs _ IH]; constructor; auto.
    split.
    + unfold ensure_slide_sources in Hs.
      destruct s as [| b | n | x | l | sd]; try discriminate.
      simpl in Hs. bind_ok Hs. injection Hs as <-. apply same_but_set.
    + apply ensure_slide_sources_result in Hs as [Ft _].
      clear -Ft. induction Ft as [|t t' r r' Ht _ IH]; constructor; auto.
      destruct (ensure_topic_sources_ok _ _ _ Ht) as (td & ->).
      rewrite ensure_topic_sources_dict in Ht.
      destruct (has_sources_list (JDict td)); injection Ht as <-.
      * apply same_but_refl.
      * apply same_but_set.
Qed.

Lemma ensure_sources_frame_example :
  same_but "slides"
    (JDict [("title", JStr "T"); ("slides", JList [JDict [("topics", JDict [])]])])
    (JDict [("title", JStr "T");
            ("slides",
             JList [JDict [("topics",
                            JList [JDict [("sources",
                                           JList [JStr "General industry reports"])]])]])]).
Proof.
  destruct (proj1 (ensure_sources_frame None
             (JDict [("title", JStr "T");
                     ("slides", JList [JDict [("topics", JDict [])]])])
             _ eq_refl)) as [E|S]; [discriminate E|exact S].
Defined.

(** The exceptions of the sources pass. *)
Lemma ensure_sources_raises facts p e :
  ensure_sources facts p = Raise e -> e = TypeError \/ e = AttributeError.
Proof.
  assert (T : forall t e', ensure_topic_sources facts t = Raise e' ->
                e' = TypeError \/ e' = AttributeError).
  { intros t e'. destruct t as [| b | n | x | l | d];
      try (intros [= <-]; auto; fail).
    - unfold ensure_topic_sources. simpl.
      destruct (is_substring _ _); simpl; intros [= <-]; auto.
    - unfold ensure_topic_sources. simpl.
      destruct (existsb _ _); simpl; intros [= <-]; auto.
    - rewrite ensure_topic_sources_dict. discriminate. }
  assert (S : forall s e', ensure_slide_sources facts s = Raise e' ->
                e' = TypeError \/ e' = AttributeError).
  { intros s e'. unfold ensure_slide_sources.
    destruct s as [| b | n | x | l | sd]; try (intros [= <-]; auto; fail).
    simpl. destruct (for_each _ _) as [ts|e''] eqn:F; simpl; [discriminate|].
    intros [= <-].
    exact (for_each_raises _ (fun e => e = TypeError \/ e = AttributeError)
             _ _ T F). }
  unfold ensure_sources.
  destruct p as [| b | n | x | l | d]; try discriminate.
  destruct (dict_get "slides" d) as [[| b | n | x | slides | keys]|];
    simpl; try discriminate; try (intros [= <-]; auto; fail).
  - destruct (for_each _ _) as [ts|e''] eqn:F; simpl; [discriminate|].
    intros [= <-].
    exact (for_each_raises _ (fun e => e = TypeError \/ e = AttributeError)
             _ _ S F).
  - destruct (for_each _ _) as [ts|e''] eqn:F; simpl; [discriminate|].
    intros [= <-].
    exact (for_each_raises _ (fun e => e = TypeError \/ e = AttributeError)
             _ _ S F).
  - destruct (for_each _ _) as [ts|e''] eqn:F; simpl; [discriminate|].
    intros [= <-].
    exact (for_each_raises _ (fun e => e = TypeError \/ e = AttributeError)
             _ _ S F).
Qed.

(** ** The two generator calls *)

Section MoreAssembly.

Variable loads : string -> res json.
Variable client : request -> llm_response.

(** X8.  A polish answer that holds no JSON replaces the draft.  When
    the text handed to the repair is not empty, the decoder refuses it
    and refuses its brace span after the comma clean-up, the polish
    stage returns the fallback document with the first 500 characters of
    that text as overview: the draft is not returned. *)
Theorem polish_undecodable_answer_replaces_draft draft model facts s raw e :
  client (PolishRequest model draft facts) = Content s ->
  raw = match re_search_braces (py_strip s) with
        | Some m => m
        | None => py_strip s
        end ->
  raw <> "" ->
  loads raw = Raise e ->
  (forall m, re_search_braces raw = Some m ->
             exists e', loads (re_sub_trailing_commas m) = Raise e') ->
  _polish_content loads client draft model facts
  = Ok (parsing_failed (str_take 500 raw)).
Proof.
  intros C E N Bad R. unfold _polish_content. rewrite C. cbv zeta.
  rewrite <- E.
  rewrite (safe_json_parse_nonempty_raise loads raw e) by assumption.
  unfold recover.
  destruct (re_search_braces raw) as [m|] eqn:M; [|reflexivity].
  destruct (R m eq_refl) as (e' & ->). reflexivity.
Qed.

(** What the draft call can raise.  [_call_llm_and_parse] raises
    only when the call to the client raises, and then that exception; a
    response without usable content gives the fallback document whose
    overview reports it, and a content text gives what the repair makes
    of it. *)
Lemma _call_llm_and_parse_outcome req :
  match client req with
  | CallRaises e => _call_llm_and_parse loads client req = Raise e
  | Malformed msg =>
      _call_llm_and_parse loads client req
      = Ok (parsing_failed ("Bad LLM response: " ++ msg))
  | Content s =>
      exists v, _call_llm_and_parse loads client req = Ok v
                /\ safe_json_parse loads (JStr (py_strip s)) = Ok v
  end.
Proof.
  unfold _call_llm_and_parse. destruct (client req) as [e|msg|s]; auto.
  destruct (safe_json_parse_ok loads (JStr (py_strip s))) as (v & E).
  exists v. rewrite E. auto.
Qed.

Lemma generate_content_no_key key t model facts :
  py_strip t <> "" -> key = None \/ key = Some "" ->
  generate_content loads client key (JStr t) model facts
  = Raise (RuntimeError "GROQ_API_KEY is not set. Add it to your .env file.").
Proof.
  intros T K. apply String.eqb_neq in T.
  unfold generate_content. rewrite T.
  destruct K as [-> | ->]; reflexivity.
Qed.

(** X9.  The checks of [generate_content], in their order.  A topic
    that is not a text, or is blank, raises [ValueError] whatever the
    key; with a usable topic, a missing or empty key raises
    [RuntimeError]; in both cases before any call to the client, whose
    answers do not matter. *)
Theorem generate_content_checks key topic model facts :
  (match topic with
   | JStr t => py_strip t = ""
   | _ => True
   end ->
   generate_content loads client key topic model facts
   = Raise (ValueError "Topic must be a non-empty string."))
  /\ (forall t, topic = JStr t -> py_strip t <> "" ->
      key = None \/ key = Some "" ->
      generate_content loads client key topic model facts
      = Raise (RuntimeError "GROQ_API_KEY is not set. Add it to your .env file.")).
Proof.
  split.
  - destruct topic as [| b | n | t | l | d]; try reflexivity.
    intros E. unfold generate_content. now rewrite E.
  - intros t -> T K. now apply generate_content_no_key.
Qed.

(** X10.  The exceptions of [generate_content]: the [ValueError] of the
    topic check, the [RuntimeError] of the key check, an exception
    raised by a call to the client, or a [TypeError] or [AttributeError]
    of the sources pass.  A text the decoder refuses never is one. *)
Theorem generate_content_raises key topic model facts e :
  generate_content loads client key topic model facts = Raise e ->
  e = ValueError "Topic must be a non-empty string."
  \/ e = RuntimeError "GROQ_API_KEY is not set. Add it to your .env file."
  \/ (exists req, client req = CallRaises e)
  \/ e = TypeError \/ e = AttributeError.
Proof.
  unfold generate_content.
  destruct topic as [| b | n | t | l | d]; try (intros [= <-]; auto; fail).
  destruct (String.eqb (py_strip t) ""); [intros [= <-]; auto|].
  unfold _init_groq_client.
  destruct key as [k|]; [|intros [= <-]; auto].
  destruct (String.eqb k ""); [intros [= <-]; auto|]. cbn [bind].
  pose proof (_call_llm_and_parse_outcome (DraftRequest model (py_strip t) facts)) as D.
  destruct (client (DraftRequest model (py_strip t) facts)) as [e'|msg|s] eqn:C.
  - rewrite D. intros [= <-]. right. right. left. eauto.
  - rewrite D. cbn [bind]. revert D. generalize (parsing_failed ("Bad LLM response: " ++ msg)).
    intros draft _. unfold _polish_content.
    destruct (client (PolishRequest model draft facts)) as [e'|msg'|s'] eqn:P.
    + intros [= <-]. right. right. left. eauto.
    + discriminate.
    + destruct (safe_json_parse_ok loads (JStr match re_search_braces (py_strip s') with
                                              | Some m => m
                                              | None => py_strip s'
                                              end)) as (v & ->).
      cbn [bind]. intros H. apply ensure_sources_raises in H. tauto.
  - destruct D as (draft & -> & _). cbn [bind]. unfold _polish_content.
    destruct (client (PolishRequest model draft facts)) as [e'|msg'|s'] eqn:P.
    + intros [= <-]. right. right. left. eauto.
    + discriminate.
    + destruct (safe_json_parse_ok loads (JStr match re_search_braces (py_strip s') with
                                              | Some m => m
                                              | None => py_strip s'
                                              end)) as (v & ->).
      cbn [bind]. intros H. apply ensure_sources_raises in H. tauto.
Qed.

End MoreAssembly.

Lemma generate_content_checks_example :
  generate_content json_loads (fun _ => Content "{}") None (JStr "  ") "m" None
  = Raise (ValueError "Topic must be a non-empty string.")
  /\ generate_content json_loads (fun _ => Content "{}") (Some "") (JStr " AI ") "m" None
     = Raise (RuntimeError "GROQ_API_KEY is not set. Add it to your .env file.").
Proof.
  split.
  - apply (proj1 (generate_content_checks json_loads (fun _ => Content "{}")
                    None (JStr "  ") "m" None)).
    reflexivity.
  - apply (proj2 (generate_content_checks json_loads (fun _ => Content "{}")
                    (Some "") (JStr " AI ") "m" None) " AI " eq_refl);
      [discriminate|auto].
Defined.

Lemma generate_content_raises_example :
  TypeError = ValueError "Topic must be a non-empty string."
  \/ TypeError = RuntimeError "GROQ_API_KEY is not set. Add it to your .env file."
  \/ (exists req, (fun _ : request => Content (json_text "{'slides': 5}")) req
                  = CallRaises TypeError)
  \/ TypeError = TypeError \/ TypeError = AttributeError.
Proof.
  apply (generate_content_raises json_loads
           (fun _ => Content (json_text "{'slides': 5}"))
           (Some "k") (JStr "AI") "m" None).
  reflexivity.
Defined.

Lemma polish_undecodable_answer_replaces_draft_example :
  _polish_content json_loads (fun _ => Content " I cannot help with that. ")
    (JDict [("title", JStr "Draft")]) "m" None
  = Ok (parsing_failed "I cannot help with that.").
Proof.
  apply (polish_undecodable_answer_replaces_draft json_loads
           (fun _ => Content " I cannot help with that. ")
           (JDict [("title", JStr "Draft")]) "m" None
           " I cannot help with that. " "I cannot help with that."
           JSONDecodeError); try reflexivity; discriminate.
Defined.

(** ** [str.strip] *)

Lemma lstrip_fixed c r : is_space c = false -> lstrip (c :: r) = c :: r.
Proof. intros H. simpl. now rewrite H. Qed.

Lemma lstrip_head l :
  match lstrip l with
  | [] => True
  | c :: _ => is_space c = false
  end.
Proof.
  induction l as [|c r IH]; simpl; [exact I|].
  destruct (is_space c) eqn:E; [exact IH|exact E].
Qed.

Lemma lstrip_split l :
  exists ws, l = (ws ++ lstrip l)%list /\ forallb is_space ws = true.
Proof.
  induction l as [|c r (ws & E & F)]; simpl.
  - exists []. auto.
  - destruct (is_space c) eqn:S.
    + exists (c :: ws). simpl. rewrite S, F. split; [congruence|reflexivity].
    + exists []. auto.
Qed.

Lemma lstrip_idempotent l : lstrip (lstrip l) = lstrip l.
Proof.
  pose proof (lstrip_head l) as H. destruct (lstrip l) as [|c r]; [reflexivity|].
  now apply lstrip_fixed.
Qed.

Lemma strip_chars_idempotent l :
  let strip := fun x => rev (lstrip (rev (lstrip x))) in
  strip (strip l) = strip l.
Proof.
  cbv beta zeta.
  pose proof (lstrip_head l) as Ha. set (a := lstrip l) in *.
  pose proof (lstrip_head (rev a)) as Hb.
  destruct (lstrip_split (rev a)) as (ws & E & W).
  set (b := lstrip (rev a)) in *.
  assert (F : lstrip (rev b) = rev b).
  { destruct b as [|x b'] eqn:B; [reflexivity|].
    apply (f_equal (@rev ascii)) in E. rewrite rev_involutive, rev_app_distr in E.
    destruct (rev (x :: b')) as [|y t] eqn:R.
    - apply (f_equal (@length ascii)) in R. rewrite length_rev in R. discriminate.
    - rewrite E in Ha. simpl in Ha. now apply lstrip_fixed. }
  rewrite F, rev_involutive.
  destruct b as [|x b']; [reflexivity|]. now rewrite lstrip_fixed.
Qed.

(** [s.strip().strip() == s.strip()]. *)
Lemma py_strip_idempotent s : py_strip (py_strip s) = py_strip s.
Proof.
  unfold py_strip. rewrite chars_text. f_equal.
  apply (strip_chars_idempotent (chars s)).
Qed.

(** ** main.py *)

Section MoreMain.

Context {lib : pptx}.
Variable loads : string -> res json.
Variable client : request -> llm_response.

(** X11.  The exit status of [main].  It is 2 exactly when the topic is
    blank, and 0 or 1 otherwise.  For a topic that is not blank: when
    fetching the web facts raises (and [--no-web] is not given) the
    status is 1; when the key is missing or empty the status is 1; when
    the file cannot be written the status is 1; with [--no-web] what the
    fetch would have returned does not matter. *)
Theorem main_status key topic model output no_web fetched :
  (main loads client key topic model output no_web fetched = 2%Z
   <-> py_strip topic = "")
  /\ (py_strip topic <> "" ->
      main loads client key topic model output no_web fetched = 0%Z
      \/ main loads client key topic model output no_web fetched = 1%Z)
  /\ (py_strip topic <> "" -> no_web = false ->
      forall e, fetched = Raise e ->
      main loads client key topic model output no_web fetched = 1%Z)
  /\ (py_strip topic <> "" -> key = None \/ key = Some "" ->
      main loads client key topic model output no_web fetched = 1%Z)
  /\ (py_strip topic <> "" ->
      forall e,
      save (save_name (main_output (py_strip topic) output)) = Raise e ->
      main loads client key topic model output no_web fetched = 1%Z)
  /\ (no_web = true ->
      forall fetched',
      main loads client key topic model output no_web fetched'
      = main loads client key topic model output no_web fetched).
Proof.
  unfold main. cbv zeta.
  destruct (String.eqb_spec (py_strip topic) "") as [E|N].
  - repeat split; auto; contradiction.
  - repeat split; try contradiction.
    + match goal with |- match ?m with _ => _ end = _ -> _ => destruct m end;
        discriminate.
    + match goal with |- context [match ?m with _ => _ end] => destruct m end; auto.
    + intros _ -> e ->. reflexivity.
    + intros _ K.
      destruct (if no_web then Ok [] else fetched) as [facts|e]; [|reflexivity].
      cbn [bind].
      rewrite (generate_content_no_key loads client key (py_strip topic));
        auto.
      now rewrite py_strip_idempotent.
    + intros _ e S.
      destruct (if no_web then Ok [] else fetched) as [facts|e1]; [|reflexivity].
      cbn [bind].
      destruct (generate_content _ _ _ _ _ _) as [content|e2]; [|reflexivity].
      cbn [bind].
      destruct (create_presentation content) as [slides|e3]; [|reflexivity].
      cbn [bind]. now rewrite S.
    + intros -> fetched'. reflexivity.
Qed.

End MoreMain.

Lemma main_status_example :
  main (lib := example_pptx) json_loads (fun _ => Content "{}") (Some "k")
    "AI" "m" None false (Raise (TransportError "offline")) = 1%Z.
Proof.
  apply (proj1 (proj2 (proj2 (main_status (lib := example_pptx) json_loads
                                (fun _ => Content "{}")
                                (Some "k") "AI" "m" None false
                                (Raise (TransportError "offline")))))
           ltac:(discriminate) eq_refl (TransportError "offline") eq_refl).
Defined.

(** ** presentation_engine.py *)

(** *** [_split_overview] *)

Lemma split_on_nonempty p l : split_on p l <> [].
Proof.
  destruct l as [|c r]; simpl; [discriminate|].
  destruct (split_on p r); [discriminate|]. destruct (p c); discriminate.
Qed.

Lemma split_on_segments p l seg c :
  In seg (split_on p l) -> In c seg -> p c = false.
Proof.
  revert seg. induction l as [|x r IH]; simpl; intros seg.
  - intros [<- | []] [].
  - pose proof (split_on_nonempty p r) as N.
    destruct (split_on p r) as [|s0 segs]; [contradiction|].
    destruct (p x) eqn:E.
    + intros [<- | H] I; [destruct I|]. eapply IH; eauto.
    + intros [<- | H] I.
      * destruct I as [<- | I]; [exact E|]. eapply IH; [left; reflexivity|exact I].
      * eapply IH; [right; exact H|exact I].
Qed.

Lemma lstrip_incl l c : In c (lstrip l) -> In c l.
Proof.
  induction l as [|x r IH]; simpl; [tauto|].
  destruct (is_space x); simpl; tauto.
Qed.

Lemma py_strip_incl s c : In c (chars (py_strip s)) -> In c (chars s).
Proof.
  unfold py_strip. rewrite chars_text. intros H.
  apply in_rev, lstrip_incl, in_rev in H. now apply lstrip_incl.
Qed.

Lemma In_firstn {A : Type} n (l : list A) x : In x (firstn n l) -> In x l.
Proof.
  revert l. induction n as [|n IH]; intros [|y l]; simpl; try tauto.
  intros [H|H]; auto.
Qed.

Lemma text_app a b : text (a ++ b) = (text a ++ text b)%string.
Proof. induction a as [|c a IH]; simpl; [reflexivity|]. now rewrite IH. Qed.

(** A text strips to nothing exactly when it is whitespace only. *)
Lemma lstrip_nil l : lstrip l = [] <-> forallb is_space l = true.
Proof.
  induction l as [|c r IH]; simpl; [tauto|].
  destruct (is_space c); simpl; [exact IH|].
  split; discriminate.
Qed.

Lemma py_strip_empty l : py_strip (text l) = "" <-> forallb is_space l = true.
Proof.
  unfold py_strip. rewrite chars_text, <- lstrip_nil. split.
  - intros H. apply (f_equal chars) in H. rewrite chars_text in H.
    simpl in H. apply (f_equal (@rev ascii)) in H.
    rewrite rev_involutive in H. simpl in H.
    pose proof (lstrip_head l) as Hd.
    destruct (lstrip l) as [|c r] eqn:E; [reflexivity|].
    apply lstrip_nil in H. rewrite forallb_forall in H.
    rewrite (H c) in Hd; [discriminate|].
    apply -> in_rev. now left.
  - now intros ->.
Qed.

(** The segments between the sentence ends are whitespace only exactly
    when the text holds nothing but whitespace and sentence ends. *)
Lemma split_on_blank p l :
  forallb (forallb is_space) (split_on p l)
  = forallb (fun c => is_space c || p c) l.
Proof.
  induction l as [|c r IH]; simpl; [reflexivity|].
  pose proof (split_on_nonempty p r) as N.
  destruct (split_on p r) as [|seg segs]; [contradiction|].
  rewrite <- IH. destruct (p c); simpl.
  - now rewrite orb_true_r.
  - rewrite orb_false_r. now rewrite andb_assoc.
Qed.

Lemma no_sentence segs :
  filter (fun x => negb (String.eqb x ""))
         (map (fun seg => py_strip (text seg)) segs) = []
  <-> forallb (forallb is_space) segs = true.
Proof.
  induction segs as [|seg segs IH]; simpl; [tauto|].
  rewrite andb_true_iff, <- IH, <- py_strip_empty.
  destruct (String.eqb_spec (py_strip (text seg)) "") as [E|N]; simpl.
  - tauto.
  - split; [discriminate|]. intros [E _]. contradiction.
Qed.

(** A segment is a part of the text, and so is what is left of it
    without the whitespace at its ends. *)
Lemma split_on_part p l seg :
  In seg (split_on p l) -> exists a b, l = (a ++ seg ++ b)%list.
Proof.
  assert (H : forall l,
             (exists b, l = (hd [] (split_on p l) ++ b)%list)
             /\ forall seg, In seg (split_on p l) ->
                            exists a b, l = (a ++ seg ++ b)%list).
  { clear. induction l as [|x r [(b0 & Hd) IH]]; simpl.
    - split; [now exists []|]. intros seg [<- | []]. now exists [], [].
    - pose proof (split_on_nonempty p r) as N.
      destruct (split_on p r) as [|s0 segs]; [contradiction|]. simpl in Hd.
      destruct (p x); simpl.
      + split; [now exists (x :: r)|].
        intros seg [<- | I]; [now exists [], (x :: r)|].
        destruct (IH seg I) as (a & b & E). exists (x :: a), b. now rewrite E.
      + split; [exists b0; now rewrite Hd at 1|].
        intros seg [<- | I].
        * exists [], b0. simpl. now rewrite Hd at 1.
        * destruct (IH seg (or_intror I)) as (a & b & E).
          exists (x :: a), b. now rewrite E at 1. }
  apply H.
Qed.

Lemma strip_part l :
  exists a b, l = (a ++ rev (lstrip (rev (lstrip l))) ++ b)%list.
Proof.
  destruct (lstrip_split l) as (ws & E & _).
  destruct (lstrip_split (rev (lstrip l))) as (ws' & E' & _).
  exists ws, (rev ws'). rewrite E at 1. f_equal.
  apply (f_equal (@rev ascii)) in E'.
  now rewrite rev_involutive, rev_app_distr in E'.
Qed.

(** X12.  The lines of the overview slide.  When the text holds nothing
    but whitespace and the characters [.], [?], [!], so that no sentence
    has any text, the function returns the one-item list holding the
    text itself.  Otherwise it returns at most [max_lines] lines, at
    least one when [max_lines] is not zero, each of them a part of the
    text that is not empty, has no whitespace at its ends and holds none
    of the characters [.], [?], [!]. *)
Theorem split_overview_lines s max_lines :
  exists lines,
    _split_overview (JStr s) max_lines = Ok lines
    /\ if forallb (fun c => is_space c || is_sentence_end c) (chars s)
       then lines = [JStr s]
       else length lines <= max_lines
            /\ (1 <= max_lines -> 1 <= length lines)
            /\ Forall (fun v => exists t,
                           v = JStr t /\ t <> "" /\ py_strip t = t
                           /\ (forall c, In c (chars t) ->
                                         is_sentence_end c = false)
                           /\ exists a b, s = (a ++ t ++ b)%string)
                      lines.
Proof.
  unfold _split_overview.
  rewrite <- split_on_blank.
  pose proof (no_sentence (split_on is_sentence_end (chars s))) as Z.
  set (sentences := filter _ _) in *.
  assert (S : Forall (fun t => t <> "" /\ py_strip t = t
                        /\ (forall c, In c (chars t) -> is_sentence_end c = false)
                        /\ exists a b, s = (a ++ t ++ b)%string)
                sentences).
  { apply Forall_forall. intros t H. apply filter_In in H as [H N].
    apply in_map_iff in H as (seg & <- & H). repeat split.
    - now apply negb_true_iff, String.eqb_neq in N.
    - apply py_strip_idempotent.
    - intros c I. apply py_strip_incl in I. rewrite chars_text in I.
      eapply split_on_segments; eauto.
    - destruct (split_on_part _ _ _ H) as (a & b & E).
      destruct (strip_part seg) as (a' & b' & E').
      exists (text (a ++ a')), (text (b' ++ b)).
      unfold py_strip. rewrite chars_text, <- !text_app.
      rewrite <- (text_chars s), E. f_equal.
      rewrite E' at 1. now rewrite <- !app_assoc. }
  destruct sentences as [|t0 rest] eqn:E.
  - eexists. split; [reflexivity|].
    now rewrite (proj1 Z eq_refl).
  - eexists. split; [reflexivity|].
    destruct (forallb (forallb is_space) _);
      [now specialize (proj2 Z eq_refl)|].
    rewrite length_map. repeat split.
    + apply firstn_le_length.
    + intros M. destruct max_lines; [lia|simpl; lia].
    + apply Forall_forall. intros v H. apply in_map_iff in H as (t & <- & H).
      exists t. split; [reflexivity|].
      apply In_firstn in H. rewrite Forall_forall in S. now apply S.
Qed.

Lemma split_overview_lines_example :
  _split_overview (JStr "One. Two? Three! Four.") 3
  = Ok [JStr "One"; JStr "Two"; JStr "Three"]
  /\ _split_overview (JStr " ... ") 3 = Ok [JStr " ... "].
Proof.
  split.
  - destruct (split_overview_lines "One. Two? Three! Four." 3)
      as (lines & E & _). reflexivity.
  - destruct (split_overview_lines " ... " 3) as (lines & E & L).
    rewrite E. simpl in L. now rewrite L.
Defined.

(** A text with no sentence in it is its own single line. *)
Lemma _split_overview_blank :
  _split_overview (JStr "") 3 = Ok [JStr ""]
  /\ _split_overview (JStr " ... ") 3 = Ok [JStr " ... "]
  /\ _split_overview JNull 3 = Raise TypeError.
Proof. repeat split. Qed.

(** *** [_render_chart] *)

(** X13.  What [_render_chart] adds to a slide: one chart, or one
    warning and no chart.  A chart that is drawn has categories and
    values that are not empty and have the same length, whatever the
    chart description was. *)
Theorem render_chart_one_item {lib : pptx} chart_spec :
  (exists ty title categories values n,
      _render_chart chart_spec = [Chart ty title categories values]
      /\ truthy categories = true /\ truthy values = true
      /\ py_len categories = Ok n /\ py_len values = Ok n)
  \/ exists msg, _render_chart chart_spec = [Warn msg].
Proof.
  destruct chart_spec as [| b | x | s | l | d]; try (right; eexists; reflexivity).
  rewrite _render_chart_dict. cbv beta zeta.
  match goal with
  | |- context [match ?c with Ok _ => _ | Raise _ => _ end] =>
      destruct c as [categories|e]; [|right; eauto]
  end.
  destruct (chart_invalid categories _) as [[|]|e] eqn:I; try (right; eauto; fail).
  destruct (add_chart _ _ _ _) as [[]|e]; [|right; eauto].
  left. destruct (chart_invalid_false_truthy _ _ I) as [Tc Tv].
  unfold chart_invalid in I. rewrite Tc, Tv in I. simpl in I.
  destruct (py_len categories) as [lc|] eqn:Lc; [|discriminate].
  simpl in I.
  match type of I with
  | context [py_len ?v] => destruct (py_len v) as [lv|] eqn:Lv; [|discriminate]
  end.
  simpl in I. injection I as I. apply negb_false_iff, Nat.eqb_eq in I. subst lv.
  do 4 eexists. exists lc. repeat split; eauto.
Qed.

(** *** Loops that draw *)

(** The items with their indices, as [enumerate(l, start=i)] gives them. *)
Lemma for_out_ok {A : Type} (f : nat -> A -> out unit)
  (g : nat -> A -> list item) l i :
  (forall j x, In (j, x) (combine (seq i (length l)) l) -> f j x = (g j x, Ok tt)) ->
  for_out f i l
  = (concat (map (fun jx => g (fst jx) (snd jx)) (combine (seq i (length l)) l)),
     Ok tt).
Proof.
  revert i. induction l as [|x r IH]; intros i H; simpl; [reflexivity|].
  unfold obind. rewrite (H i x) by (simpl; auto).
  rewrite IH; [reflexivity|].
  intros j y I. apply H. simpl. auto.
Qed.

Lemma for_out_raises {A : Type} (f : nat -> A -> out unit)
  (g : nat -> A -> list item) l1 x l2 i gx e :
  (forall j y, In (j, y) (combine (seq i (length l1)) l1) -> f j y = (g j y, Ok tt)) ->
  f (i + length l1) x = (gx, Raise e) ->
  for_out f i (l1 ++ x :: l2)
  = (concat (map (fun jx => g (fst jx) (snd jx)) (combine (seq i (length l1)) l1))
     ++ gx, Raise e).
Proof.
  revert i. induction l1 as [|y r IH]; intros i H R; simpl.
  - rewrite Nat.add_0_r in R. unfold obind. now rewrite R.
  - unfold obind. rewrite (H i y) by (simpl; auto).
    rewrite IH; [now rewrite app_assoc| |].
    + intros j z I. apply H. simpl. auto.
    + simpl in R. now rewrite <- Nat.add_succ_comm in R.
Qed.

Lemma combine_seq_bounds {A : Type} (l : list A) i j x :
  In (j, x) (combine (seq i (length l)) l) -> i <= j < i + length l.
Proof.
  intros H. apply in_combine_l in H. apply in_seq in H. lia.
Qed.

(** The cells of one row of a table with [rows] rows and [cols] columns. *)
Lemma row_cells_ok rows cols i vals :
  i < rows -> length vals <= cols ->
  for_out (fun j val => set_cell rows cols i j val) 0 vals
  = (map (fun jx => Cell i (fst jx) (snd jx)) (combine (seq 0 (length vals)) vals),
     Ok tt).
Proof.
  intros I L.
  rewrite (for_out_ok _ (fun j v => [Cell i j v])).
  - f_equal. induction (combine _ _) as [|a r IH]; simpl; congruence.
  - intros j x H. apply combine_seq_bounds in H. unfold set_cell, emit.
    apply Nat.ltb_lt in I. rewrite I.
    assert (J : (j <? cols)%nat = true) by (apply Nat.ltb_lt; lia).
    now rewrite J.
Qed.

Lemma row_cells_overflow rows cols i vals :
  i < rows -> cols < length vals ->
  for_out (fun j val => set_cell rows cols i j val) 0 vals
  = (map (fun jx => Cell i (fst jx) (snd jx))
         (combine (seq 0 cols) (firstn cols vals)),
     Raise IndexError).
Proof.
  intros I L.
  rewrite <- (firstn_skipn cols vals) at 1.
  destruct (skipn cols vals) as [|v rest] eqn:S.
  { apply (f_equal (@length json)) in S. rewrite length_skipn in S.
    simpl in S. lia. }
  assert (F : length (firstn cols vals) = cols)
    by (apply firstn_length_le; lia).
  rewrite (for_out_raises _ (fun j v => [Cell i j v]) _ _ _ _ [] IndexError).
  - rewrite app_nil_r, F. f_equal.
    induction (combine _ _) as [|a r IH]; simpl; congruence.
  - intros j x H. apply combine_seq_bounds in H. unfold set_cell, emit.
    apply Nat.ltb_lt in I. rewrite I.
    assert (J : (j <? cols)%nat = true) by (apply Nat.ltb_lt; lia).
    now rewrite J.
  - rewrite F. unfold set_cell. simpl.
    rewrite Nat.ltb_irrefl, andb_false_r. reflexivity.
Qed.

(** *** [_render_table] *)

Lemma table_rows_ok nrows cols rows i :
  i + length rows <= nrows ->
  Forall (fun row => length row <= cols) rows ->
  for_out (fun i row =>
             vals <~ lift (py_iter row) ;;
             for_out (fun j val => set_cell nrows cols i j val) 0 vals)
          i (map JList rows)
  = (row_cells_from i rows, Ok tt).
Proof.
  revert i. induction rows as [|row rest IH]; intros i B F; [reflexivity|].
  inversion F as [|? ? Hrow Hrest]; subst. simpl in B.
  simpl. unfold obind at 1. simpl.
  rewrite row_cells_ok by (auto; lia).
  rewrite IH by (auto; lia). reflexivity.
Qed.

Lemma table_rows_overflow nrows cols good bad rest i :
  i + length good < nrows ->
  Forall (fun row => length row <= cols) good ->
  cols < length bad ->
  for_out (fun i row =>
             vals <~ lift (py_iter row) ;;
             for_out (fun j val => set_cell nrows cols i j val) 0 vals)
          i (map JList (good ++ bad :: rest))
  = (row_cells_from i good
     ++ map (fun jx => Cell (i + length good) (fst jx) (snd jx))
            (combine (seq 0 cols) (firstn cols bad)),
     Raise IndexError).
Proof.
  revert i. induction good as [|row good IH]; intros i B F L.
  - simpl. unfold obind at 1. simpl.
    rewrite row_cells_overflow by (auto; simpl in B; lia).
    now rewrite Nat.add_0_r.
  - inversion F as [|? ? Hrow Hgood]; subst. simpl in B.
    simpl. unfold obind at 1. simpl.
    rewrite row_cells_ok by (auto; lia).
    rewrite IH by (auto; lia).
    rewrite Nat.add_succ_comm. unfold row_cells_from. simpl.
    now rewrite app_assoc.
Qed.

Lemma header_cells_ok nrows hs :
  for_out (fun j h => set_cell (nrows + 1) (length hs) 0 j h) 0 hs
  = (map (fun jx => Cell 0 (fst jx) (snd jx)) (combine (seq 0 (length hs)) hs),
     Ok tt).
Proof. apply row_cells_ok; lia. Qed.

Lemma obind_lift_ok {A B : Type} (a : A) (f : A -> out B) :
  obind (lift (Ok a)) f = f a.
Proof. unfold obind, lift. now destruct (f a). Qed.

Lemma obind_emit {B : Type} (i : item) (f : unit -> out B) :
  obind (emit i) f = (i :: fst (f tt), snd (f tt)).
Proof. unfold obind, emit. now destruct (f tt). Qed.

Lemma obind_ok {A B : Type} l (a : A) (f : A -> out B) :
  obind (l, Ok a) f = (l ++ fst (f a), snd (f a))%list.
Proof. unfold obind. now destruct (f a). Qed.

Lemma add_table_columns rows (hs : list json) :
  hs <> [] -> add_table rows (length hs) = emit (Table rows (length hs)).
Proof. destruct hs; [contradiction|reflexivity]. Qed.

(** Without a column the table cannot be made: the width of the slide is
    divided by the number of columns, and only the warning is left. *)
Lemma _render_table_no_headers d :
  match dict_get "headers" d with Some v => v | None => JList [] end = JList [] ->
  (exists n,
      py_len match dict_get "rows" d with Some v => v | None => JList [] end
      = Ok n) ->
  _render_table (JDict d) = [Warn "[WARN] Failed to render table:"].
Proof.
  intros H (n & R). unfold _render_table. cbn [py_get]. rewrite H.
  unfold lift, obind. rewrite R. reflexivity.
Qed.

(** X14.  A table whose rows fit.  For a table description with a list
    of headers, not empty, and a list of rows, each row a list with at most as many
    cells as there are headers, the renderer adds a table with one row
    more than the description and one column per header, writes the
    headers in row 0 and every cell of every row in its place, left to
    right and top to bottom, and gives no warning.  A short row leaves
    its last cells untouched. *)
Theorem render_table_rows_fit d hs rows :
  hs <> [] ->
  dict_get "headers" d = Some (JList hs) ->
  dict_get "rows" d = Some (JList (map JList rows)) ->
  Forall (fun row => length row <= length hs) rows ->
  _render_table (JDict d)
  = Table (length rows + 1) (length hs)
    :: map (fun jx => Cell 0 (fst jx) (snd jx)) (combine (seq 0 (length hs)) hs)
    ++ row_cells_from 1 rows.
Proof.
  intros N H R F. unfold _render_table. cbn [py_get]. rewrite H, R.
  repeat (cbn [py_len]; rewrite obind_lift_ok).
  rewrite (add_table_columns _ _ N), length_map, obind_emit. cbn [py_iter].
  rewrite obind_lift_ok, header_cells_ok, obind_ok, obind_lift_ok.
  rewrite table_rows_ok by (auto; lia).
  reflexivity.
Qed.

(** X15.  A row that is too long.  When a row has more cells than there
    are headers, and the rows before it fit, the renderer writes the
    rows before it, then the cells of that row that have a column, and
    stops with a warning: the remaining cells and all the rows after it
    are not written, and no exception leaves the function. *)
Theorem render_table_row_too_long d hs good bad rest :
  hs <> [] ->
  dict_get "headers" d = Some (JList hs) ->
  dict_get "rows" d = Some (JList (map JList (good ++ bad :: rest))) ->
  Forall (fun row => length row <= length hs) good ->
  length hs < length bad ->
  _render_table (JDict d)
  = Table (length (good ++ bad :: rest) + 1) (length hs)
    :: map (fun jx => Cell 0 (fst jx) (snd jx)) (combine (seq 0 (length hs)) hs)
    ++ row_cells_from 1 good
    ++ map (fun jx => Cell (1 + length good) (fst jx) (snd jx))
           (combine (seq 0 (length hs)) (firstn (length hs) bad))
    ++ [Warn "[WARN] Failed to render table:"].
Proof.
  intros N H R F L. unfold _render_table. cbn [py_get]. rewrite H, R.
  repeat (cbn [py_len]; rewrite obind_lift_ok).
  rewrite (add_table_columns _ _ N), length_map, obind_emit. cbn [py_iter].
  rewrite obind_lift_ok, header_cells_ok, obind_ok, obind_lift_ok.
  rewrite table_rows_overflow; auto.
  - cbn [fst snd except_warn]. simpl. now rewrite <- !app_assoc.
  - rewrite length_app. simpl. lia.
Qed.

Lemma render_table_rows_fit_example :
  _render_table
    (JDict [("headers", JList [JStr "Region"; JStr "Sales"]);
            ("rows", JList [JList [JStr "NA"; JStr "1200"]; JList [JStr "EU"]])])
  = [Table 3 2; Cell 0 0 (JStr "Region"); Cell 0 1 (JStr "Sales");
     Cell 1 0 (JStr "NA"); Cell 1 1 (JStr "1200"); Cell 2 0 (JStr "EU")].
Proof.
  apply (render_table_rows_fit
           [("headers", JList [JStr "Region"; JStr "Sales"]);
            ("rows", JList [JList [JStr "NA"; JStr "1200"]; JList [JStr "EU"]])]
           [JStr "Region"; JStr "Sales"]
           [[JStr "NA"; JStr "1200"]; [JStr "EU"]] ltac:(discriminate)
           eq_refl eq_refl).
  repeat constructor.
Defined.

Lemma render_table_row_too_long_example :
  _render_table
    (JDict [("headers", JList [JStr "Region"]);
            ("rows", JList [JList [JStr "NA"; JStr "1200"]; JList [JStr "EU"]])])
  = [Table 3 1; Cell 0 0 (JStr "Region"); Cell 1 0 (JStr "NA");
     Warn "[WARN] Failed to render table:"].
Proof.
  apply (render_table_row_too_long
           [("headers", JList [JStr "Region"]);
            ("rows", JList [JList [JStr "NA"; JStr "1200"]; JList [JStr "EU"]])]
           [JStr "Region"] [] [JStr "NA"; JStr "1200"] [[JStr "EU"]]
           ltac:(discriminate) eq_refl eq_refl); [constructor|simpl; lia].
Defined.

(** *** [_render_topics] *)

Lemma bullets_ok bs i :
  for_out (fun (_ : nat) b => emit (BulletPara b)) i bs = (map BulletPara bs, Ok tt).
Proof.
  revert i. induction bs as [|b r IH]; intros i; cbn [for_out map];
    [reflexivity|].
  now rewrite obind_emit, IH.
Qed.

Lemma py_join_texts sep srcs :
  py_join sep (JList (map JStr srcs)) = Ok (str_join sep srcs).
Proof.
  unfold py_join. simpl.
  assert (E : for_each (fun x => match x with
                                 | JStr s => Ok s
                                 | _ => Raise TypeError
                                 end) (map JStr srcs) = Ok srcs).
  { induction srcs as [|s r IH]; simpl; [reflexivity|]. now rewrite IH. }
  now rewrite E.
Qed.

Lemma render_topic_paragraphs_plain {lib : pptx} count i td subtitle bullets sources :
  match dict_get "subtitle" td with Some v => v | None => JStr "" end
  = JStr subtitle ->
  match dict_get "bullets" td with Some v => v | None => JList [] end
  = JList bullets ->
  match dict_get "sources" td with Some v => v | None => JList [] end
  = JList (map JStr sources) ->
  dict_get "chart" td = None ->
  dict_get "table" td = None ->
  render_topic count i (JDict td)
  = ((if String.eqb subtitle "" then [] else [SubtitlePara (JStr subtitle)])
     ++ map BulletPara bullets
     ++ (match sources with
         | [] => []
         | _ => [SourcesPara ("Sources: " ++ str_join "; " sources)]
         end)
     ++ (if (i <? count - 1)%nat then [BlankPara] else []),
     Ok tt).
Proof.
  intros S B R C T. unfold render_topic. cbn [py_get py_contains py_getitem].
  unfold dict_mem. rewrite S, B, R, C, T.
  rewrite !obind_lift_ok. cbn [truthy py_iter].
  assert (P1 : (if negb (String.eqb subtitle "")
                then set_subtitle (JStr subtitle) else ret tt)
               = ((if String.eqb subtitle "" then []
                   else [SubtitlePara (JStr subtitle)]), Ok tt))
    by now destruct (String.eqb subtitle "").
  rewrite P1, obind_ok, obind_lift_ok, bullets_ok, obind_ok.
  assert (P2 : (if match map JStr sources with [] => false | _ => true end
                then src <~ lift (py_join "; " (JList (map JStr sources))) ;;
                     emit (SourcesPara ("Sources: " ++ src))
                else ret tt)
               = (match sources with
                  | [] => []
                  | _ => [SourcesPara ("Sources: " ++ str_join "; " sources)]
                  end, Ok tt)).
  { destruct sources as [|s r]; [reflexivity|].
    rewrite py_join_texts. cbn [map]. now rewrite obind_lift_ok. }
  rewrite P2, obind_ok.
  unfold ret at 1 2. rewrite !obind_ok. cbn [fst snd app].
  now destruct (i <? count - 1)%nat.
Qed.

(** X16.  The paragraphs of a topic, in order.  For a topic with a text
    subtitle, a list of bullets and a list of text sources, and with
    neither chart nor table: the subtitle when it is not empty, then one
    bullet per item, then one line [Sources: a; b; c] when there is a
    source, then an empty paragraph unless the topic is the last of its
    slide. *)
Theorem render_topic_paragraphs {lib : pptx} count i td subtitle bullets sources :
  match dict_get "subtitle" td with Some v => v | None => JStr "" end
  = JStr subtitle ->
  match dict_get "bullets" td with Some v => v | None => JList [] end
  = JList bullets ->
  match dict_get "sources" td with Some v => v | None => JList [] end
  = JList (map JStr sources) ->
  dict_get "chart" td = None ->
  dict_get "table" td = None ->
  render_topic count i (JDict td)
  = ((if String.eqb subtitle "" then [] else [SubtitlePara (JStr subtitle)])
     ++ map BulletPara bullets
     ++ (match sources with
         | [] => []
         | _ => [SourcesPara ("Sources: " ++ str_join "; " sources)]
         end)
     ++ (if (i <? count - 1)%nat then [BlankPara] else []),
     Ok tt).
Proof. apply render_topic_paragraphs_plain. Qed.

Lemma render_topic_paragraphs_example :
  render_topic (lib := example_pptx) 1 0
    (JDict [("subtitle", JStr "X"); ("bullets", JList [JStr "b1"; JStr "b2"]);
            ("sources", JList [JStr "s1"])])
  = ([SubtitlePara (JStr "X"); BulletPara (JStr "b1"); BulletPara (JStr "b2");
      SourcesPara "Sources: s1"], Ok tt).
Proof.
  exact (render_topic_paragraphs (lib := example_pptx) 1 0
           [("subtitle", JStr "X"); ("bullets", JList [JStr "b1"; JStr "b2"]);
            ("sources", JList [JStr "s1"])]
           "X" [JStr "b1"; JStr "b2"] ["s1"]
           eq_refl eq_refl eq_refl eq_refl eq_refl).
Defined.

Lemma for_each_some_raise {A B : Type} (f : A -> res B) l x e :
  In x l -> f x = Raise e -> exists e', for_each f l = Raise e'.
Proof.
  intros I R. induction l as [|y r IH]; [destruct I|]. simpl.
  destruct (f y) as [b|e1] eqn:Fy; simpl; [|eauto].
  destruct I as [-> | I]; [congruence|].
  destruct (IH I) as (e' & ->). simpl. eauto.
Qed.

Lemma for_out_some_raise {A : Type} (f : nat -> A -> out unit) l x :
  In x l -> (forall j, exists e, snd (f j x) = Raise e) ->
  forall i, exists e, snd (for_out f i l) = Raise e.
Proof.
  intros I R. induction l as [|y r IH]; [destruct I|]. intros i. simpl.
  unfold obind. destruct (f i y) as [items [[]|e1]] eqn:Fy; simpl; [|eauto].
  destruct I as [-> | I].
  - destruct (R i) as (e & Re). rewrite Fy in Re. discriminate.
  - destruct (IH I (S i)) as (e & Re).
    destruct (for_out f (S i) r) as [items' r']. simpl in *. eauto.
Qed.

Lemma py_join_raises sep srcs v :
  In v srcs -> is_str v = false -> py_join sep (JList srcs) = Raise TypeError.
Proof.
  intros I N. unfold py_join. simpl.
  assert (E : for_each (fun x => match x with
                                 | JStr s => Ok s
                                 | _ => Raise TypeError
                                 end) srcs = Raise TypeError).
  { induction srcs as [|y r IH]; [destruct I|]. simpl.
    destruct I as [-> | I].
    - destruct v; try reflexivity; discriminate.
    - destruct y; try reflexivity. now rewrite IH. }
  now rewrite E.
Qed.

(** A topic with a source that is not a text stops the rendering. *)
Lemma render_topic_bad_source {lib : pptx} count i td srcs v :
  dict_get "sources" td = Some (JList srcs) ->
  In v srcs -> is_str v = false ->
  exists e, snd (render_topic count i (JDict td)) = Raise e.
Proof.
  intros S I N. unfold render_topic. cbn [py_get]. rewrite S.
  rewrite !obind_lift_ok.
  match goal with
  | |- context [obind ?m _] => destruct m as [items1 [[]|e1]] eqn:M1
  end.
  2: { simpl. eauto. }
  rewrite obind_ok. cbn [snd].
  destruct (py_iter _) as [bs|e2]; [|simpl; eauto].
  rewrite obind_lift_ok, bullets_ok, obind_ok. cbn [snd].
  assert (T : truthy (JList srcs) = true) by (destruct srcs; [destruct I|reflexivity]).
  rewrite T, (py_join_raises _ _ _ I N). simpl. eauto.
Qed.

(** X17.  A source that is not a text stops the deck.  When a topic of
    a slide has a list of sources in which some item is not a text, a
    number say, [create_presentation] raises and makes no deck, whatever
    the rest of the document is. *)
Theorem create_presentation_bad_source {lib : pptx} d slides sd topics td srcs v :
  dict_get "slides" d = Some (JList slides) ->
  In (JDict sd) slides ->
  dict_get "topics" sd = Some (JList topics) ->
  In (JDict td) topics ->
  dict_get "sources" td = Some (JList srcs) ->
  In v srcs -> is_str v = false ->
  exists e, create_presentation (JDict d) = Raise e.
Proof.
  intros S Is T It Sr Iv N.
  assert (C : exists e, content_slide (JDict sd) = Raise e).
  { unfold content_slide. cbn [py_get bind]. rewrite T. unfold add_slide.
    destruct (for_out_some_raise (render_topic (length topics)) topics (JDict td) It
                (fun j => render_topic_bad_source _ j td srcs v Sr Iv N) 0)
      as (e & Re).
    unfold _render_topics. destruct (for_out _ 0 topics) as [body r].
    simpl in Re. subst r. eauto. }
  destruct C as (e & C).
  destruct (for_each_some_raise content_slide slides _ e Is C) as (e' & F).
  unfold create_presentation, front_slides. cbn [py_get bind]. rewrite S.
  destruct (_split_overview _ 3) as [lines|e1]; [|simpl; eauto]. cbn [bind].
  destruct (add_slide _ _) as [s1|e2]; [|simpl; eauto]. cbn [bind py_iter].
  rewrite F. simpl. eauto.
Qed.

Lemma create_presentation_bad_source_example :
  exists e,
    create_presentation (lib := example_pptx)
      (JDict [("slides",
               JList [JDict [("topics",
                              JList [JDict [("sources", JList [JNum (PInt 1)])]])]])])
    = Raise e.
Proof.
  apply (create_presentation_bad_source (lib := example_pptx)
           [("slides",
             JList [JDict [("topics",
                            JList [JDict [("sources", JList [JNum (PInt 1)])]])]])]
           [JDict [("topics", JList [JDict [("sources", JList [JNum (PInt 1)])]])]]
           [("topics", JList [JDict [("sources", JList [JNum (PInt 1)])]])]
           [JDict [("sources", JList [JNum (PInt 1)])]]
           [("sources", JList [JNum (PInt 1)])]
           [JNum (PInt 1)] (JNum (PInt 1)));
    simpl; auto.
Defined.

(** *** The fallback document as a deck *)

Lemma bullets_topic_slide {lib : pptx} title lines :
  add_slide title [bullets_topic lines]
  = Ok {| sl_title := title; sl_body := map BulletPara lines |}.
Proof.
  unfold add_slide, _render_topics, bullets_topic. cbn [for_out length].
  rewrite (render_topic_paragraphs_plain 1 0 _ "" lines []); try reflexivity.
  rewrite obind_ok. cbn. now rewrite !app_nil_r.
Qed.

Lemma _split_overview_text s n : exists lines, _split_overview (JStr s) n = Ok lines.
Proof. unfold _split_overview. eauto. Qed.

(** X18.  The fallback document always gives a deck.  Whatever text the
    repair could not decode, the document it returns is rendered without
    an exception as two slides: the title slide [Parsing Failed] and the
    slide [Overview] with the lines of the kept text; there is no
    content slide and no conclusion slide. *)
Theorem create_presentation_parsing_failed {lib : pptx} overview :
  exists lines,
    _split_overview (JStr overview) 3 = Ok lines
    /\ create_presentation (parsing_failed overview)
       = Ok [{| sl_title := JStr "Parsing Failed"; sl_body := [] |};
             {| sl_title := JStr "Overview"; sl_body := map BulletPara lines |}].
Proof.
  destruct (_split_overview_text overview 3) as (lines & E).
  exists lines. split; [exact E|].
  unfold create_presentation, front_slides, parsing_failed.
  cbn [py_get dict_get String.eqb Ascii.eqb Bool.eqb bind].
  rewrite E. cbn [bind]. rewrite bullets_topic_slide. reflexivity.
Qed.

(** ** From the polish answer to the deck *)

Section MoreDeck.

Context {lib : pptx}.
Variable loads : string -> res json.
Variable client : request -> llm_response.

(** X19.  A polish answer that is JSON but not an object.  Take an
    answer that, without the whitespace around it, is not empty and
    holds no opening brace with a closing brace after it, so that
    nothing is cut out of it.  When the decoder reads it as a value that
    is neither a dict nor a string starting with an opening brace (a
    list, a number, a boolean, [null], another string), the polish stage
    returns that value as it is and [create_presentation] raises
    [AttributeError]: no deck is made. *)
Theorem deck_after_draft_not_an_object draft model facts s v :
  client (PolishRequest model draft facts) = Content s ->
  py_strip s <> "" ->
  re_search_braces (py_strip s) = None ->
  loads (py_strip s) = Ok v ->
  is_dict v = false ->
  (forall p, v = JStr p -> startswith "{" (py_strip p) = false) ->
  _polish_content loads client draft model facts = Ok v
  /\ deck_after_draft loads client draft model facts = Raise AttributeError.
Proof.
  intros C N B L D S. apply String.eqb_neq in N.
  assert (P : _polish_content loads client draft model facts = Ok v).
  { unfold _polish_content. rewrite C. cbv zeta. rewrite B.
    unfold safe_json_parse. cbn [truthy]. rewrite N, L. cbn [negb bind try_except].
    destruct v as [| b | n | p | l | d]; try discriminate; try reflexivity.
    now rewrite (S p eq_refl). }
  split; [exact P|]. unfold deck_after_draft. rewrite P. cbn [bind].
  destruct v as [| b | n | p | l | d]; try discriminate; reflexivity.
Qed.

End MoreDeck.

(** The list [[1, 2]] stops the deck.  A list that holds an object is
    another matter: the span from the first opening brace to the last
    closing brace is cut out of the answer before it is decoded, and the
    object is the document. *)
Lemma deck_after_draft_not_an_object_example :
  deck_after_draft (lib := example_pptx) json_loads
    (fun _ => Content "[1, 2]") JNull "m" None
  = Raise AttributeError
  /\ _polish_content json_loads
       (fun _ => Content (json_text "[{'title': 'T'}]")) JNull "m" None
     = Ok (JDict [("title", JStr "T")]).
Proof.
  split.
  - apply (proj2 (deck_after_draft_not_an_object (lib := example_pptx)
                    json_loads (fun _ => Content "[1, 2]") JNull "m" None
                    "[1, 2]" (JList [JNum (PInt 1); JNum (PInt 2)])
                    eq_refl ltac:(discriminate) eq_refl eq_refl eq_refl
                    ltac:(discriminate))).
  - reflexivity.
Defined.

(** ** The chart block behind the [return] *)

(** X20.  What the unreachable chart block computes.  For a chart with
    a non-empty list of categories and a non-empty list of values, the
    block leaves in the chart the first [n] categories and the first [n]
    values, [n] being the shorter of the two lengths, and the chart it
    leaves is not skipped by [_render_chart]: the library is asked for
    it, with those lists and the title and type of the chart.  The
    chart is on the slide when the library builds it; when the library
    raises, the code prints its warning. *)
Theorem auto_fix_chart_then_render {lib : pptx} d c cs v vs :
  dict_get "categories" d = Some (JList (c :: cs)) ->
  dict_get "values" d = Some (JList (v :: vs)) ->
  let n := Nat.min (length (c :: cs)) (length (v :: vs)) in
  let categories := JList (firstn n (c :: cs)) in
  let values := JList (firstn n (v :: vs)) in
  let ty := if eq_str "bar" match dict_get "type" d with
                            | Some ty => ty
                            | None => JNull
                            end
            then COLUMN_CLUSTERED else LINE in
  let title := match dict_get "title" d with
               | Some title => title
               | None => JStr "Series"
               end in
  exists d',
    auto_fix_chart (JDict d) = Ok (JDict d')
    /\ dict_get "categories" d' = Some categories
    /\ dict_get "values" d' = Some values
    /\ _render_chart (JDict d')
       = match add_chart ty title categories values with
         | Ok _ => [Chart ty title categories values]
         | Raise _ => [Warn "[WARN] Failed to render chart:"]
         end.
Proof.
  intros C V n categories values ty title.
  assert (R : forall d',
             dict_get "categories" d' = Some categories ->
             dict_get "values" d' = Some values ->
             dict_get "type" d' = dict_get "type" d ->
             dict_get "title" d' = dict_get "title" d ->
             _render_chart (JDict d')
             = match add_chart ty title categories values with
               | Ok _ => [Chart ty title categories values]
               | Raise _ => [Warn "[WARN] Failed to render chart:"]
               end).
  { intros d' C' V' Ty Ti. rewrite _render_chart_dict. cbv beta zeta.
    rewrite C', V', Ty, Ti.
    assert (Lc : length (firstn n (c :: cs)) = n)
      by (apply firstn_length_le, Nat.le_min_l).
    assert (Lv : length (firstn n (v :: vs)) = n)
      by (apply firstn_length_le, Nat.le_min_r).
    assert (T : truthy categories = true) by reflexivity.
    assert (Tv : truthy values = true) by reflexivity.
    assert (I : chart_invalid categories values = Ok false).
    { unfold chart_invalid. rewrite T, Tv. cbn [negb py_len bind].
      unfold categories, values. cbn [py_len bind].
      now rewrite Lc, Lv, Nat.eqb_refl. }
    rewrite T, andb_false_r, I. reflexivity. }
  unfold auto_fix_chart. cbn [py_get bind]. rewrite C, V.
  cbn [truthy andb negb bind py_len].
  destruct (Nat.eqb (length (c :: cs)) (length (v :: vs))) eqn:E; cbn [negb bind].
  - apply Nat.eqb_eq in E.
    assert (N1 : firstn n (c :: cs) = c :: cs)
      by (apply firstn_all2; subst n; lia).
    assert (N2 : firstn n (v :: vs) = v :: vs)
      by (apply firstn_all2; subst n; lia).
    exists d. unfold categories, values in *. rewrite N1, N2 in *. auto.
  - cbn [py_slice py_setitem bind]. eexists. split; [reflexivity|].
    assert (G1 : dict_get "categories"
                   (dict_set "values" (JList (firstn n (v :: vs)))
                      (dict_set "categories" (JList (firstn n (c :: cs))) d))
                 = Some categories).
    { rewrite dict_get_set_other by discriminate. apply dict_get_set_same. }
    split; [exact G1|]. split; [apply dict_get_set_same|].
    apply R; [exact G1|apply dict_get_set_same| |];
      now rewrite !dict_get_set_other by discriminate.
Qed.

(** The chart of the specification: four categories and two values. *)
Lemma auto_fix_chart_then_render_example :
  exists d',
    auto_fix_chart
      (JDict [("categories", JList [JStr "a"; JStr "b"; JStr "c"; JStr "d"]);
              ("values", JList [JNum (PInt 1); JNum (PInt 2)])])
    = Ok (JDict d')
    /\ dict_get "categories" d' = Some (JList [JStr "a"; JStr "b"])
    /\ _render_chart (lib := example_pptx) (JDict d')
       = [Chart LINE (JStr "Series") (JList [JStr "a"; JStr "b"])
            (JList [JNum (PInt 1); JNum (PInt 2)])].
Proof.
  destruct (auto_fix_chart_then_render (lib := example_pptx)
              [("categories", JList [JStr "a"; JStr "b"; JStr "c"; JStr "d"]);
               ("values", JList [JNum (PInt 1); JNum (PInt 2)])]
              (JStr "a") [JStr "b"; JStr "c"; JStr "d"]
              (JNum (PInt 1)) [JNum (PInt 2)] eq_refl eq_refl)
    as (d' & A & C & _ & R).
  exists d'. auto.
Defined.

(** ** File names *)

Lemma str_lower_app a b : str_lower (a ++ b) = (str_lower a ++ str_lower b)%string.
Proof. unfold str_lower. now rewrite chars_app, map_app, text_app. Qed.

Lemma is_prefix_app p q : is_prefix p (p ++ q) = true.
Proof.
  induction p as [|c p IH]; simpl; [reflexivity|].
  now rewrite Ascii.eqb_refl, IH.
Qed.

Lemma endswith_app a suffix : endswith suffix (a ++ suffix) = true.
Proof. unfold endswith. rewrite chars_app, rev_app_distr. apply is_prefix_app. Qed.

Lemma endswith_app_r a b suffix :
  endswith suffix b = true -> endswith suffix (a ++ b) = true.
Proof.
  unfold endswith. rewrite chars_app, rev_app_distr.
  generalize (rev (chars suffix)) (rev (chars b)) (rev (chars a)).
  induction l as [|c p IH]; intros [|x l0] l1; simpl; try reflexivity;
    try discriminate.
  intros H. apply andb_true_iff in H as [-> H]. simpl. now apply IH.
Qed.

Lemma prefix_app a b : String.prefix a (a ++ b) = true.
Proof.
  induction a as [|c a IH]; simpl; [now destruct b|].
  destruct (Ascii.ascii_dec c c); [exact IH|congruence].
Qed.

Lemma prefix_refl a : String.prefix a a = true.
Proof.
  induction a as [|c a IH]; simpl; [reflexivity|].
  destruct (Ascii.ascii_dec c c); [exact IH|congruence].
Qed.

Lemma save_name_extension_all output_filename :
  endswith ".pptx" (str_lower (save_name output_filename)) = true
  /\ (save_name output_filename = output_filename
      \/ save_name output_filename = (output_filename ++ ".pptx")%string)
  /\ (endswith ".pptx" (str_lower output_filename) = true ->
      save_name output_filename = output_filename)
  /\ String.prefix output_filename (save_name output_filename) = true
  /\ save_name (save_name output_filename) = save_name output_filename.
Proof.
  assert (A : endswith ".pptx" (str_lower (save_name output_filename)) = true).
  { unfold save_name.
    destruct (endswith ".pptx" (str_lower output_filename)) eqn:E; simpl; [exact E|].
    rewrite str_lower_app. apply endswith_app. }
  split; [exact A|]. split; [|split; [|split]].
  - unfold save_name.
    destruct (endswith ".pptx" (str_lower output_filename)); auto.
  - unfold save_name. intros ->. reflexivity.
  - unfold save_name.
    destruct (endswith ".pptx" (str_lower output_filename)); simpl;
      [apply prefix_refl|apply prefix_app].
  - unfold save_name at 1. rewrite A. reflexivity.
Qed.

(** X21.  The name the deck is saved under.  It ends with [.pptx] in
    any mix of upper and lower case; it is the given name when that
    already does, and the given name followed by [.pptx] otherwise;
    applying the rule to its result changes nothing. *)
Theorem save_name_extension output_filename :
  endswith ".pptx" (str_lower (save_name output_filename)) = true
  /\ (save_name output_filename = output_filename
      \/ save_name output_filename = (output_filename ++ ".pptx")%string)
  /\ (endswith ".pptx" (str_lower output_filename) = true ->
      save_name output_filename = output_filename)
  /\ String.prefix output_filename (save_name output_filename) = true
  /\ save_name (save_name output_filename) = save_name output_filename.
Proof. apply save_name_extension_all. Qed.

Lemma save_name_extension_example : save_name "Deck.PPTX" = "Deck.PPTX".
Proof.
  apply (proj1 (proj2 (proj2 (save_name_extension "Deck.PPTX")))).
  reflexivity.
Defined.

Lemma char_lower_idempotent c : char_lower (char_lower c) = char_lower c.
Proof. destruct c as [[] [] [] [] [] [] [] []]; reflexivity. Qed.

(** X22.  The default file name.  Without [--output] (or with an empty
    one) the deck of a topic is saved under the topic in lower case,
    with every space replaced by an underscore, followed by
    [_presentation.pptx]; no second [.pptx] is added, and the name holds
    no space and no upper-case letter. *)
Theorem default_output_name topic :
  save_name (main_output topic None) = default_output topic
  /\ save_name (main_output topic (Some "")) = default_output topic
  /\ default_output topic
     = (str_replace_char " " "_" (str_lower topic) ++ "_presentation.pptx")%string
  /\ ~ In " "%char (chars (default_output topic))
  /\ str_lower (default_output topic) = default_output topic.
Proof.
  assert (L : str_lower (default_output topic) = default_output topic).
  { unfold default_output. rewrite str_lower_app. f_equal.
    unfold str_lower, str_replace_char. rewrite !chars_text. f_equal.
    rewrite !map_map. apply map_ext. intros c.
    destruct (Ascii.eqb (char_lower c) " "); [reflexivity|].
    apply char_lower_idempotent. }
  assert (S : save_name (default_output topic) = default_output topic).
  { apply (proj1 (proj2 (proj2 (save_name_extension_all (default_output topic))))).
    rewrite L. unfold default_output.
    apply (endswith_app_r _ "_presentation.pptx"). reflexivity. }
  repeat split; auto.
  unfold default_output. rewrite chars_app. intros I.
  apply in_app_or in I as [I|I].
  - unfold str_replace_char, str_lower in I. rewrite !chars_text in I.
    apply in_map_iff in I. destruct I as (c & E & _).
    destruct (Ascii.eqb c " ") eqn:Q; [discriminate E|].
    apply Ascii.eqb_neq in Q. congruence.
  - simpl in I. intuition discriminate.
Qed.

(** ** When the deck is made *)

Lemma snd_obind {A B : Type} (m : out A) (f : A -> out B) :
  snd (obind m f)
  = match snd m with
    | Ok a => snd (f a)
    | Raise e => Raise e
    end.
Proof. destruct m as [l [a|e]]; simpl; [|reflexivity]. now destruct (f a). Qed.

Lemma snd_for_out {A : Type} (f : nat -> A -> out unit) (ok : A -> bool) l i :
  (forall j x, In x l -> (exists u, snd (f j x) = Ok u) <-> ok x = true) ->
  (exists u, snd (for_out f i l) = Ok u) <-> forallb ok l = true.
Proof.
  intros H. revert i. induction l as [|x r IH]; intros i; simpl.
  - split; eauto.
  - rewrite snd_obind, andb_true_iff, <- (IH (fun j y I => H j y (or_intror I)) (S i)),
      <- (H i x (or_introl eq_refl)).
    destruct (snd (f i x)) as [[]|e]; split.
    + intros K. split; eauto.
    + tauto.
    + intros (u & K). discriminate.
    + intros ((u & K) & _). discriminate.
Qed.

Lemma py_join_ok sep v : (exists s, py_join sep v = Ok s) <-> joins v = true.
Proof.
  unfold py_join, joins. destruct (py_iter v) as [items|e]; simpl.
  - induction items as [|x r IH]; simpl; [split; eauto|].
    destruct x; simpl; try (split; [intros (s & K); discriminate|discriminate]).
    rewrite <- IH. clear IH.
    destruct (for_each _ r) as [parts|e]; simpl; split; eauto;
      intros (s0 & K); discriminate.
  - split; [intros (s & K); discriminate|discriminate].
Qed.

Lemma render_topic_ok {lib : pptx} count i t :
  topic_subtitle_text t = true ->
  (exists u, snd (render_topic count i t) = Ok u) <-> topic_renders t = true.
Proof.
  unfold render_topic, topic_renders, topic_subtitle_text.
  destruct t as [| b | n | x | l | td];
    try (simpl; split; [intros (u & K); discriminate|discriminate]).
  intros Sub.
  cbn [py_get py_contains py_getitem]. rewrite !obind_lift_ok.
  rewrite snd_obind.
  assert (E1 : forall v, is_str v = true ->
                         snd (if truthy v then set_subtitle v else ret tt) = Ok tt).
  { intros v Sv. unfold set_subtitle. rewrite Sv. now destruct (truthy v). }
  rewrite E1 by (destruct (dict_get "subtitle" td); [exact Sub|reflexivity]).
  rewrite snd_obind.
  generalize (match dict_get "bullets" td with Some v => v | None => JList [] end).
  generalize (match dict_get "sources" td with Some v => v | None => JList [] end).
  intros sources bullets.
  destruct (py_iter bullets) as [bs|e]; cbn [lift snd andb];
    [|split; [intros (u & K); discriminate|discriminate]].
  rewrite snd_obind, bullets_ok. cbn [snd]. rewrite snd_obind.
  assert (Rest :
            snd (_ <~ (if dict_mem "chart" td
                       then chart <~ lift match dict_get "chart" td with
                                          | Some x => Ok x
                                          | None => Raise KeyError
                                          end ;;
                            (_render_chart chart, Ok tt)
                       else ret tt) ;;
                 _ <~ (if dict_mem "table" td
                       then table <~ lift match dict_get "table" td with
                                          | Some x => Ok x
                                          | None => Raise KeyError
                                          end ;;
                            (_render_table table, Ok tt)
                       else ret tt) ;;
                 (if (i <? count - 1)%nat then emit BlankPara else ret tt))
            = Ok tt).
  { unfold dict_mem. rewrite snd_obind.
    destruct (dict_get "chart" td); rewrite ?obind_lift_ok; cbn [snd ret];
      rewrite snd_obind;
      destruct (dict_get "table" td); rewrite ?obind_lift_ok; cbn [snd ret];
      now destruct (i <? count - 1)%nat. }
  rewrite Rest. clear Rest.
  destruct (truthy sources); cbn [negb orb].
  - rewrite snd_obind. rewrite <- py_join_ok with (sep := "; ").
    destruct (py_join "; " sources) as [src|e]; cbn [lift snd emit].
    + split; eauto.
    + split; intros (u & K); discriminate.
  - cbn [ret snd]. split; eauto.
Qed.

Lemma add_slide_ok {lib : pptx} title topics :
  forallb topic_subtitle_text topics = true ->
  (exists sl, add_slide title topics = Ok sl) <-> forallb topic_renders topics = true.
Proof.
  intros Sub. unfold add_slide, _render_topics.
  rewrite <- (snd_for_out (render_topic (length topics)) topic_renders topics 0)
    by (intros j x I; apply render_topic_ok;
        exact (proj1 (forallb_forall _ _) Sub x I)).
  destruct (for_out _ 0 topics) as [body [[]|e]]; simpl; split; eauto;
    intros (u & K); discriminate.
Qed.

Lemma content_slide_ok {lib : pptx} s :
  slide_subtitles_text s = true ->
  (exists sl, content_slide s = Ok sl) <-> slide_renders s = true.
Proof.
  unfold content_slide, slide_renders, slide_subtitles_text.
  destruct s as [| b | n | x | l | sd];
    try (simpl; split; [intros (u & K); discriminate|discriminate]).
  intros Sub. cbn [py_get bind].
  destruct (dict_get "topics" sd) as [[| b | n | x | l | d']|];
    now rewrite add_slide_ok.
Qed.

Lemma content_slides_ok {lib : pptx} items :
  forallb slide_subtitles_text items = true ->
  (exists cs, for_each content_slide items = Ok cs)
  <-> forallb slide_renders items = true.
Proof.
  intros Sub. rewrite for_each_ok_iff, forallb_forall, Forall_forall.
  split; intros K x I;
    apply (content_slide_ok x (proj1 (forallb_forall _ _) Sub x I)), K, I.
Qed.

Lemma conclusion_slide_ok {lib : pptx} d : exists last, conclusion_slide (JDict d) = Ok last.
Proof.
  unfold conclusion_slide. cbn [py_get py_getitem bind].
  destruct (dict_get "conclusion" d) as [c|]; cbn [truthy]; [|eauto].
  destruct (truthy c); [|eauto]. cbn [bind].
  rewrite bullets_topic_slide. simpl. eauto.
Qed.

Lemma create_presentation_ok_iff {lib : pptx} content :
  deck_subtitles_text content = true ->
  (exists slides, create_presentation content = Ok slides)
  <-> deck_renders content = true.
Proof.
  unfold create_presentation, front_slides, deck_renders, deck_subtitles_text.
  destruct content as [| b | n | x | l | d];
    try (simpl; split; [intros (u & K); discriminate|discriminate]).
  intros Sub. cbn [py_get bind].
  destruct (conclusion_slide_ok d) as (last & C). rewrite C.
  destruct (dict_get "overview" d) as [ov|].
  - destruct ov as [| b | n | ov | l | d'];
      try (simpl; split; [intros (u & K); discriminate|discriminate]).
    destruct (_split_overview_text ov 3) as (lines & E). rewrite E. cbn [bind is_str andb].
    rewrite bullets_topic_slide. cbn [bind].
    destruct (py_iter _) as [items|e]; cbn [bind];
      [|split; [intros (u & K); discriminate|discriminate]].
    rewrite <- (content_slides_ok items Sub).
    destruct (for_each content_slide items) as [cs|e]; simpl; split; eauto;
      intros (u & K); discriminate.
  - destruct (_split_overview_text "" 3) as (lines & E). rewrite E. cbn [bind andb].
    rewrite bullets_topic_slide. cbn [bind].
    destruct (py_iter _) as [items|e]; cbn [bind];
      [|split; [intros (u & K); discriminate|discriminate]].
    rewrite <- (content_slides_ok items Sub).
    destruct (for_each content_slide items) as [cs|e]; simpl; split; eauto;
      intros (u & K); discriminate.
Qed.

(** X23.  When the deck is made.  Take a document in which every
    subtitle is a text.  [create_presentation] returns a deck, instead
    of raising, exactly when the document is a dict whose overview is
    absent or a text, whose [slides] is absent or can be iterated, each
    item a dict whose topics (the items of the list [topics], or the one
    value [topics] when it is not a list) are dicts with bullets that
    are absent or can be iterated and with sources that are absent,
    empty, or a text, a dict or a list of texts.  Titles, the
    conclusion, charts and tables never stop it. *)
Theorem create_presentation_accepts {lib : pptx} content :
  deck_subtitles_text content = true ->
  ((exists slides, create_presentation content = Ok slides)
   <-> deck_renders content = true).
Proof. apply create_presentation_ok_iff. Qed.

Lemma create_presentation_accepts_example :
  exists slides,
    create_presentation (lib := example_pptx)
      (JDict [("title", JNum (PInt 7));
              ("slides",
               JList [JDict [("topics",
                              JDict [("chart", JStr "none"); ("table", JNull)])]]);
              ("conclusion", JList [JNull])])
    = Ok slides.
Proof.
  apply (proj2 (create_presentation_accepts (lib := example_pptx)
                  (JDict [("title", JNum (PInt 7));
                          ("slides",
                           JList [JDict [("topics",
                                          JDict [("chart", JStr "none");
                                                 ("table", JNull)])]]);
                          ("conclusion", JList [JNull])])
                  eq_refl)).
  reflexivity.
Defined.

(** ** The sources pass and the renderer together *)

(** X24.  The sources line of a topic that had no sources.  A topic
    with a text subtitle, a list of bullets, no chart, no table and no
    [sources] goes through the sources pass and is then rendered with
    the line [Sources: ] followed by the first two facts joined by
    [; ], or by [General industry reports] when there is no fact. *)
Theorem backfilled_topic_paragraphs {lib : pptx} facts count i td subtitle bullets :
  match dict_get "subtitle" td with Some v => v | None => JStr "" end
  = JStr subtitle ->
  match dict_get "bullets" td with Some v => v | None => JList [] end
  = JList bullets ->
  dict_get "sources" td = None ->
  dict_get "chart" td = None ->
  dict_get "table" td = None ->
  exists t',
    ensure_topic_sources facts (JDict td) = Ok t'
    /\ render_topic count i t'
       = ((if String.eqb subtitle "" then [] else [SubtitlePara (JStr subtitle)])
          ++ map BulletPara bullets
          ++ [SourcesPara
                ("Sources: "
                 ++ str_join "; "
                      match facts with
                      | Some (f :: fs) => firstn 2 (f :: fs)
                      | _ => ["General industry reports"]
                      end)]
          ++ (if (i <? count - 1)%nat then [BlankPara] else []),
          Ok tt).
Proof.
  intros S B N C T.
  set (texts := match facts with
                | Some (f :: fs) => firstn 2 (f :: fs)
                | _ => ["General industry reports"]
                end).
  assert (F : backfill facts = JList (map JStr texts)).
  { subst texts. destruct facts as [[|f fs]|]; reflexivity. }
  assert (NE : texts <> []).
  { subst texts. destruct facts as [[|f fs]|]; discriminate. }
  eexists. split.
  - rewrite ensure_topic_sources_dict. unfold has_sources_list. rewrite N.
    reflexivity.
  - rewrite (render_topic_paragraphs_plain count i _ subtitle bullets texts).
    + destruct texts; [congruence|reflexivity].
    + now rewrite dict_get_set_other by discriminate.
    + now rewrite dict_get_set_other by discriminate.
    + now rewrite dict_get_set_same, F.
    + now rewrite dict_get_set_other by discriminate.
    + now rewrite dict_get_set_other by discriminate.
Qed.

Lemma backfilled_topic_paragraphs_example :
  exists t',
    ensure_topic_sources (Some ["F1"; "F2"; "F3"])
      (JDict [("subtitle", JStr "X"); ("bullets", JList [JStr "b"])]) = Ok t'
    /\ render_topic (lib := example_pptx) 1 0 t'
       = ([SubtitlePara (JStr "X"); BulletPara (JStr "b");
           SourcesPara "Sources: F1; F2"], Ok tt).
Proof.
  exact (backfilled_topic_paragraphs (lib := example_pptx) (Some ["F1"; "F2"; "F3"]) 1 0
           [("subtitle", JStr "X"); ("bullets", JList [JStr "b"])]
           "X" [JStr "b"] eq_refl eq_refl eq_refl eq_refl eq_refl).
Defined.

(** ** The shape of a deck *)

(** X25.  The slides of a deck.  A deck that is made starts with the
    title slide, whose title is the document's [title], or
    [Untitled Presentation] without one, and the slide [Overview]; then
    comes one slide per item of [slides]; then, exactly when the
    conclusion is neither absent nor empty, zero nor [null], one slide
    [Conclusion] whose only paragraph is a bullet holding it. *)
Theorem create_presentation_shape {lib : pptx} d slides :
  create_presentation (JDict d) = Ok slides ->
  exists overview_slide content_slides items,
    py_iter match dict_get "slides" d with Some v => v | None => JList [] end
    = Ok items
    /\ length content_slides = length items
    /\ sl_title overview_slide = JStr "Overview"
    /\ slides
       = {| sl_title := match dict_get "title" d with
                        | Some t => t
                        | None => JStr "Untitled Presentation"
                        end;
            sl_body := [] |}
         :: overview_slide :: content_slides
         ++ match dict_get "conclusion" d with
            | Some c =>
                if truthy c
                then [{| sl_title := JStr "Conclusion";
                         sl_body := [BulletPara c] |}]
                else []
            | None => []
            end.
Proof.
  unfold create_presentation, front_slides. cbn [py_get bind]. intros H.
  bind_ok H. rename E into Front. bind_ok H. rename E into Last.
  injection H as <-.
  repeat bind_ok Front. injection Front as <-.
  exists a2, a4, a3. split; [reflexivity|]. split; [|split].
  - now apply for_each_length in E2.
  - unfold add_slide in E0.
    destruct (_render_topics _) as [body [[]|e]]; [|discriminate].
    now injection E0 as <-.
  - simpl. do 3 f_equal.
    unfold conclusion_slide in Last. cbn [py_get py_getitem bind] in Last.
    destruct (dict_get "conclusion" d) as [c|]; cbn [truthy] in Last;
      [|now injection Last as <-].
    destruct (truthy c); [|now injection Last as <-].
    cbn [bind] in Last. rewrite bullets_topic_slide in Last. cbn [bind] in Last.
    now injection Last as <-.
Qed.

Lemma create_presentation_shape_example :
  exists overview_slide content_slides (items : list json),
    Ok [] = Ok items
    /\ length content_slides = length items
    /\ sl_title overview_slide = JStr "Overview"
    /\ [{| sl_title := JStr "Untitled Presentation"; sl_body := [] |};
        {| sl_title := JStr "Overview"; sl_body := [BulletPara (JStr "")] |};
        {| sl_title := JStr "Conclusion";
           sl_body := [BulletPara (JNum (PInt 5))] |}]
       = {| sl_title := JStr "Untitled Presentation"; sl_body := [] |}
         :: overview_slide :: content_slides
         ++ [{| sl_title := JStr "Conclusion";
                sl_body := [BulletPara (JNum (PInt 5))] |}].
Proof.
  exact (create_presentation_shape (lib := example_pptx)
           [("conclusion", JNum (PInt 5))]
           [{| sl_title := JStr "Untitled Presentation"; sl_body := [] |};
            {| sl_title := JStr "Overview"; sl_body := [BulletPara (JStr "")] |};
            {| sl_title := JStr "Conclusion";
               sl_body := [BulletPara (JNum (PInt 5))] |}]
           eq_refl).
Defined.
